(** * cv_shelves: detection normalisation, duplicate guard and history queries

    A shallow embedding of [app/services/ml_service.py], [DB/schema.py],
    [DB/crud.py] and the prediction and history endpoints of
    [app/routers.py], with the properties of the specification stated
    against it.

    Conventions of the embedding.
    - A finite float (a confidence, a threshold) is the rational [Q] it
      denotes.  Where the code rounds, the rounding is explicit: numpy
      compares a float32 array with a Python float in float32, and Python
      adds and divides in binary64 ([Float]).  Comparisons are the boolean
      ones of [QArith].
    - Box coordinates are only carried around, never computed with; they
      are a type of their own that also has the non-finite values.
    - [None] is [option]; a raised exception is [None] in the ML service
      and an explicit error response in the endpoints.
    - A SQL NULL is [None], and a WHERE clause is evaluated in SQL's
      three-valued logic. *)

From Stdlib Require Import String Ascii List Bool Arith ZArith QArith Lia.
From Stdlib Require Import Qpower Qabs Qround Qfield Lqa.
From Stdlib Require Import Sorted Permutation.
Import ListNotations.

Local Open Scope string_scope.
Local Open Scope list_scope.
Local Open Scope Q_scope.

(** ** Binary floating point

    IEEE 754 rounding to nearest, ties to even, on the values of the
    finite floats.  A format is its precision [prec] and the exponent
    [emin] of its smallest positive number; the exponent is not bounded
    above, so that a number beyond the range of the format rounds to a
    number beyond it instead of to an infinity. *)

Module Float.

(** The integer part of the binary logarithm of a positive rational. *)
Definition ilog2 (x : Q) : Z :=
  let e := (Z.log2 (Qnum x) - Z.log2 (Zpos (Qden x)))%Z in
  if Qle_bool (2 ^ e) x then e else (e - 1)%Z.

(** The nearest integer, the even one of two that are equally near. *)
Definition rne (x : Q) : Z :=
  let f := Qfloor x in
  match Qcompare (x - inject_Z f) (1 # 2) with
  | Lt => f
  | Gt => (f + 1)%Z
  | Eq => if Z.even f then f else (f + 1)%Z
  end.

(** The exponent of the unit in the last place of a positive [x]:
    [prec] digits from the leading one, and never below [emin]
    (subnormal numbers). *)
Definition ulp_exponent (prec emin : Z) (x : Q) : Z :=
  Z.max (ilog2 x - (prec - 1)) emin.

(** The nearest multiple of the unit in the last place, for [x > 0]. *)
Definition nearest (prec emin : Z) (x : Q) : Q :=
  let q := ulp_exponent prec emin x in
  inject_Z (rne (x / 2 ^ q)) * 2 ^ q.

Definition round (prec emin : Z) (x : Q) : Q :=
  match Qcompare x 0 with
  | Eq => 0
  | Gt => nearest prec emin x
  | Lt => - nearest prec emin (- x)
  end.

(** numpy's [float32] and Python's [float]. *)
Definition binary32 (x : Q) : Q := round 24 (-149) x.
Definition binary64 (x : Q) : Q := round 53 (-1074) x.

End Float.

(** ** Python and numpy helpers *)

Module Py.

(** [sum(xs)] over floats, as CPython 3.11 computes it: from left to
    right, each addition rounded.  The sum of the confidences of a result
    is far below the range of binary64. *)
Definition sum (xs : list Q) : Q :=
  fold_left (fun total x => Float.binary64 (total + x)) xs 0.

(** [conf >= threshold] for an entry of a [float32] array and a Python
    [float]: numpy compares in [float32], with the threshold rounded to
    it.  The confidences are finite [float32] values; a threshold beyond
    the range of [float32], rounded to an infinity, compares with them
    as its rounding with an unbounded exponent does. *)
Definition ge_float32 (threshold conf : Q) : bool :=
  Qle_bool (Float.binary32 threshold) conf.

(** [len(xs)] as a float divisor. *)
Definition len (xs : list Q) : Q := inject_Z (Z.of_nat (length xs)).

(** [int(x)] on a float: truncation towards zero. *)
Definition int (x : Q) : Z := Z.quot (Qnum x) (Zpos (Qden x)).

(** Truthiness of an optional string: [None] and [""] are falsy. *)
Definition truthy (s : option string) : bool :=
  match s with
  | Some EmptyString | None => false
  | Some _ => true
  end.

(** Rows of [xs] at which the boolean mask is [True]. *)
Fixpoint select {A : Type} (xs : list A) (mask : list bool) : list A :=
  match xs, mask with
  | x :: xs', b :: mask' => if b then x :: select xs' mask' else select xs' mask'
  | _, _ => []
  end.

(** numpy boolean-mask indexing [xs[mask]]: an [IndexError] when the mask
    does not have one entry per row. *)
Definition bool_index {A : Type} (xs : list A) (mask : list bool)
  : option (list A) :=
  if Nat.eqb (length xs) (length mask) then Some (select xs mask) else None.

(** [a[mask] if a is not None and len(a) > 0 else dflt] *)
Definition index_if_present {A B : Type} (a : option (list A))
    (mask : list bool) (some : list A -> B) (dflt : B) : option B :=
  match a with
  | Some rows =>
      if Nat.ltb 0 (length rows)
      then option_map some (bool_index rows mask)
      else Some dflt
  | None => Some dflt
  end.

(** [a.tolist() if a is not None and len(a) > 0 else []] *)
Definition tolist_if_present {A : Type} (a : option (list A)) : list A :=
  match a with
  | Some rows => if Nat.ltb 0 (length rows) then rows else []
  | None => []
  end.

End Py.

(** ** Unified detection schema ([ml_service.py]) *)

(** A box coordinate: a finite float or one of the non-finite ones. *)
Inductive coord : Type :=
| Finite (q : Q)
| PosInf
| NegInf
| NaN.

Definition is_finite (c : coord) : bool :=
  match c with Finite _ => true | _ => false end.

(** Python's [a < b] on floats; every comparison with [nan] is false. *)
Definition coord_ltb (a b : coord) : bool :=
  match a, b with
  | NaN, _ | _, NaN => false
  | PosInf, _ => false
  | _, NegInf => false
  | NegInf, _ => true
  | _, PosInf => true
  | Finite x, Finite y => negb (Qle_bool y x)
  end.

(** One row of an [xyxy] array. *)
Record Box : Type := mkBox { x1 : coord; y1 : coord; x2 : coord; y2 : coord }.

(** The geometry the specification asks of a box: finite coordinates with
    [x1 < x2] and [y1 < y2]. *)
Definition valid_geometry (b : Box) : bool :=
  is_finite (x1 b) && is_finite (y1 b) && is_finite (x2 b) && is_finite (y2 b)
  && coord_ltb (x1 b) (x2 b) && coord_ltb (y1 b) (y2 b).

(** A detection dict [{'xyxy', 'confidence', 'class_id', 'class_name'}]. *)
Record Detection : Type := mkDetection {
  d_xyxy : Box;
  d_confidence : Q;
  d_class_id : Z;
  d_class_name : string
}.

(** A result dict [{'detections', 'confidence', 'model'}]. *)
Record Result : Type := mkResult {
  r_detections : list Detection;
  r_confidence : Q;
  r_model : string
}.

(** ** Raw detector outputs *)

(** What the RF-DETR model's [predict] returns: the fields of a
    [supervision.Detections] that the service reads.  [seg_mask] is its
    field [mask], one segmentation mask per row (the pixels are never read,
    only indexed by row); [data] and [metadata] are copied and never read, and are left
    out. *)
Record Detections : Type := mkDetections {
  xyxy : option (list Box);
  confidence : option (list Q);
  class_id : option (list Z);
  seg_mask : option (list (list (list bool)));
  tracker_id : option (list Z)
}.

(** The invariant [supervision.Detections] validates on construction: [xyxy]
    has [n] rows and every optional field that is present has [n] entries. *)
Definition rows_agree {A : Type} (n : nat) (a : option (list A)) : bool :=
  match a with Some rows => Nat.eqb (length rows) n | None => true end.

Definition detections_valid (d : Detections) : bool :=
  match xyxy d with
  | Some rows =>
      rows_agree (length rows) (confidence d)
      && rows_agree (length rows) (class_id d)
      && rows_agree (length rows) (seg_mask d)
      && rows_agree (length rows) (tracker_id d)
  | None => false
  end.

(** One element of what the YOLO model's [predict] returns.  An ultralytics
    [Boxes] is a view on one tensor with a row per detection, so [xyxy],
    [conf] and [cls] are columns of the same rows; [cls] is a float. *)
Record BoxRow : Type := mkBoxRow { b_xyxy : Box; b_conf : Q; b_cls : Q }.

Record YoloResult : Type := mkYoloResult {
  boxes : option (list BoxRow);
  names : list (Z * string)
}.

(** [result.names[k]]: a [KeyError] when [k] is not a key. *)
Fixpoint names_get (names : list (Z * string)) (k : Z) : option string :=
  match names with
  | [] => None
  | (k', v) :: rest => if Z.eqb k' k then Some v else names_get rest k
  end.

(** ** [MLService] *)

Module MLService.

Section WithModels.

(** The loaded models: their [predict] on the bytes of the image file.
    RF-DETR is called with the image only; YOLO also receives the
    confidence threshold as [conf]. *)
Variable rfdetr_model_predict : string -> Detections.
Variable yolo_model_predict : string -> Q -> list YoloResult.

(** The three lists of [filtered_detections] that are read afterwards. *)
Record Filtered : Type := mkFiltered {
  f_xyxy : list Box;
  f_confidence : list Q;
  f_class_id : list Z
}.

(** The [if ... else ...] that builds [filtered_detections]. *)
Definition filter_detections (detections : Detections)
    (confidence_threshold : Q) : option Filtered :=
  match confidence detections with
  | Some conf =>
      if Nat.ltb 0 (length conf) then
        let mask := map (Py.ge_float32 confidence_threshold) conf in
        match Py.index_if_present (xyxy detections) mask (fun l => l) [],
              Py.index_if_present (confidence detections) mask (fun l => l) [],
              Py.index_if_present (class_id detections) mask (fun l => l) [],
              Py.index_if_present (seg_mask detections) mask Some None,
              Py.index_if_present (tracker_id detections) mask Some None with
        | Some xs, Some cs, Some ks, Some _, Some _ => Some (mkFiltered xs cs ks)
        | _, _, _, _, _ => None
        end
      else
        Some (mkFiltered (Py.tolist_if_present (xyxy detections))
                         (Py.tolist_if_present (confidence detections))
                         (Py.tolist_if_present (class_id detections)))
  | None =>
      Some (mkFiltered (Py.tolist_if_present (xyxy detections))
                       (Py.tolist_if_present (confidence detections))
                       (Py.tolist_if_present (class_id detections)))
  end.

(** [sum(confidences) / len(confidences) if confidences else 0.0], the
    quotient rounded as the sum is. *)
Definition avg_confidence (confidences : list Q) : Q :=
  match confidences with
  | [] => 0
  | _ :: _ => Float.binary64 (Py.sum confidences / Py.len confidences)
  end.

(** The body of [for i in range(len(xyxy_list))]. *)
Definition detection_at (xyxy_list : list Box) (confidences : list Q)
    (class_id_list : list Z) (i : nat) : list Detection :=
  match nth_error xyxy_list i, nth_error confidences i with
  | Some box, Some c =>
      [ mkDetection box c
          (match nth_error class_id_list i with Some k => k | None => 0%Z end)
          "item" ]
  | _, _ => []
  end.

Definition detections_list (xyxy_list : list Box) (confidences : list Q)
    (class_id_list : list Z) : list Detection :=
  flat_map (detection_at xyxy_list confidences class_id_list)
           (seq 0 (length xyxy_list)).

Definition predict_rfdetr (image_path : string) (confidence_threshold : Q)
  : option Result :=
  let detections := rfdetr_model_predict image_path in
  match filter_detections detections confidence_threshold with
  | None => None
  | Some filtered_detections =>
      let confidences := f_confidence filtered_detections in
      Some (mkResult
              (detections_list (f_xyxy filtered_detections) confidences
                               (f_class_id filtered_detections))
              (avg_confidence confidences)
              "rfdetr")
  end.

(** The inner loop over the boxes of one result. *)
Fixpoint convert_boxes (names : list (Z * string)) (rows : list BoxRow)
  : option (list Detection) :=
  match rows with
  | [] => Some []
  | row :: rest =>
      match names_get names (Py.int (b_cls row)), convert_boxes names rest with
      | Some name, Some ds =>
          Some (mkDetection (b_xyxy row) (b_conf row) (Py.int (b_cls row)) name :: ds)
      | _, _ => None
      end
  end.

(** The outer loop [for result in results]. *)
Fixpoint convert_results (results : list YoloResult) : option (list Detection) :=
  match results with
  | [] => Some []
  | result :: rest =>
      let here :=
        match boxes result with
        | Some rows =>
            if Nat.ltb 0 (length rows) then convert_boxes (names result) rows
            else Some []
        | None => Some []
        end in
      match here, convert_results rest with
      | Some ds, Some ds' => Some (ds ++ ds')
      | _, _ => None
      end
  end.

Definition predict_yolo (image_path : string) (confidence_threshold : Q)
  : option Result :=
  let results := yolo_model_predict image_path confidence_threshold in
  match convert_results results with
  | None => None
  | Some detections =>
      Some (mkResult detections
                     (avg_confidence (map d_confidence detections))
                     "yolo")
  end.

End WithModels.

End MLService.

(** ** SQL expressions

    A column that is NULL compares to NULL (here [None]), and a row is kept
    by WHERE only when the condition is true. *)

Module SQL.

Definition tv : Type := option bool.

Definition and_ (a b : tv) : tv :=
  match a, b with
  | Some false, _ | _, Some false => Some false
  | Some true, Some true => Some true
  | _, _ => None
  end.

Definition or_ (a b : tv) : tv :=
  match a, b with
  | Some true, _ | _, Some true => Some true
  | Some false, Some false => Some false
  | _, _ => None
  end.

(** [and_] applied to a list of clauses. *)
Definition and_all (clauses : list tv) : tv := fold_right and_ (Some true) clauses.

Definition where_ (c : tv) : bool :=
  match c with Some true => true | _ => false end.

(** [column == value], [column >= value], [column <= value] *)
Definition eq_str (column : option string) (value : string) : tv :=
  option_map (fun c => String.eqb c value) column.

Definition eq_float (column : option Q) (value : Q) : tv :=
  option_map (fun c => Qeq_bool c value) column.

Definition ge (column : option Q) (value : Q) : tv :=
  option_map (fun c => Qle_bool value c) column.

Definition le (column : option Q) (value : Q) : tv :=
  option_map (fun c => Qle_bool c value) column.

(** ASCII lower case. *)
Definition lower (c : ascii) : ascii :=
  let n := nat_of_ascii c in
  if (Nat.leb 65 n && Nat.leb n 90)%bool then ascii_of_nat (n + 32) else c.

(** LIKE on lower-cased text, as PostgreSQL, the database of
    [DB/database.py], evaluates it: [%] matches any run of characters, [_]
    any one character, and a backslash makes the character after it stand
    for itself.  PostgreSQL raises on a pattern that ends in a lone
    backslash; the patterns of [get_predictions] end in [%], so that no
    pattern it builds does, and the case is [false] here. *)
Fixpoint like (pattern text : list ascii) : bool :=
  match pattern with
  | [] => match text with [] => true | _ :: _ => false end
  | "\"%char :: [] => false
  | "\"%char :: c :: pattern' =>
      match text with
      | [] => false
      | d :: text' => (Ascii.eqb c d && like pattern' text')%bool
      end
  | "%"%char :: pattern' =>
      (fix any (t : list ascii) : bool :=
         (like pattern' t ||
          match t with [] => false | _ :: t' => any t' end)%bool) text
  | "_"%char :: pattern' =>
      match text with [] => false | _ :: text' => like pattern' text' end
  | c :: pattern' =>
      match text with
      | [] => false
      | d :: text' => (Ascii.eqb c d && like pattern' text')%bool
      end
  end.

(** [column.ilike(pattern)] *)
Definition ilike (column : option string) (pattern : string) : tv :=
  option_map
    (fun c => like (map lower (list_ascii_of_string pattern))
                   (map lower (list_ascii_of_string c)))
    column.

End SQL.

(** ** Schema ([DB/schema.py]) *)

(** A row of [users]; of its columns only [id] and [username] are read by
    the code modelled here. *)
Module User.
Record t : Type := mk { id : string; username : string }.
End User.

(** The JSON column [results]: the result dict of one detector, or
    [{"rfdetr": ..., "yolo": ...}]. *)
Inductive ResultsJSON : Type :=
| Single (result : Result)
| Combined (rfdetr yolo : Result).

(** A row of [predictions].  [id] comes from [uuid4] and [created_at] from
    [datetime.utcnow] when the row is inserted. *)
Module Prediction.
Record t : Type := mk {
  id : string;
  user_id : option string;
  model : string;
  image_url : option string;
  image_base64 : option string;
  image_hash : option string;
  results : ResultsJSON;
  confidence : option Q;
  rfdetr_confidence : option Q;
  yolo_confidence : option Q;
  confidence_threshold : option Q;
  rfdetr_threshold : option Q;
  yolo_threshold : option Q;
  comment : option string;
  created_at : Z
}.

Definition set_comment (p : t) (c : option string) : t :=
  mk (id p) (user_id p) (model p) (image_url p) (image_base64 p)
     (image_hash p) (results p) (confidence p) (rfdetr_confidence p)
     (yolo_confidence p) (confidence_threshold p) (rfdetr_threshold p)
     (yolo_threshold p) c (created_at p).
End Prediction.

(** The database: the two tables, [predictions] in insertion order. *)
Record DB : Type := mkDB {
  users : list User.t;
  predictions : list Prediction.t
}.

(** ** [PredictionCRUD] ([DB/crud.py]) *)

Module PredictionCRUD.

(** [db.add(prediction); db.commit(); db.refresh(prediction)].  [new_id]
    and [now] are the values of the column defaults.  This is the commit
    that the database accepts, which is the one of the callers modelled
    here: they pass no id, so the id is a fresh uuid, and the id of the
    authenticated user, who is stored, as [user_id].  For an id that is
    already stored the commit raises [IntegrityError] instead, and so it
    does under PostgreSQL for a [user_id] that names no stored user. *)
Definition create_prediction (new_id : string) (now : Z) (db : DB)
    (model : string) (results : ResultsJSON)
    (user_id image_url image_base64 image_hash : option string)
    (confidence rfdetr_confidence yolo_confidence : option Q)
    (confidence_threshold rfdetr_threshold yolo_threshold : option Q)
    (comment : option string) : DB * Prediction.t :=
  let prediction :=
    Prediction.mk new_id user_id model image_url image_base64 image_hash
      results confidence rfdetr_confidence yolo_confidence
      confidence_threshold rfdetr_threshold yolo_threshold comment now in
  (mkDB (users db) (predictions db ++ [prediction]), prediction).

(** [query.filter(Prediction.id == prediction_id).first()] *)
Definition get_prediction_by_id (db : DB) (prediction_id : string)
  : option Prediction.t :=
  find (fun p => String.eqb (Prediction.id p) prediction_id) (predictions db).

(** The user joined to a prediction by the outer join on [user_id]. *)
Definition joined_username (db : DB) (p : Prediction.t) : option string :=
  match Prediction.user_id p with
  | Some uid =>
      option_map User.username
        (find (fun u => String.eqb (User.id u) uid) (users db))
  | None => None
  end.

(** [order_by(desc(Prediction.created_at))].  The query names no second
    key: among rows of equal creation time the database is free in their
    order, also from one query to the next.  Here they keep their
    insertion order, and what is proved of pages either holds for every
    such order (length, sortedness, membership) or assumes pairwise
    different creation times. *)
Fixpoint insert_desc (p : Prediction.t) (sorted : list Prediction.t)
  : list Prediction.t :=
  match sorted with
  | [] => [p]
  | q :: rest =>
      if (Prediction.created_at q <=? Prediction.created_at p)%Z
      then p :: sorted
      else q :: insert_desc p rest
  end.

Definition order_by_created_at_desc (rows : list Prediction.t)
  : list Prediction.t :=
  fold_right insert_desc [] rows.

(** The clause list [confidence_filter] and its conjunction. *)
Definition confidence_filter (min_confidence max_confidence : option Q)
    (p : Prediction.t) : list SQL.tv :=
  (match min_confidence with
   | Some lo => [SQL.ge (Prediction.confidence p) lo]
   | None => []
   end) ++
  (match max_confidence with
   | Some hi => [SQL.le (Prediction.confidence p) hi]
   | None => []
   end).

(** [skip] and [limit] are the values the endpoint has validated, hence
    natural numbers. *)
Definition get_predictions (db : DB) (skip limit : nat)
    (user_id model search_text : option string)
    (min_confidence max_confidence : option Q) : list Prediction.t :=
  let query := predictions db in
  let query :=
    match user_id with
    | Some uid =>
        if Py.truthy user_id
        then filter (fun p => SQL.where_ (SQL.eq_str (Prediction.user_id p) uid)) query
        else query
    | None => query
    end in
  let query :=
    match model with
    | Some m =>
        if (Py.truthy model && negb (String.eqb m "all"))%bool
        then filter (fun p => String.eqb (Prediction.model p) m) query
        else query
    | None => query
    end in
  let query :=
    match search_text with
    | Some text =>
        if Py.truthy search_text
        then
          let pattern := ("%" ++ text ++ "%")%string in
          filter (fun p =>
                    SQL.where_
                      (SQL.or_ (SQL.ilike (Prediction.comment p) pattern)
                         (SQL.or_ (SQL.ilike (joined_username db p) pattern)
                                  (SQL.ilike (Some (Prediction.id p)) pattern))))
                 query
        else query
    | None => query
    end in
  let query :=
    match min_confidence, max_confidence with
    | None, None => query
    | _, _ =>
        filter (fun p =>
                  SQL.where_ (SQL.and_all
                                (confidence_filter min_confidence max_confidence p)))
               query
    end in
  firstn limit (skipn skip (order_by_created_at_desc query)).

(** Replaces the first row with the given id, as the UPDATE of the
    object that [first()] returned does. *)
Fixpoint update_row (rows : list Prediction.t) (prediction_id : string)
    (f : Prediction.t -> Prediction.t) : list Prediction.t :=
  match rows with
  | [] => []
  | p :: rest =>
      if String.eqb (Prediction.id p) prediction_id
      then f p :: rest
      else p :: update_row rest prediction_id f
  end.

Definition update_prediction_comment (db : DB) (prediction_id : string)
    (comment : string) : DB * option Prediction.t :=
  match find (fun p => String.eqb (Prediction.id p) prediction_id)
             (predictions db) with
  | Some prediction =>
      let prediction' := Prediction.set_comment prediction (Some comment) in
      (mkDB (users db)
            (update_row (predictions db) prediction_id
               (fun p => Prediction.set_comment p (Some comment))),
       Some prediction')
  | None => (db, None)
  end.

(** Removes the first row with the given id, as the DELETE of the object
    that [first()] returned does. *)
Fixpoint delete_row (rows : list Prediction.t) (prediction_id : string)
  : list Prediction.t :=
  match rows with
  | [] => []
  | p :: rest =>
      if String.eqb (Prediction.id p) prediction_id
      then rest
      else p :: delete_row rest prediction_id
  end.

Definition delete_prediction (db : DB) (prediction_id : string) : DB * bool :=
  match find (fun p => String.eqb (Prediction.id p) prediction_id)
             (predictions db) with
  | Some _ => (mkDB (users db) (delete_row (predictions db) prediction_id), true)
  | None => (db, false)
  end.

(** [db.query(Prediction).count()] *)
Definition get_predictions_count (db : DB) : nat := length (predictions db).

(** [db.query(Prediction).filter(Prediction.model == model).count()] *)
Definition get_predictions_by_model (db : DB) (model : string) : nat :=
  length (filter (fun p => String.eqb (Prediction.model p) model)
                 (predictions db)).

End PredictionCRUD.

(** ** Users with all their columns ([DB/schema.py], [DB/crud.py])

    The code about accounts reads the columns of [users] that the code
    about predictions does not; a row with all of them carries the [User.t]
    that the latter sees. *)

Module UserRow.
Record t : Type := mk {
  user : User.t;
  password_hash : string;
  email : option string;
  created_at : Z;
  is_active : bool;
  is_superuser : bool
}.

Definition id (r : t) : string := User.id (user r).
Definition username (r : t) : string := User.username (user r).
End UserRow.

(** The two tables with all their columns, and the database that the code
    about predictions sees of them. *)
Record Site : Type := mkSite {
  user_rows : list UserRow.t;
  prediction_rows : list Prediction.t
}.

Definition database (site : Site) : DB :=
  mkDB (map UserRow.user (user_rows site)) (prediction_rows site).

(** What an endpoint or a dependency does: it answers, or it raises an
    [HTTPException] with a status code. *)
Inductive Reply (A : Type) : Type :=
| Answer (content : A)
| HTTPException (status_code : Z).

Arguments Answer {A} content.
Arguments HTTPException {A} status_code.

Module UserCRUD.

Definition get_user_by_id (site : Site) (user_id : string) : option UserRow.t :=
  find (fun u => String.eqb (UserRow.id u) user_id) (user_rows site).

Definition get_user_by_username (site : Site) (username : string)
  : option UserRow.t :=
  find (fun u => String.eqb (UserRow.username u) username) (user_rows site).

Definition get_all_users (site : Site) : list UserRow.t := user_rows site.

Definition get_superusers (site : Site) : list UserRow.t :=
  filter UserRow.is_superuser (user_rows site).

(** The first row with the given id, changed by [f]; the other rows. *)
Fixpoint update_first (rows : list UserRow.t) (user_id : string)
    (f : UserRow.t -> UserRow.t) : list UserRow.t :=
  match rows with
  | [] => []
  | u :: rest =>
      if String.eqb (UserRow.id u) user_id
      then f u :: rest
      else u :: update_first rest user_id f
  end.

Fixpoint delete_first (rows : list UserRow.t) (user_id : string)
  : list UserRow.t :=
  match rows with
  | [] => []
  | u :: rest =>
      if String.eqb (UserRow.id u) user_id
      then rest
      else u :: delete_first rest user_id
  end.

Definition set_superuser (flag : bool) (u : UserRow.t) : UserRow.t :=
  UserRow.mk (UserRow.user u) (UserRow.password_hash u) (UserRow.email u)
    (UserRow.created_at u) (UserRow.is_active u) flag.

Definition make_superuser (site : Site) (user_id : string) : Site * bool :=
  match get_user_by_id site user_id with
  | Some _ =>
      (mkSite (update_first (user_rows site) user_id (set_superuser true))
              (prediction_rows site), true)
  | None => (site, false)
  end.

Definition remove_superuser (site : Site) (user_id : string) : Site * bool :=
  match get_user_by_id site user_id with
  | Some _ =>
      (mkSite (update_first (user_rows site) user_id (set_superuser false))
              (prediction_rows site), true)
  | None => (site, false)
  end.

(** The unique constraints on [username] and on [email]; NULL emails do
    not collide. *)
Definition username_taken (rows : list UserRow.t) (username : string) : bool :=
  existsb (fun u => String.eqb (UserRow.username u) username) rows.

Definition email_taken (rows : list UserRow.t) (email : option string) : bool :=
  match email with
  | Some e =>
      existsb (fun u =>
                 match UserRow.email u with
                 | Some e' => String.eqb e' e
                 | None => false
                 end) rows
  | None => false
  end.

Section WithBcrypt.

(** [bcrypt.hashpw] of a password and a salt, and [bcrypt.checkpw] of a
    password and a hash. *)
Variable hashpw : string -> string -> string.
Variable checkpw : string -> string -> bool.

(** [salt] is what [bcrypt.gensalt()] returns; a password that is [None]
    has no [encode] and raises. *)
Definition hash_password (salt : string) (password : option string)
  : option string :=
  option_map (fun p => hashpw p salt) password.

Definition verify_password (password hashed_password : string) : bool :=
  checkpw password hashed_password.

(** [None] is the exception: of [hash_password], or the [IntegrityError]
    of the commit when the username or the email is taken.  [new_id] and
    [now] are the column defaults, and a new row is active. *)
Definition create_user (new_id : string) (now : Z) (salt : string)
    (site : Site) (username : string) (password email : option string)
    (is_superuser : bool) : option (Site * UserRow.t) :=
  match hash_password salt password with
  | None => None
  | Some password_hash =>
      if (username_taken (user_rows site) username
          || email_taken (user_rows site) email)%bool
      then None
      else
        let user :=
          UserRow.mk (User.mk new_id username) password_hash email now true
                     is_superuser in
        Some (mkSite (user_rows site ++ [user]) (prediction_rows site), user)
  end.

Definition authenticate_user (site : Site) (username password : string)
  : option UserRow.t :=
  match find (fun u => String.eqb (UserRow.username u) username)
             (user_rows site) with
  | Some user =>
      if verify_password password (UserRow.password_hash user)
      then Some user else None
  | None => None
  end.

End WithBcrypt.

End UserCRUD.

(** ** Authentication ([app/middleware.py])

    [credentials] is what the bearer scheme extracted: the token, or
    [None] without an authorization header. *)

Module Middleware.

Definition get_current_user (credentials : option string) (site : Site)
  : Reply UserRow.t :=
  match credentials with
  | None => HTTPException 401
  | Some user_id =>
      match UserCRUD.get_user_by_id site user_id with
      | None => HTTPException 401
      | Some user =>
          if UserRow.is_active user then Answer user else HTTPException 401
      end
  end.

Definition get_optional_user (credentials : option string) (site : Site)
  : option UserRow.t :=
  match credentials with
  | None => None
  | Some user_id =>
      match UserCRUD.get_user_by_id site user_id with
      | Some user => if UserRow.is_active user then Some user else None
      | None => None
      end
  end.

Definition get_superuser (credentials : option string) (site : Site)
  : Reply UserRow.t :=
  match credentials with
  | None => HTTPException 401
  | Some user_id =>
      match UserCRUD.get_user_by_id site user_id with
      | None => HTTPException 401
      | Some user =>
          if negb (UserRow.is_active user) then HTTPException 401
          else if negb (UserRow.is_superuser user) then HTTPException 403
          else Answer user
      end
  end.

End Middleware.

(** ** Endpoints ([app/routers.py])

    Each prediction endpoint is modelled from the point where the upload
    has passed [validate_image_file] and has been written to the temporary
    file; [image] is the content of that file.  The caller is the user the
    authentication dependency has resolved. *)

Module Routers.

(** What a prediction endpoint answers: the duplicate notice
    [{"error": ..., "is_duplicate": True, "duplicate_id": ...}], the
    results with [prediction_id] and [image_base64] added, or the
    [HTTPException(500)] that replaces any exception. *)
Inductive PredictResponse : Type :=
| DuplicateFound (duplicate_id : string)
| Predicted (results : ResultsJSON) (prediction_id : string)
            (image_base64 : string)
| InternalServerError.

(** What a history endpoint answers: the content, FastAPI's 422 for the
    parameters that break their declaration, or the 404. *)
Inductive HistoryResponse (A : Type) : Type :=
| OK (content : A)
| Unprocessable (parameters : list string)
| NotFound.

Arguments OK {A} content.
Arguments Unprocessable {A} parameters.
Arguments NotFound {A}.

(** The body of the answer of [get_predictions]. *)
Record Page : Type := mkPage {
  page_predictions : list Prediction.t;
  page_total : nat;
  page_skip : Z;
  page_limit : Z
}.

(** The bounds declared with [Query(..., ge=, le=)]: the parameters that
    FastAPI rejects before the endpoint body runs. *)
Definition in_unit_interval (c : option Q) : bool :=
  match c with
  | Some c => (Qle_bool 0 c && Qle_bool c 1)%bool
  | None => true
  end.

Definition rejected_parameters (skip limit : Z)
    (min_confidence max_confidence : option Q) : list string :=
  (if (0 <=? skip)%Z then [] else ["skip"]) ++
  (if ((1 <=? limit) && (limit <=? 1000))%Z%bool then [] else ["limit"]) ++
  (if in_unit_interval min_confidence then [] else ["min_confidence"]) ++
  (if in_unit_interval max_confidence then [] else ["max_confidence"]).

Definition get_predictions (skip limit : Z)
    (user_id model search_text : option string)
    (min_confidence max_confidence : option Q) (db : DB)
  : HistoryResponse Page :=
  match rejected_parameters skip limit min_confidence max_confidence with
  | [] =>
      let predictions :=
        PredictionCRUD.get_predictions db (Z.to_nat skip) (Z.to_nat limit)
          user_id model search_text min_confidence max_confidence in
      OK (mkPage predictions (length predictions) skip limit)
  | (_ :: _) as parameters => Unprocessable parameters
  end.

(** [comment] is a required form field, [Form(...)]: FastAPI takes an
    empty value of a form field for a missing one and answers 422 before
    the body runs. *)
Definition update_prediction_comment (prediction_id : string)
    (comment : string) (db : DB) : HistoryResponse Prediction.t * DB :=
  if String.eqb comment ""
  then (Unprocessable ["comment"], db)
  else
    match PredictionCRUD.update_prediction_comment db prediction_id comment with
    | (db', Some prediction) => (OK prediction, db')
    | (db', None) => (NotFound, db')
    end.

Definition get_prediction_by_id (prediction_id : string) (db : DB)
  : HistoryResponse Prediction.t :=
  match PredictionCRUD.get_prediction_by_id db prediction_id with
  | Some prediction => OK prediction
  | None => NotFound
  end.

(** The answer of a successful [delete_prediction] is a fixed message. *)
Definition delete_prediction (prediction_id : string) (db : DB)
  : HistoryResponse unit * DB :=
  match PredictionCRUD.delete_prediction db prediction_id with
  | (db', true) => (OK tt, db')
  | (db', false) => (NotFound, db')
  end.

(** The body of the answer of [get_statistics]; [stat_message] is set
    when there is no prediction. *)
Record Statistics : Type := mkStatistics {
  stat_total : nat;
  stat_rfdetr : nat;
  stat_yolo : nat;
  stat_both : nat;
  stat_message : option string
}.

Definition get_statistics (db : DB) : Statistics :=
  let total_predictions := PredictionCRUD.get_predictions_count db in
  let rfdetr_count := PredictionCRUD.get_predictions_by_model db "rfdetr" in
  let yolo_count := PredictionCRUD.get_predictions_by_model db "yolo" in
  let both_count := PredictionCRUD.get_predictions_by_model db "both" in
  mkStatistics total_predictions rfdetr_count yolo_count both_count
    (if Nat.eqb total_predictions 0 then Some "No predictions found" else None).

(** [column == value] where the value may be [None]: SQLAlchemy renders the
    comparison with [None] as [column IS NULL]. *)
Definition eq_float_or_null (column value : option Q) : SQL.tv :=
  match value with
  | Some v => SQL.eq_float column v
  | None => Some (match column with None => true | Some _ => false end)
  end.

(** The answer of [check_duplicate]. *)
Inductive DuplicateCheck : Type :=
| IsDuplicate (duplicate_id : string)
| NotDuplicate.

Definition check_duplicate (image_hash model : string)
    (rfdetr_threshold yolo_threshold : option Q) (db : DB) : DuplicateCheck :=
  let query :=
    filter (fun p =>
              SQL.where_
                (SQL.and_ (SQL.eq_str (Prediction.image_hash p) image_hash)
                          (Some (String.eqb (Prediction.model p) model))))
           (predictions db) in
  let query :=
    if String.eqb model "rfdetr" then
      filter (fun p => SQL.where_
                         (eq_float_or_null (Prediction.rfdetr_threshold p)
                                           rfdetr_threshold))
             query
    else if String.eqb model "yolo" then
      filter (fun p => SQL.where_
                         (eq_float_or_null (Prediction.yolo_threshold p)
                                           yolo_threshold))
             query
    else if String.eqb model "both" then
      let query :=
        match rfdetr_threshold with
        | Some t =>
            filter (fun p => SQL.where_
                               (SQL.eq_float (Prediction.rfdetr_threshold p) t))
                   query
        | None => query
        end in
      match yolo_threshold with
      | Some t =>
          filter (fun p => SQL.where_
                             (SQL.eq_float (Prediction.yolo_threshold p) t))
                 query
      | None => query
      end
    else query in
  match query with
  | duplicate :: _ => IsDuplicate (Prediction.id duplicate)
  | [] => NotDuplicate
  end.

Section WithEnvironment.

Variable rfdetr_model_predict : string -> Detections.
Variable yolo_model_predict : string -> Q -> list YoloResult.

(** [hashlib.sha256(...).hexdigest()] and the data URL of
    [image_to_base64], both of the content of the file. *)
Variable sha256_hexdigest : string -> string.
Variable image_to_base64 : string -> string.

Definition generate_image_hash (image : string) : string :=
  sha256_hexdigest image.

(** The three conditions of a duplicate query, joined by AND. *)
Definition is_duplicate_of (image_hash model : string)
    (thresholds : Prediction.t -> SQL.tv) (p : Prediction.t) : bool :=
  SQL.where_
    (SQL.and_ (SQL.eq_str (Prediction.image_hash p) image_hash)
       (SQL.and_ (Some (String.eqb (Prediction.model p) model))
                 (thresholds p))).

Definition predict_rfdetr (new_id : string) (now : Z) (image : string)
    (confidence_threshold : Q) (comment : option string)
    (current_user : User.t) (db : DB) : PredictResponse * DB :=
  match MLService.predict_rfdetr rfdetr_model_predict image
          confidence_threshold with
  | None => (InternalServerError, db)
  | Some results =>
      let image_base64 := image_to_base64 image in
      let image_hash := generate_image_hash image in
      let duplicate :=
        find (is_duplicate_of image_hash "rfdetr"
                (fun p => SQL.eq_float (Prediction.rfdetr_threshold p)
                                       confidence_threshold))
             (predictions db) in
      match duplicate with
      | Some duplicate => (DuplicateFound (Prediction.id duplicate), db)
      | None =>
          let (db', prediction) :=
            PredictionCRUD.create_prediction new_id now db
              "rfdetr" (Single results)
              (Some (User.id current_user)) None
              (Some image_base64) (Some image_hash)
              (Some (r_confidence results)) None None
              (Some confidence_threshold) (Some confidence_threshold) None
              comment in
          (Predicted (Single results) (Prediction.id prediction) image_base64,
           db')
      end
  end.

Definition predict_yolo (new_id : string) (now : Z) (image : string)
    (confidence_threshold : Q) (comment : option string)
    (current_user : User.t) (db : DB) : PredictResponse * DB :=
  match MLService.predict_yolo yolo_model_predict image
          confidence_threshold with
  | None => (InternalServerError, db)
  | Some results =>
      let image_base64 := image_to_base64 image in
      let image_hash := generate_image_hash image in
      let duplicate :=
        find (is_duplicate_of image_hash "yolo"
                (fun p => SQL.eq_float (Prediction.yolo_threshold p)
                                       confidence_threshold))
             (predictions db) in
      match duplicate with
      | Some duplicate => (DuplicateFound (Prediction.id duplicate), db)
      | None =>
          let (db', prediction) :=
            PredictionCRUD.create_prediction new_id now db
              "yolo" (Single results)
              (Some (User.id current_user)) None
              (Some image_base64) (Some image_hash)
              (Some (r_confidence results)) None None
              (Some confidence_threshold) None (Some confidence_threshold)
              comment in
          (Predicted (Single results) (Prediction.id prediction) image_base64,
           db')
      end
  end.

Definition predict_both (new_id : string) (now : Z) (image : string)
    (rfdetr_confidence_threshold yolo_confidence_threshold : Q)
    (comment : option string) (current_user : User.t) (db : DB)
  : PredictResponse * DB :=
  match MLService.predict_rfdetr rfdetr_model_predict image
          rfdetr_confidence_threshold,
        MLService.predict_yolo yolo_model_predict image
          yolo_confidence_threshold with
  | Some rfdetr_results, Some yolo_results =>
      let image_base64 := image_to_base64 image in
      let image_hash := generate_image_hash image in
      let duplicate :=
        find (is_duplicate_of image_hash "both"
                (fun p =>
                   SQL.and_
                     (SQL.eq_float (Prediction.rfdetr_threshold p)
                                   rfdetr_confidence_threshold)
                     (SQL.eq_float (Prediction.yolo_threshold p)
                                   yolo_confidence_threshold)))
             (predictions db) in
      match duplicate with
      | Some duplicate => (DuplicateFound (Prediction.id duplicate), db)
      | None =>
          let combined_results := Combined rfdetr_results yolo_results in
          let (db', prediction) :=
            PredictionCRUD.create_prediction new_id now db
              "both" combined_results
              (Some (User.id current_user)) None
              (Some image_base64) (Some image_hash)
              None (Some (r_confidence rfdetr_results))
              (Some (r_confidence yolo_results))
              None (Some rfdetr_confidence_threshold)
              (Some yolo_confidence_threshold)
              comment in
          (Predicted combined_results (Prediction.id prediction) image_base64,
           db')
      end
  | _, _ => (InternalServerError, db)
  end.

End WithEnvironment.

(** *** Accounts

    The endpoints about users, each with the dependency that authenticates
    its caller run first. *)

(** The body of [AuthResponse], and the user dict
    [{"id", "username", "email", "createdAt", "isActive"}]. *)
Record AuthResponse : Type := mkAuthResponse {
  auth_user_id : string;
  auth_username : string;
  auth_email : option string;
  auth_message : string
}.

Record UserInfo : Type := mkUserInfo {
  info_id : string;
  info_username : string;
  info_email : option string;
  info_created_at : Z;
  info_is_active : bool
}.

Definition user_dict (u : UserRow.t) : UserInfo :=
  mkUserInfo (UserRow.id u) (UserRow.username u) (UserRow.email u)
             (UserRow.created_at u) (UserRow.is_active u).

Definition get_user_info (user_id : string) (credentials : option string)
    (site : Site) : Reply UserInfo :=
  match Middleware.get_current_user credentials site with
  | HTTPException code => HTTPException code
  | Answer _ =>
      match UserCRUD.get_user_by_id site user_id with
      | None => HTTPException 404
      | Some user => Answer (user_dict user)
      end
  end.

(** [db.delete(user)]: the relationship cascades, so the predictions of
    the user go with the row.  The answer names the deleted user. *)
Definition delete_user (user_id : string) (credentials : option string)
    (site : Site) : Reply (string * string) * Site :=
  match Middleware.get_current_user credentials site with
  | HTTPException code => (HTTPException code, site)
  | Answer current_user =>
      match UserCRUD.get_user_by_id site user_id with
      | None => (HTTPException 404, site)
      | Some user =>
          if String.eqb (UserRow.id user) (UserRow.id current_user)
          then (HTTPException 400, site)
          else
            (Answer (UserRow.username user, user_id),
             mkSite (UserCRUD.delete_first (user_rows site) (UserRow.id user))
                    (filter (fun p =>
                               negb (SQL.where_
                                       (SQL.eq_str (Prediction.user_id p)
                                                   (UserRow.id user))))
                            (prediction_rows site)))
      end
  end.

(** The assignments of [update_user] to the columns that were given. *)
Definition set_columns (username email : option string)
    (is_active : option bool) (u : UserRow.t) : UserRow.t :=
  UserRow.mk
    (User.mk (UserRow.id u)
             (match username with Some n => n | None => UserRow.username u end))
    (UserRow.password_hash u)
    (match email with Some e => Some e | None => UserRow.email u end)
    (UserRow.created_at u)
    (match is_active with Some a => a | None => UserRow.is_active u end)
    (UserRow.is_superuser u).

(** The commit fails with an [IntegrityError], hence a 500, when a column
    that was given collides with another row. *)
Definition update_user (user_id : string) (username email : option string)
    (is_active : option bool) (credentials : option string) (site : Site)
  : Reply UserInfo * Site :=
  match Middleware.get_current_user credentials site with
  | HTTPException code => (HTTPException code, site)
  | Answer _ =>
      match UserCRUD.get_user_by_id site user_id with
      | None => (HTTPException 404, site)
      | Some user =>
          let taken_by_another :=
            match username with
            | Some n =>
                match UserCRUD.get_user_by_username site n with
                | Some existing_user =>
                    negb (String.eqb (UserRow.id existing_user) user_id)
                | None => false
                end
            | None => false
            end in
          if taken_by_another then (HTTPException 400, site)
          else
            let others := UserCRUD.delete_first (user_rows site) user_id in
            let collides :=
              ((match username with
                | Some n => UserCRUD.username_taken others n
                | None => false
                end)
               || (match email with
                   | Some e => UserCRUD.email_taken others (Some e)
                   | None => false
                   end))%bool in
            if collides then (HTTPException 500, site)
            else
              (Answer (user_dict (set_columns username email is_active user)),
               mkSite (UserCRUD.update_first (user_rows site) user_id
                         (set_columns username email is_active))
                      (prediction_rows site))
      end
  end.

Definition check_superuser_status (credentials : option string) (site : Site)
  : Reply (bool * string * string) :=
  match Middleware.get_current_user credentials site with
  | HTTPException code => HTTPException code
  | Answer current_user =>
      Answer (UserRow.is_superuser current_user, UserRow.id current_user,
              UserRow.username current_user)
  end.

Definition get_all_superusers (credentials : option string) (site : Site)
  : Reply (list UserInfo) :=
  match Middleware.get_superuser credentials site with
  | HTTPException code => HTTPException code
  | Answer _ => Answer (map user_dict (UserCRUD.get_superusers site))
  end.

Definition make_user_superuser (user_id : string)
    (credentials : option string) (site : Site) : Reply unit * Site :=
  match Middleware.get_superuser credentials site with
  | HTTPException code => (HTTPException code, site)
  | Answer _ =>
      match UserCRUD.make_superuser site user_id with
      | (site', true) => (Answer tt, site')
      | (site', false) => (HTTPException 404, site')
      end
  end.

Definition remove_user_superuser (user_id : string)
    (credentials : option string) (site : Site) : Reply unit * Site :=
  match Middleware.get_superuser credentials site with
  | HTTPException code => (HTTPException code, site)
  | Answer current_user =>
      if String.eqb user_id (UserRow.id current_user)
      then (HTTPException 400, site)
      else
        match UserCRUD.remove_superuser site user_id with
        | (site', true) => (Answer tt, site')
        | (site', false) => (HTTPException 404, site')
        end
  end.

Section WithBcrypt.

Variable hashpw : string -> string -> string.
Variable checkpw : string -> string -> bool.

(** [POST /history/users]: the call [UserCRUD.create_user(db, username,
    email)] passes the email in the place of the password. *)
Definition create_user (new_id : string) (now : Z) (salt : string)
    (username : string) (email : option string)
    (credentials : option string) (site : Site) : Reply UserInfo * Site :=
  match Middleware.get_current_user credentials site with
  | HTTPException code => (HTTPException code, site)
  | Answer _ =>
      match UserCRUD.get_user_by_username site username with
      | Some _ => (HTTPException 400, site)
      | None =>
          match UserCRUD.create_user hashpw new_id now salt site username
                  email None false with
          | Some (site', user) => (Answer (user_dict user), site')
          | None => (HTTPException 500, site)
          end
      end
  end.

(** The bodies of the requests [UserRegister] and [UserLogin]. *)
Record UserRegister : Type := mkUserRegister {
  reg_username : string;
  reg_password : string;
  reg_email : option string
}.

Record UserLogin : Type := mkUserLogin {
  login_username : string;
  login_password : string
}.

Definition register_user (new_id : string) (now : Z) (salt : string)
    (user_data : UserRegister) (site : Site) : Reply AuthResponse * Site :=
  match UserCRUD.get_user_by_username site (reg_username user_data) with
  | Some _ => (HTTPException 400, site)
  | None =>
      match UserCRUD.create_user hashpw new_id now salt site
              (reg_username user_data) (Some (reg_password user_data))
              (reg_email user_data) false with
      | Some (site', user) =>
          (Answer (mkAuthResponse (UserRow.id user) (UserRow.username user)
                     (UserRow.email user) "User registered successfully"),
           site')
      | None => (HTTPException 500, site)
      end
  end.

Definition login_user (user_data : UserLogin) (site : Site)
  : Reply AuthResponse :=
  match UserCRUD.authenticate_user checkpw site (login_username user_data)
          (login_password user_data) with
  | None => HTTPException 401
  | Some user =>
      if negb (UserRow.is_active user) then HTTPException 401
      else Answer (mkAuthResponse (UserRow.id user) (UserRow.username user)
                     (UserRow.email user) "Login successful")
  end.

End WithBcrypt.

End Routers.

(** ** Notions used to state the properties *)

(** The arithmetic mean as the specification words it: the sum of the
    values over their number, and [0] for no value. *)
Definition arithmetic_mean (xs : list Q) : Q :=
  match xs with
  | [] => 0
  | _ :: _ => fold_right Qplus 0 xs / inject_Z (Z.of_nat (length xs))
  end.

(** The box and the confidence of a detection, as a pair. *)
Definition box_and_confidence (d : Detection) : Box * Q :=
  (d_xyxy d, d_confidence d).

(** The candidates of a raw RF-DETR output: its boxes zipped with its
    confidences. *)
Definition raw_boxes (d : Detections) : list Box :=
  match xyxy d with Some rows => rows | None => [] end.

Definition raw_confidences (d : Detections) : list Q :=
  match confidence d with Some conf => conf | None => [] end.

Definition candidates (d : Detections) : list (Box * Q) :=
  combine (raw_boxes d) (raw_confidences d).

(** A candidate is at or above the confidence floor, as numpy compares
    the two: in float32. *)
Definition at_or_above (floor : Q) (row : Box * Q) : bool :=
  Py.ge_float32 floor (snd row).

(** The rows of everything a YOLO [predict] returned, and the condition
    under which every class lookup in [names] succeeds. *)
Definition rows_of (result : YoloResult) : list BoxRow :=
  match boxes result with Some rows => rows | None => [] end.

Definition all_rows (results : list YoloResult) : list BoxRow :=
  flat_map rows_of results.

Definition names_cover (results : list YoloResult) : bool :=
  forallb (fun result =>
             forallb (fun row =>
                        match names_get (names result) (Py.int (b_cls row)) with
                        | Some _ => true
                        | None => false
                        end)
                     (rows_of result))
          results.

(** The box and the confidence of a row the YOLO backend returned. *)
Definition row_box_and_confidence (row : BoxRow) : Box * Q :=
  (b_xyxy row, b_conf row).

(** A confidence is a score between 0 and 1. *)
Definition between_0_and_1 (c : Q) : Prop := 0 <= c /\ c <= 1.

(** The aggregate confidence of a result is exactly [0] when the result
    has no detection; when it has at most [2 ^ k] and their confidences
    are scores between 0 and 1, it is their arithmetic mean up to
    [2 ^ (k - 52)]. *)
Definition aggregate_near_mean (k : Z) (res : Result) : Prop :=
  (r_detections res = [] -> r_confidence res = 0) /\
  (Forall between_0_and_1 (map d_confidence (r_detections res)) ->
   Py.len (map d_confidence (r_detections res)) <= 2 ^ k ->
   Qabs (r_confidence res
         - arithmetic_mean (map d_confidence (r_detections res)))
   <= 2 ^ (k - 52)).

(** ** Sample detector outputs *)

Definition box (a b c d : Q) : Box :=
  mkBox (Finite a) (Finite b) (Finite c) (Finite d).

(** An RF-DETR output of one detection whose box has [x1 > x2]. *)
Definition crossed_box : Box := box 10 0 5 5.

Definition crossed_output : Detections :=
  mkDetections (Some [crossed_box]) (Some [9 # 10]) (Some [0%Z]) None None.

(** A YOLO output of one detection whose box has non-finite coordinates. *)
Definition unbounded_box : Box := mkBox NaN (Finite 0) PosInf (Finite 5).

Definition unbounded_output : list YoloResult :=
  [ mkYoloResult (Some [mkBoxRow unbounded_box (9 # 10) 0]) [(0%Z, "bottle")] ].

(** An RF-DETR output of four detections with confidences 0.9, 0.7, 0.5
    and 0.3. *)
Definition shelf_output : Detections :=
  mkDetections
    (Some [box 0 0 10 10; box 20 0 30 10; box 40 0 50 10; box 60 0 70 10])
    (Some [9 # 10; 7 # 10; 5 # 10; 3 # 10])
    (Some [0%Z; 0%Z; 1%Z; 1%Z]) None None.

(** A YOLO output in which the backend returned a detection of confidence
    0.1, and one of two detections at 0.9 and 0.5. *)
Definition faint_output : list YoloResult :=
  [ mkYoloResult (Some [mkBoxRow (box 0 0 10 10) (1 # 10) 0]) [(0%Z, "bottle")] ].

Definition bottles_output : list YoloResult :=
  [ mkYoloResult (Some [mkBoxRow (box 0 0 10 10) (9 # 10) 0;
                        mkBoxRow (box 20 0 30 10) (5 # 10) 1])
                 [(0%Z, "bottle"); (1%Z, "can")] ].

(** What the two conversions return on [shelf_output] and [bottles_output]
    under a floor of 0.5. *)
Definition shelf_result : Result :=
  mkResult [mkDetection (box 0 0 10 10) (9 # 10) 0 "item";
            mkDetection (box 20 0 30 10) (7 # 10) 0 "item";
            mkDetection (box 40 0 50 10) (5 # 10) 1 "item"]
           (MLService.avg_confidence [9 # 10; 7 # 10; 5 # 10]) "rfdetr".

Definition bottles_result : Result :=
  mkResult [mkDetection (box 0 0 10 10) (9 # 10) 0 "bottle";
            mkDetection (box 20 0 30 10) (5 # 10) 1 "can"]
           (MLService.avg_confidence [9 # 10; 5 # 10]) "yolo".

(** ** Notions about stored records *)

(** A nullable float column holds a value in the inclusive range. *)
Definition column_in_range (column : option Q) (lo hi : Q) : Prop :=
  match column with
  | Some c => lo <= c /\ c <= hi
  | None => False
  end.

(** A nullable threshold column agrees with the threshold of a request;
    a request that does not use the detector asks nothing of its column. *)
Definition threshold_matches (column requested : option Q) : Prop :=
  match requested, column with
  | Some t, Some c => c == t
  | Some _, None => False
  | None, _ => True
  end.

(** A stored record has the content key, the model selector and the
    relevant threshold(s) of a request. *)
Definition same_key (image_hash model : string) (rfdetr_t yolo_t : option Q)
    (p : Prediction.t) : Prop :=
  Prediction.image_hash p = Some image_hash /\
  Prediction.model p = model /\
  threshold_matches (Prediction.rfdetr_threshold p) rfdetr_t /\
  threshold_matches (Prediction.yolo_threshold p) yolo_t.

(** Two rows agree on every column but [comment]. *)
Definition same_but_comment (p p' : Prediction.t) : Prop :=
  Prediction.id p' = Prediction.id p /\
  Prediction.user_id p' = Prediction.user_id p /\
  Prediction.model p' = Prediction.model p /\
  Prediction.image_url p' = Prediction.image_url p /\
  Prediction.image_base64 p' = Prediction.image_base64 p /\
  Prediction.image_hash p' = Prediction.image_hash p /\
  Prediction.results p' = Prediction.results p /\
  Prediction.confidence p' = Prediction.confidence p /\
  Prediction.rfdetr_confidence p' = Prediction.rfdetr_confidence p /\
  Prediction.yolo_confidence p' = Prediction.yolo_confidence p /\
  Prediction.confidence_threshold p' = Prediction.confidence_threshold p /\
  Prediction.rfdetr_threshold p' = Prediction.rfdetr_threshold p /\
  Prediction.yolo_threshold p' = Prediction.yolo_threshold p /\
  Prediction.created_at p' = Prediction.created_at p.

(** The invariant the specification puts on a record: two result payloads
    and two detector thresholds for the model ["both"], one of each for a
    single detector. *)
Definition payloads (r : ResultsJSON) : nat :=
  match r with Single _ => 1 | Combined _ _ => 2 end.

Definition present {A : Type} (column : option A) : nat :=
  match column with Some _ => 1 | None => 0 end.

Definition detector_thresholds (p : Prediction.t) : nat :=
  present (Prediction.rfdetr_threshold p) + present (Prediction.yolo_threshold p).

Definition record_invariant (p : Prediction.t) : bool :=
  if String.eqb (Prediction.model p) "both"
  then Nat.eqb (payloads (Prediction.results p)) 2
       && Nat.eqb (detector_thresholds p) 2
  else Nat.eqb (payloads (Prediction.results p)) 1
       && Nat.eqb (detector_thresholds p) 1.

(** ** The Predict operation

    The three prediction endpoints as the one operation of the
    specification, selected by the model of the request. *)

Inductive Request : Type :=
| RfdetrRequest (confidence_threshold : Q)
| YoloRequest (confidence_threshold : Q)
| BothRequest (rfdetr_confidence_threshold yolo_confidence_threshold : Q).

Section PredictOperation.

Variable rfdetr_model_predict : string -> Detections.
Variable yolo_model_predict : string -> Q -> list YoloResult.
Variable sha256_hexdigest : string -> string.
Variable image_to_base64 : string -> string.

Definition Predict (new_id : string) (now : Z) (image : string) (req : Request)
    (comment : option string) (current_user : User.t) (db : DB)
  : Routers.PredictResponse * DB :=
  match req with
  | RfdetrRequest t =>
      Routers.predict_rfdetr rfdetr_model_predict sha256_hexdigest
        image_to_base64 new_id now image t comment current_user db
  | YoloRequest t =>
      Routers.predict_yolo yolo_model_predict sha256_hexdigest
        image_to_base64 new_id now image t comment current_user db
  | BothRequest tr ty =>
      Routers.predict_both rfdetr_model_predict yolo_model_predict
        sha256_hexdigest image_to_base64 new_id now image tr ty comment
        current_user db
  end.

(** The results of running the detector(s) of a request, when none of them
    raises. *)
Definition inference (image : string) (req : Request) : option ResultsJSON :=
  match req with
  | RfdetrRequest t =>
      option_map Single (MLService.predict_rfdetr rfdetr_model_predict image t)
  | YoloRequest t =>
      option_map Single (MLService.predict_yolo yolo_model_predict image t)
  | BothRequest tr ty =>
      match MLService.predict_rfdetr rfdetr_model_predict image tr,
            MLService.predict_yolo yolo_model_predict image ty with
      | Some rfdetr, Some yolo => Some (Combined rfdetr yolo)
      | _, _ => None
      end
  end.

(** The condition of the duplicate query of a request. *)
Definition duplicate_condition (image : string) (req : Request)
  : Prediction.t -> bool :=
  match req with
  | RfdetrRequest t =>
      Routers.is_duplicate_of (sha256_hexdigest image) "rfdetr"
        (fun p => SQL.eq_float (Prediction.rfdetr_threshold p) t)
  | YoloRequest t =>
      Routers.is_duplicate_of (sha256_hexdigest image) "yolo"
        (fun p => SQL.eq_float (Prediction.yolo_threshold p) t)
  | BothRequest tr ty =>
      Routers.is_duplicate_of (sha256_hexdigest image) "both"
        (fun p => SQL.and_ (SQL.eq_float (Prediction.rfdetr_threshold p) tr)
                           (SQL.eq_float (Prediction.yolo_threshold p) ty))
  end.

(** A stored record has the content key, model selector and threshold(s)
    of a request. *)
Definition request_key (image : string) (req : Request)
  : Prediction.t -> Prop :=
  match req with
  | RfdetrRequest t => same_key (sha256_hexdigest image) "rfdetr" (Some t) None
  | YoloRequest t => same_key (sha256_hexdigest image) "yolo" None (Some t)
  | BothRequest tr ty =>
      same_key (sha256_hexdigest image) "both" (Some tr) (Some ty)
  end.

(** The two outcomes of the duplicate guard: the answer names a stored
    record with the key of the request and the store is unchanged; or no
    stored record has that key and the store has grown by exactly one
    record, which carries the key, the fresh identifier and the caller. *)
Definition guard_outcome (new_id : string) (image : string) (req : Request)
    (current_user : User.t) (db : DB) (results : ResultsJSON)
    (out : Routers.PredictResponse * DB) : Prop :=
  (exists d,
     In d (predictions db) /\ request_key image req d /\
     out = (Routers.DuplicateFound (Prediction.id d), db))
  \/
  (Forall (fun p => ~ request_key image req p) (predictions db) /\
   exists created,
     request_key image req created /\
     Prediction.id created = new_id /\
     Prediction.user_id created = Some (User.id current_user) /\
     out = (Routers.Predicted results new_id (image_to_base64 image),
            mkDB (users db) (predictions db ++ [created]))).

End PredictOperation.

(** ** Notions about the detections of a raw output *)

(** The class ids of a raw RF-DETR output. *)
Definition raw_class_ids (d : Detections) : list Z :=
  match class_id d with Some ks => ks | None => [] end.

(** The rows of a raw RF-DETR output as detections: box, confidence and
    class id side by side, the class id 0 where the output has none, and
    the one class name the service gives. *)
Fixpoint zip_detections (xs : list Box) (cs : list Q) (ks : list Z)
  : list Detection :=
  match xs, cs with
  | x :: xs', c :: cs' =>
      mkDetection x c (hd 0%Z ks) "item" :: zip_detections xs' cs' (tl ks)
  | _, _ => []
  end.

Definition raw_detections (d : Detections) : list Detection :=
  zip_detections (raw_boxes d) (raw_confidences d) (raw_class_ids d).

(** A detection reaches a confidence floor, as numpy compares the two:
    in float32. *)
Definition reaches (floor : Q) (d : Detection) : bool :=
  Py.ge_float32 floor (d_confidence d).

(** ** Notions about the store as a whole *)

(** The identifiers of the stored predictions, in table order.  [id] is
    the primary key, so in a store the database can hold they are
    pairwise different. *)
Definition stored_ids (db : DB) : list string :=
  map Prediction.id (predictions db).

(** [create_prediction] called with the columns of a record. *)
Definition store_record (db : DB) (p : Prediction.t) : DB * Prediction.t :=
  PredictionCRUD.create_prediction (Prediction.id p) (Prediction.created_at p)
    db (Prediction.model p) (Prediction.results p) (Prediction.user_id p)
    (Prediction.image_url p) (Prediction.image_base64 p)
    (Prediction.image_hash p) (Prediction.confidence p)
    (Prediction.rfdetr_confidence p) (Prediction.yolo_confidence p)
    (Prediction.confidence_threshold p) (Prediction.rfdetr_threshold p)
    (Prediction.yolo_threshold p) (Prediction.comment p).

(** The creation times of rows, in their order. *)
Definition creation_times (rows : list Prediction.t) : list Z :=
  map Prediction.created_at rows.

(** A row has another identifier than the given one. *)
Definition other_id (prediction_id : string) (p : Prediction.t) : bool :=
  negb (String.eqb (Prediction.id p) prediction_id).

(** The order of a page: the first of two rows is at least as recent. *)
Definition newer_first (p q : Prediction.t) : Prop :=
  (Prediction.created_at q <= Prediction.created_at p)%Z.

(** The WHERE clause that [get_predictions] has built when it runs the
    query: the conjunction of the filters that were added. *)
Definition selected (db : DB) (user_id model search_text : option string)
    (min_confidence max_confidence : option Q) (p : Prediction.t) : bool :=
  (match user_id with
   | Some uid =>
       if Py.truthy user_id
       then SQL.where_ (SQL.eq_str (Prediction.user_id p) uid)
       else true
   | None => true
   end)
  && (match model with
      | Some m =>
          if (Py.truthy model && negb (String.eqb m "all"))%bool
          then String.eqb (Prediction.model p) m
          else true
      | None => true
      end)
  && (match search_text with
      | Some text =>
          if Py.truthy search_text
          then
            let pattern := ("%" ++ text ++ "%")%string in
            SQL.where_
              (SQL.or_ (SQL.ilike (Prediction.comment p) pattern)
                 (SQL.or_ (SQL.ilike (PredictionCRUD.joined_username db p) pattern)
                          (SQL.ilike (Some (Prediction.id p)) pattern)))
          else true
      | None => true
      end)
  && (match min_confidence, max_confidence with
      | None, None => true
      | _, _ =>
          SQL.where_ (SQL.and_all
                        (PredictionCRUD.confidence_filter
                           min_confidence max_confidence p))
      end).

(** A search text without a backslash, the escape character of LIKE. *)
Definition plain_text (text : string) : Prop :=
  ~ In "\"%char (list_ascii_of_string text).

(** A text occurs in a column value, ASCII case ignored. *)
Definition contains_ci (text : string) (column : option string) : Prop :=
  exists value before after,
    column = Some value /\
    map SQL.lower (list_ascii_of_string value)
    = before ++ map SQL.lower (list_ascii_of_string text) ++ after.

(** The model selector and the thresholds a request is stored and looked
    up under. *)
Definition model_of (req : Request) : string :=
  match req with
  | RfdetrRequest _ => "rfdetr"
  | YoloRequest _ => "yolo"
  | BothRequest _ _ => "both"
  end.

Definition rfdetr_threshold_of (req : Request) : option Q :=
  match req with
  | RfdetrRequest t => Some t
  | YoloRequest _ => None
  | BothRequest tr _ => Some tr
  end.

Definition yolo_threshold_of (req : Request) : option Q :=
  match req with
  | RfdetrRequest _ => None
  | YoloRequest t => Some t
  | BothRequest _ ty => Some ty
  end.

(** The statistics with one more prediction of a model. *)
Definition one_more (model : string) (st : Routers.Statistics)
  : Routers.Statistics :=
  Routers.mkStatistics
    (S (Routers.stat_total st))
    (Routers.stat_rfdetr st + (if String.eqb model "rfdetr" then 1 else 0))
    (Routers.stat_yolo st + (if String.eqb model "yolo" then 1 else 0))
    (Routers.stat_both st + (if String.eqb model "both" then 1 else 0))
    None.

(** ** Sample stores *)

Definition alice : User.t := User.mk "u-alice" "alice".
Definition bob : User.t := User.mk "u-bob" "bob".

Definition sha256_sample (image : string) : string := ("sha256:" ++ image)%string.
Definition base64_sample (image : string) : string :=
  ("data:image/jpeg;base64," ++ image)%string.

(** The store after Alice's combined prediction on an empty store. *)
Definition combined_store : DB :=
  snd (Routers.predict_both (fun _ => shelf_output) (fun _ _ => bottles_output)
         sha256_sample base64_sample "p-1" 100 "img" (1 # 2) (1 # 2)
         None alice (mkDB [alice; bob] [])).

(** The record that this store holds. *)
Definition combined_record : Prediction.t :=
  Prediction.mk "p-1" (Some "u-alice") "both" None
    (Some (base64_sample "img")) (Some (sha256_sample "img"))
    (Combined shelf_result bottles_result) None
    (Some (r_confidence shelf_result)) (Some (r_confidence bottles_result))
    None (Some (1 # 2)) (Some (1 # 2)) None 100.

(** The store after Alice's RF-DETR prediction on an empty store, and the
    record it holds. *)
Definition rfdetr_record : Prediction.t :=
  Prediction.mk "p-1" (Some "u-alice") "rfdetr" None
    (Some (base64_sample "img")) (Some (sha256_sample "img"))
    (Single shelf_result) (Some (r_confidence shelf_result)) None None
    (Some (1 # 2)) (Some (1 # 2)) None None 100.

Definition rfdetr_store : DB :=
  snd (Routers.predict_rfdetr (fun _ => shelf_output)
         sha256_sample base64_sample "p-1" 100 "img" (1 # 2)
         None alice (mkDB [alice; bob] [])).

(** A record with the model ["both"] that has one result payload and no
    threshold, and an RF-DETR record with two payloads and two thresholds. *)
Definition lonely_combined : Prediction.t :=
  Prediction.mk "p-2" None "both" None None None (Single shelf_result)
    None None None None None None None 200.

Definition crowded_single : Prediction.t :=
  Prediction.mk "p-3" None "rfdetr" None None None
    (Combined shelf_result bottles_result)
    None None None None (Some (1 # 2)) (Some (1 # 2)) None 300.

(** ** The prediction endpoints in full ([app/routers.py])

    Around the body modelled in [Routers]: the dependency that
    authenticates the caller, [validate_image_file], the temporary file
    named after the suffix of the upload, and the handler that turns any
    exception, the [HTTPException] of the validation included, into the
    500. *)

Module UploadFile.
Record t : Type := mk {
  filename : option string;
  content_type : option string;
  size : option Z;
  content : string
}.
End UploadFile.

Module Upload.

Section WithEnvironment.

(** [Config.UPLOAD_CONFIG["max_file_size"]], [Path(...).suffix],
    [str.lower], [base64.b64encode(...).decode] and the name that
    [NamedTemporaryFile] draws, without its suffix. *)
Variable max_file_size : Z.
Variable suffix : string -> string.
Variable lower : string -> string.
Variable b64encode : string -> string.
Variable tmp_name : string.

Definition valid_extensions : list string :=
  [".jpg"; ".jpeg"; ".png"; ".bmp"; ".tiff"; ".tif"].

Definition validate_image_file (image : UploadFile.t) : Reply unit :=
  let too_large :=
    match UploadFile.size image with
    | Some size => (max_file_size <? size)%Z
    | None => false
    end in
  if too_large then HTTPException 413
  else
    let is_image :=
      match UploadFile.content_type image with
      | Some content_type => String.prefix "image/" content_type
      | None => false
      end in
    if is_image then Answer tt
    else
      let has_extension :=
        match UploadFile.filename image with
        | Some name =>
            if Py.truthy (UploadFile.filename image)
            then existsb (String.eqb (lower (suffix name))) valid_extensions
            else false
        | None => false
        end in
      if has_extension then Answer tt else HTTPException 400.

Definition mime_types : list (string * string) :=
  [(".jpg", "image/jpeg"); (".jpeg", "image/jpeg"); (".png", "image/png");
   (".bmp", "image/bmp"); (".tiff", "image/tiff"); (".tif", "image/tiff")].

(** [mime_types.get(file_ext, 'image/jpeg')] *)
Fixpoint mime_type_of (table : list (string * string)) (file_ext : string)
  : string :=
  match table with
  | [] => "image/jpeg"
  | (ext, mime) :: rest =>
      if String.eqb ext file_ext then mime else mime_type_of rest file_ext
  end.

(** The data URL of the file at [image_path] holding [content]. *)
Definition image_to_base64 (image_path : string) (content : string) : string :=
  let encoded_string := b64encode content in
  let file_ext := lower (suffix image_path) in
  let mime_type := mime_type_of mime_types file_ext in
  ("data:" ++ mime_type ++ ";base64," ++ encoded_string)%string.

Variable rfdetr_model_predict : string -> Detections.
Variable yolo_model_predict : string -> Q -> list YoloResult.
Variable sha256_hexdigest : string -> string.

(** A prediction endpoint from the request to the answer; [req] selects
    the endpoint.  A missing filename makes [Path] raise. *)
Definition predict (new_id : string) (now : Z) (image : UploadFile.t)
    (req : Request) (comment : option string) (credentials : option string)
    (site : Site) : Reply Routers.PredictResponse * Site :=
  match Middleware.get_current_user credentials site with
  | HTTPException code => (HTTPException code, site)
  | Answer current_user =>
      match validate_image_file image with
      | HTTPException _ => (Answer Routers.InternalServerError, site)
      | Answer _ =>
          match UploadFile.filename image with
          | None => (Answer Routers.InternalServerError, site)
          | Some name =>
              let tmp_file_path := (tmp_name ++ suffix name)%string in
              let (response, db') :=
                Predict rfdetr_model_predict yolo_model_predict
                  sha256_hexdigest (image_to_base64 tmp_file_path)
                  new_id now (UploadFile.content image) req comment
                  (UserRow.user current_user) (database site) in
              (Answer response, mkSite (user_rows site) (predictions db'))
          end
      end
  end.

End WithEnvironment.

End Upload.

(** ** Notions about accounts *)

(** The ids and the usernames of the stored users, in table order. *)
Definition user_ids (site : Site) : list string :=
  map UserRow.id (user_rows site).

Definition usernames (site : Site) : list string :=
  map UserRow.username (user_rows site).

(** What the primary key and the unique constraint on [username] make
    true of a stored table. *)
Definition accounts_unique (site : Site) : Prop :=
  NoDup (user_ids site) /\ NoDup (usernames site).

(** A row has another id than the given one; a prediction belongs to
    another user than the given one, or to nobody. *)
Definition other_user (user_id : string) (u : UserRow.t) : bool :=
  negb (String.eqb (UserRow.id u) user_id).

Definition not_owned_by (user_id : string) (p : Prediction.t) : bool :=
  match Prediction.user_id p with
  | Some owner => negb (String.eqb owner user_id)
  | None => true
  end.

(** Two rows agree on the columns that [update_user] never assigns. *)
Definition same_identity (u u' : UserRow.t) : Prop :=
  UserRow.id u' = UserRow.id u /\
  UserRow.password_hash u' = UserRow.password_hash u /\
  UserRow.created_at u' = UserRow.created_at u /\
  UserRow.is_superuser u' = UserRow.is_superuser u.

(** ** Sample accounts *)

(** A stand-in for bcrypt that ignores the salt. *)
Definition hashpw_sample (password salt : string) : string :=
  ("$2b$" ++ password)%string.

Definition checkpw_sample (password hashed : string) : bool :=
  String.eqb hashed ("$2b$" ++ password)%string.

(** Alice administers, Bob is a user, and Carol's account is disabled. *)
Definition alice_row : UserRow.t :=
  UserRow.mk alice (hashpw_sample "wonderland" "s") (Some "alice@example.org")
             10 true true.

Definition bob_row : UserRow.t :=
  UserRow.mk bob (hashpw_sample "builder" "s") None 20 true false.

Definition carol_row : UserRow.t :=
  UserRow.mk (User.mk "u-carol" "carol") (hashpw_sample "carols" "s") None
             30 false false.

(** Bob's record, beside Alice's. *)
Definition bob_record : Prediction.t :=
  Prediction.mk "p-5" (Some "u-bob") "yolo" None None (Some "h5")
    (Single bottles_result) (Some (7 # 10)) None None
    (Some (1 # 2)) None (Some (1 # 2)) (Some "cans") 500.

Definition sample_site : Site :=
  mkSite [alice_row; bob_row; carol_row] [rfdetr_record; bob_record].

(** ** A sample upload *)




(** * Properties *)

(** ** Rounding *)

Lemma pow2_pos (z : Z) : 0 < 2 ^ z.
Proof. apply Qpower_0_lt. reflexivity. Qed.

Lemma pow2_add (a b : Z) : 2 ^ (a + b) == 2 ^ a * 2 ^ b.
Proof. apply Qpower_plus. discriminate. Qed.

Lemma pow2_le (a b : Z) : (a <= b)%Z -> 2 ^ a <= 2 ^ b.
Proof. intros H. apply Qpower_le_compat_l; [exact H | discriminate]. Qed.

Lemma pow2_lt (a b : Z) : (a < b)%Z -> 2 ^ a < 2 ^ b.
Proof. intros H. apply Qpower_lt_compat_l; [exact H | reflexivity]. Qed.

Lemma pow2_lt_inv (a b : Z) : 2 ^ a < 2 ^ b -> (a < b)%Z.
Proof. intros H. apply (Qpower_lt_compat_l_inv 2); [exact H | reflexivity]. Qed.

Lemma pow2_double (a : Z) : 2 ^ a == 2 * 2 ^ (a - 1).
Proof.
  replace a with (1 + (a - 1))%Z at 1 by lia.
  rewrite pow2_add. reflexivity.
Qed.

Lemma pow2_inject (a : Z) : (0 <= a)%Z -> inject_Z (2 ^ a) == 2 ^ a.
Proof. intros H. rewrite Zpower_Qpower by exact H. reflexivity. Qed.

Lemma div_pow2 (x : Q) (q : Z) : x / 2 ^ q * 2 ^ q == x.
Proof. field. pose proof (pow2_pos q). lra. Qed.

(** The integer part of the binary logarithm. *)
Lemma ilog2_spec (x : Q) :
  0 < x -> 2 ^ Float.ilog2 x <= x /\ x < 2 ^ (Float.ilog2 x + 1).
Proof.
  destruct x as [n d]. intros Hx.
  assert (Hn : (0 < n)%Z) by (unfold Qlt in Hx; simpl in Hx; lia).
  unfold Float.ilog2. cbn [Qnum Qden].
  set (a := Z.log2 n). set (b := Z.log2 (Zpos d)).
  assert (Ha : (0 <= a)%Z) by apply Z.log2_nonneg.
  assert (Hb : (0 <= b)%Z) by apply Z.log2_nonneg.
  destruct (Z.log2_spec n Hn) as [Hn1 Hn2]. fold a in Hn1, Hn2.
  destruct (Z.log2_spec (Zpos d) (Pos2Z.is_pos d)) as [Hd1 Hd2].
  fold b in Hd1, Hd2.
  assert (Qn1 : 2 ^ a <= inject_Z n).
  { rewrite <- pow2_inject by exact Ha. rewrite <- Zle_Qle. exact Hn1. }
  assert (Qn2 : inject_Z n < 2 ^ (a + 1)).
  { rewrite <- pow2_inject by lia. rewrite <- Zlt_Qlt. exact Hn2. }
  assert (Qd1 : 2 ^ b <= inject_Z (Zpos d)).
  { rewrite <- pow2_inject by exact Hb. rewrite <- Zle_Qle. exact Hd1. }
  assert (Qd2 : inject_Z (Zpos d) < 2 ^ (b + 1)).
  { rewrite <- pow2_inject by lia. rewrite <- Zlt_Qlt. exact Hd2. }
  assert (Hx' : n # d == inject_Z n / inject_Z (Zpos d)) by apply Qmake_Qdiv.
  assert (Hdpos : 0 < inject_Z (Zpos d)) by reflexivity.
  pose proof (pow2_pos b) as Pb. pose proof (pow2_pos (a - b)) as Pab.
  assert (Hsplit : 2 ^ a == 2 ^ (a - b) * 2 ^ b).
  { rewrite <- pow2_add. replace (a - b + b)%Z with a by lia. reflexivity. }
  destruct (Qle_bool (2 ^ (a - b)) (n # d)) eqn:E.
  - apply Qle_bool_iff in E. split; [exact E|].
    rewrite Hx'. apply Qlt_shift_div_r; [exact Hdpos|].
    replace (a - b + 1)%Z with ((a + 1) - b)%Z by lia.
    assert (H1 : 2 ^ (a + 1) == 2 ^ (a + 1 - b) * 2 ^ b).
    { rewrite <- pow2_add. replace (a + 1 - b + b)%Z with (a + 1)%Z by lia.
      reflexivity. }
    pose proof (pow2_pos (a + 1 - b)).
    assert (H2 : 2 ^ (a + 1 - b) * 2 ^ b
                 <= 2 ^ (a + 1 - b) * inject_Z (Zpos d)).
    { apply Qmult_le_l; assumption. }
    revert Qn2 H1 H2.
    generalize (2 ^ (a + 1 - b)) (2 ^ b) (2 ^ (a + 1)) (inject_Z (Zpos d))
      (inject_Z n).
    intros; lra.
  - assert (E' : n # d < 2 ^ (a - b)).
    { apply Qnot_le_lt. intros H. apply Qle_bool_iff in H. congruence. }
    replace (a - b - 1 + 1)%Z with (a - b)%Z by lia.
    split; [|exact E'].
    rewrite Hx'. apply Qle_shift_div_l; [exact Hdpos|].
    assert (H1 : 2 ^ (b + 1) == 2 * 2 ^ b).
    { rewrite pow2_add. change (2 ^ 1) with 2. ring. }
    pose proof (pow2_double (a - b)) as Hhalf.
    assert (H2 : 2 ^ (a - b - 1) * inject_Z (Zpos d)
                 <= 2 ^ (a - b - 1) * (2 * 2 ^ b)).
    { apply Qmult_le_l; [apply pow2_pos|]. rewrite <- H1. lra. }
    assert (E2 : 2 ^ (a - b - 1) * (2 * 2 ^ b) == 2 ^ a).
    { rewrite Hsplit, Hhalf. ring. }
    rewrite E2 in H2. lra.
Qed.

Lemma ilog2_lt (x : Q) (k : Z) : 0 < x -> x < 2 ^ k -> (Float.ilog2 x < k)%Z.
Proof.
  intros Hx Hk. destruct (ilog2_spec x Hx) as [H1 _].
  apply pow2_lt_inv. lra.
Qed.

Lemma ilog2_le (x y : Q) : 0 < x -> x <= y -> (Float.ilog2 x <= Float.ilog2 y)%Z.
Proof.
  intros Hx Hxy.
  destruct (ilog2_spec x Hx) as [H1 _].
  destruct (ilog2_spec y) as [_ H2]; [lra|].
  assert (H : (Float.ilog2 x < Float.ilog2 y + 1)%Z)
    by (apply pow2_lt_inv; lra).
  lia.
Qed.

(** Rounding to the nearest integer, ties to even. *)
Lemma rne_cases (x : Q) :
  (Float.rne x = Qfloor x /\ x - inject_Z (Qfloor x) <= 1 # 2) \/
  (Float.rne x = (Qfloor x + 1)%Z /\ 1 # 2 <= x - inject_Z (Qfloor x)).
Proof.
  unfold Float.rne.
  destruct (Qcompare (x - inject_Z (Qfloor x)) (1 # 2)) eqn:E.
  - apply Qeq_alt in E.
    destruct (Z.even (Qfloor x)); [left | right]; split;
      try reflexivity; rewrite E; apply Qle_refl.
  - apply Qlt_alt in E. left. split; [reflexivity | apply Qlt_le_weak, E].
  - apply Qgt_alt in E. right. split; [reflexivity | apply Qlt_le_weak, E].
Qed.

Lemma floor_bounds (x : Q) :
  inject_Z (Qfloor x) <= x /\ x < inject_Z (Qfloor x) + 1.
Proof.
  split; [apply Qfloor_le|].
  pose proof (Qlt_floor x) as H. rewrite inject_Z_plus in H. exact H.
Qed.

Lemma rne_near (x : Q) : Qabs (inject_Z (Float.rne x) - x) <= 1 # 2.
Proof.
  destruct (floor_bounds x) as [H1 H2].
  apply Qabs_Qle_condition.
  destruct (rne_cases x) as [[-> H]|[-> H]].
  - split; lra.
  - rewrite inject_Z_plus. change (inject_Z 1) with 1. split; lra.
Qed.

Lemma rne_inject (z : Z) : Float.rne (inject_Z z) = z.
Proof.
  unfold Float.rne. rewrite Qfloor_Z.
  replace (Qcompare (inject_Z z - inject_Z z) (1 # 2)) with Lt; [reflexivity|].
  symmetry. apply Qlt_alt.
  assert (H : inject_Z z - inject_Z z == 0) by ring.
  rewrite H. reflexivity.
Qed.

Lemma rne_le (x y : Q) : x <= y -> (Float.rne x <= Float.rne y)%Z.
Proof.
  intros Hxy.
  pose proof (Qfloor_resp_le x y Hxy) as Hf.
  destruct (Z.eq_dec (Qfloor x) (Qfloor y)) as [E|E].
  - unfold Float.rne. rewrite <- E.
    destruct (Qcompare (x - inject_Z (Qfloor x)) (1 # 2)) eqn:Ex;
      destruct (Qcompare (y - inject_Z (Qfloor x)) (1 # 2)) eqn:Ey;
      first [apply Qeq_alt in Ex | apply Qlt_alt in Ex | apply Qgt_alt in Ex];
      first [apply Qeq_alt in Ey | apply Qlt_alt in Ey | apply Qgt_alt in Ey];
      try (destruct (Z.even (Qfloor x))); try lia; exfalso; lra.
  - destruct (rne_cases x) as [[-> _]|[-> _]];
      destruct (rne_cases y) as [[-> _]|[-> _]]; lia.
Qed.

Lemma rne_nonneg (x : Q) : 0 <= x -> (0 <= Float.rne x)%Z.
Proof.
  intros H. rewrite <- (rne_inject 0). apply rne_le. exact H.
Qed.

(** Rounding a positive number to a format. *)
Section Nearest.

Variables prec emin : Z.
Hypothesis prec_pos : (1 <= prec)%Z.

Lemma nearest_error (x : Q) :
  Qabs (Float.nearest prec emin x - x)
  <= (1 # 2) * 2 ^ Float.ulp_exponent prec emin x.
Proof.
  unfold Float.nearest. set (q := Float.ulp_exponent prec emin x).
  pose proof (pow2_pos q) as Hq.
  assert (E : inject_Z (Float.rne (x / 2 ^ q)) * 2 ^ q - x
              == (inject_Z (Float.rne (x / 2 ^ q)) - x / 2 ^ q) * 2 ^ q).
  { field. lra. }
  rewrite E, Qabs_Qmult, (Qabs_pos (2 ^ q)) by lra.
  apply Qmult_le_compat_r; [apply rne_near | lra].
Qed.

Lemma nearest_nonneg (x : Q) : 0 <= x -> 0 <= Float.nearest prec emin x.
Proof.
  intros Hx. unfold Float.nearest.
  set (q := Float.ulp_exponent prec emin x).
  pose proof (pow2_pos q) as Hq.
  apply Qmult_le_0_compat; [|lra].
  change 0 with (inject_Z 0). rewrite <- Zle_Qle. apply rne_nonneg.
  apply Qle_shift_div_l; [exact Hq | lra].
Qed.

Lemma ulp_exponent_below (x : Q) (k : Z) :
  0 < x -> x < 2 ^ k -> (emin <= k - prec)%Z ->
  (Float.ulp_exponent prec emin x <= k - prec)%Z.
Proof.
  intros Hx Hk Hemin. unfold Float.ulp_exponent.
  pose proof (ilog2_lt x k Hx Hk). lia.
Qed.

Lemma nearest_error_below (x : Q) (k : Z) :
  0 < x -> x < 2 ^ k -> (emin <= k - prec)%Z ->
  Qabs (Float.nearest prec emin x - x) <= (1 # 2) * 2 ^ (k - prec).
Proof.
  intros Hx Hk Hemin.
  eapply Qle_trans; [apply nearest_error|].
  apply Qmult_le_l; [reflexivity|].
  apply pow2_le, ulp_exponent_below; assumption.
Qed.

(** A power of two that is a multiple of the unit in the last place is
    a bound that rounding respects. *)
Lemma nearest_le_pow2 (x : Q) (t : Z) :
  x <= 2 ^ t -> (Float.ulp_exponent prec emin x <= t)%Z ->
  Float.nearest prec emin x <= 2 ^ t.
Proof.
  intros Hx Ht. unfold Float.nearest.
  set (q := Float.ulp_exponent prec emin x) in *.
  pose proof (pow2_pos q) as Hq.
  assert (E : 2 ^ t == inject_Z (2 ^ (t - q)) * 2 ^ q).
  { rewrite pow2_inject by lia. rewrite <- pow2_add.
    replace (t - q + q)%Z with t by lia. reflexivity. }
  rewrite E. apply Qmult_le_compat_r; [|lra].
  rewrite <- Zle_Qle. rewrite <- (rne_inject (2 ^ (t - q))).
  apply rne_le. apply Qle_shift_div_r; [exact Hq|]. rewrite <- E. exact Hx.
Qed.

Lemma nearest_ge_pow2 (x : Q) (t : Z) :
  2 ^ t <= x -> (Float.ulp_exponent prec emin x <= t)%Z ->
  2 ^ t <= Float.nearest prec emin x.
Proof.
  intros Hx Ht. unfold Float.nearest.
  set (q := Float.ulp_exponent prec emin x) in *.
  pose proof (pow2_pos q) as Hq.
  assert (E : 2 ^ t == inject_Z (2 ^ (t - q)) * 2 ^ q).
  { rewrite pow2_inject by lia. rewrite <- pow2_add.
    replace (t - q + q)%Z with t by lia. reflexivity. }
  rewrite E. apply Qmult_le_compat_r; [|lra].
  rewrite <- Zle_Qle. rewrite <- (rne_inject (2 ^ (t - q))) at 1.
  apply rne_le. apply Qle_shift_div_l; [exact Hq|]. rewrite <- E. exact Hx.
Qed.

Lemma nearest_le (x y : Q) :
  0 < x -> x <= y -> Float.nearest prec emin x <= Float.nearest prec emin y.
Proof.
  intros Hx Hxy.
  assert (Hy : 0 < y) by lra.
  pose proof (ilog2_le x y Hx Hxy) as Hlog.
  destruct (ilog2_spec x Hx) as [_ Hx2].
  destruct (ilog2_spec y Hy) as [Hy1 _].
  destruct (Z.eq_dec (Float.ulp_exponent prec emin x)
                     (Float.ulp_exponent prec emin y)) as [E|E].
  - unfold Float.nearest. rewrite <- E.
    set (q := Float.ulp_exponent prec emin x).
    pose proof (pow2_pos q) as Hq.
    apply Qmult_le_compat_r; [|lra].
    rewrite <- Zle_Qle. apply rne_le.
    apply Qmult_le_compat_r; [exact Hxy|].
    apply Qlt_le_weak, Qinv_lt_0_compat, Hq.
  - assert (Hq : (Float.ulp_exponent prec emin x
                  < Float.ulp_exponent prec emin y)%Z)
      by (unfold Float.ulp_exponent in *; lia).
    assert (Hqy : Float.ulp_exponent prec emin y
                  = (Float.ilog2 y - (prec - 1))%Z)
      by (unfold Float.ulp_exponent in *; lia).
    set (t := Z.max (Float.ilog2 x + 1) (Float.ulp_exponent prec emin x)).
    assert (Ht : (t <= Float.ilog2 y)%Z)
      by (unfold t, Float.ulp_exponent in *; lia).
    apply Qle_trans with (2 ^ t).
    + apply nearest_le_pow2; [|unfold t; lia].
      apply Qle_trans with (2 ^ (Float.ilog2 x + 1)); [lra|].
      apply pow2_le. unfold t. lia.
    + apply Qle_trans with (2 ^ Float.ilog2 y); [apply pow2_le, Ht|].
      apply nearest_ge_pow2; [exact Hy1 | lia].
Qed.

End Nearest.

Lemma round_zero (prec emin : Z) (x : Q) : x == 0 -> Float.round prec emin x = 0.
Proof.
  intros H. unfold Float.round.
  rewrite (proj1 (Qeq_alt x 0) H). reflexivity.
Qed.

Lemma round_pos (prec emin : Z) (x : Q) :
  0 < x -> Float.round prec emin x = Float.nearest prec emin x.
Proof.
  intros H. unfold Float.round.
  rewrite (proj1 (Qgt_alt x 0) H). reflexivity.
Qed.

Lemma round_neg (prec emin : Z) (x : Q) :
  x < 0 -> Float.round prec emin x = - Float.nearest prec emin (- x).
Proof.
  intros H. unfold Float.round.
  rewrite (proj1 (Qlt_alt x 0) H). reflexivity.
Qed.

Lemma round_nonneg (prec emin : Z) (x : Q) :
  0 <= x -> 0 <= Float.round prec emin x.
Proof.
  intros H. destruct (Qlt_le_dec 0 x) as [Hx|Hx].
  - rewrite round_pos by exact Hx. apply nearest_nonneg. exact H.
  - rewrite round_zero by lra. apply Qle_refl.
Qed.

(** Rounding is monotone. *)
Lemma round_le (prec emin : Z) (x y : Q) :
  (1 <= prec)%Z -> x <= y -> Float.round prec emin x <= Float.round prec emin y.
Proof.
  intros Hprec Hxy.
  destruct (Qlt_le_dec 0 x) as [Hx|Hx].
  - rewrite !round_pos by lra. apply nearest_le; assumption.
  - destruct (Qlt_le_dec x 0) as [Hx'|Hx'].
    + rewrite (round_neg _ _ x) by exact Hx'.
      assert (Hnx : 0 <= Float.nearest prec emin (- x))
        by (apply nearest_nonneg; lra).
      destruct (Qlt_le_dec y 0) as [Hy|Hy].
      * rewrite (round_neg _ _ y) by exact Hy.
        pose proof (nearest_le prec emin Hprec (- y) (- x)) as H.
        assert (H' : Float.nearest prec emin (- y)
                     <= Float.nearest prec emin (- x)) by (apply H; lra).
        lra.
      * pose proof (round_nonneg prec emin y Hy). lra.
    + rewrite (round_zero _ _ x) by lra. apply round_nonneg. lra.
Qed.

(** The error of rounding a number below a power of two. *)
Lemma round_error_below (prec emin : Z) (x : Q) (k : Z) :
  0 <= x -> x < 2 ^ k -> (emin <= k - prec)%Z ->
  Qabs (Float.round prec emin x - x) <= (1 # 2) * 2 ^ (k - prec).
Proof.
  intros Hx Hk Hemin. destruct (Qlt_le_dec 0 x) as [Hpos|Hzero].
  - rewrite round_pos by exact Hpos. apply nearest_error_below; assumption.
  - rewrite round_zero by lra.
    assert (E : 0 - x == 0) by lra. rewrite E. simpl.
    pose proof (pow2_pos (k - prec)). lra.
Qed.

(** ** Lists, masks and means *)

Lemma select_map_filter {A : Type} (f : A -> bool) (xs : list A) :
  Py.select xs (map f xs) = filter f xs.
Proof.
  induction xs as [|x xs IH]; simpl; [reflexivity|].
  rewrite IH. reflexivity.
Qed.

Lemma select_combine {A B : Type} (f : B -> bool) (xs : list A) :
  forall ys : list B,
    length xs = length ys ->
    combine (Py.select xs (map f ys)) (Py.select ys (map f ys))
    = filter (fun row => f (snd row)) (combine xs ys).
Proof.
  induction xs as [|x xs IH]; intros [|y ys] Hlen; simpl in *;
    try discriminate; try reflexivity.
  injection Hlen as Hlen.
  destruct (f y); simpl; rewrite (IH ys Hlen); reflexivity.
Qed.

Lemma select_length {A B : Type} (mask : list bool) (xs : list A) :
  forall ys : list B,
    length xs = length ys ->
    length (Py.select xs mask) = length (Py.select ys mask).
Proof.
  revert mask.
  induction xs as [|x xs IH]; intros mask [|y ys] Hlen; simpl in *;
    try discriminate; try reflexivity.
  injection Hlen as Hlen.
  destruct mask as [|[] mask]; simpl; auto.
Qed.

Lemma bool_index_same_length {A B : Type} (f : B -> bool)
    (xs : list A) (ys : list B) :
  length xs = length ys ->
  Py.bool_index xs (map f ys) = Some (Py.select xs (map f ys)).
Proof.
  intros Hlen. unfold Py.bool_index.
  rewrite length_map, Hlen, Nat.eqb_refl. reflexivity.
Qed.

Lemma bool_index_Some {A : Type} (xs : list A) (mask : list bool) (out : list A) :
  Py.bool_index xs mask = Some out ->
  length xs = length mask /\ out = Py.select xs mask.
Proof.
  unfold Py.bool_index.
  destruct (Nat.eqb (length xs) (length mask)) eqn:E; [|discriminate].
  intros [= <-]. apply Nat.eqb_eq in E. auto.
Qed.

Lemma flat_map_all_nil {A B : Type} (f : A -> list B) (l : list A) :
  (forall a, In a l -> f a = []) -> flat_map f l = [].
Proof.
  induction l as [|a l IH]; intros H; simpl; [reflexivity|].
  rewrite (H a (or_introl eq_refl)), IH; [reflexivity|].
  intros b Hb. apply H. right. exact Hb.
Qed.

(** ** The running sum and the mean *)

Lemma len_cons (c : Q) (cs : list Q) : Py.len (c :: cs) == 1 + Py.len cs.
Proof.
  unfold Py.len. cbn [length]. rewrite Nat2Z.inj_succ, <- Z.add_1_l.
  rewrite inject_Z_plus. reflexivity.
Qed.

Lemma len_nonneg (cs : list Q) : 0 <= Py.len cs.
Proof.
  unfold Py.len. change 0 with (inject_Z 0). rewrite <- Zle_Qle. lia.
Qed.

Lemma unit_sum (cs : list Q) :
  Forall between_0_and_1 cs ->
  0 <= fold_right Qplus 0 cs /\ fold_right Qplus 0 cs <= Py.len cs.
Proof.
  induction 1 as [|c cs [Hc0 Hc1] _ [IH0 IH1]].
  - split; [apply Qle_refl | apply len_nonneg].
  - cbn [fold_right]. rewrite len_cons. split; lra.
Qed.

(** The error of the running sum: at most [2 ^ (k - 53)] for each
    addition, as long as the sum stays below [2 ^ (k + 1)]. *)
Lemma sum_error (k : Z) (cs : list Q) :
  (0 <= k)%Z ->
  forall total exact err : Q,
    Forall between_0_and_1 cs ->
    0 <= total -> 0 <= exact ->
    Qabs (total - exact) <= err ->
    exact + err + Py.len cs + Py.len cs * 2 ^ (k - 53) <= 2 ^ (k + 1) ->
    0 <= fold_left (fun t x => Float.binary64 (t + x)) cs total /\
    Qabs (fold_left (fun t x => Float.binary64 (t + x)) cs total
          - (exact + fold_right Qplus 0 cs))
    <= err + Py.len cs * 2 ^ (k - 53).
Proof.
  intros Hk. pose proof (pow2_pos (k - 53)) as Heps.
  induction cs as [|c cs IH]; intros total exact err Hunit Ht He Herr Hroom;
    cbn [fold_left fold_right].
  - split; [exact Ht|].
    assert (E : total - (exact + 0) == total - exact) by ring.
    rewrite E. unfold Py.len. cbn [length Z.of_nat].
    assert (E' : err + inject_Z 0 * 2 ^ (k - 53) == err) by ring.
    rewrite E'. exact Herr.
  - inversion Hunit as [|c' cs' [Hc0 Hc1] Hrest]; subst.
    rewrite len_cons in Hroom. rewrite len_cons.
    pose proof (len_nonneg cs) as Hlen.
    assert (Hprod : 0 <= Py.len cs * 2 ^ (k - 53))
      by (apply Qmult_le_0_compat; lra).
    assert (Hsplit : (1 + Py.len cs) * 2 ^ (k - 53)
                     == 2 ^ (k - 53) + Py.len cs * 2 ^ (k - 53)) by ring.
    rewrite Hsplit in Hroom. rewrite Hsplit.
    apply Qabs_Qle_condition in Herr.
    assert (Hx0 : 0 <= total + c) by lra.
    assert (Hx1 : total + c < 2 ^ (k + 1)) by lra.
    assert (Hround : Qabs (Float.binary64 (total + c) - (total + c))
                     <= 2 ^ (k - 53)).
    { eapply Qle_trans;
        [apply (round_error_below 53 (-1074) (total + c) (k + 1) Hx0 Hx1); lia|].
      replace (k + 1 - 53)%Z with (k - 53 + 1)%Z by lia.
      rewrite (pow2_add (k - 53) 1). change (2 ^ 1) with 2. lra. }
    apply Qabs_Qle_condition in Hround.
    destruct (IH (Float.binary64 (total + c)) (exact + c)
                 (err + 2 ^ (k - 53)) Hrest) as [IH0 IH1].
    + apply round_nonneg. exact Hx0.
    + lra.
    + apply Qabs_Qle_condition. split; lra.
    + lra.
    + split; [exact IH0|].
      apply Qabs_Qle_condition in IH1. apply Qabs_Qle_condition.
      split; lra.
Qed.

(** The aggregate confidence of at most [2 ^ k] confidences between 0 and
    1 is the arithmetic mean up to [2 ^ (k - 52)]. *)
Lemma avg_confidence_near_mean (k : Z) (cs : list Q) :
  (0 <= k <= 52)%Z ->
  Forall between_0_and_1 cs ->
  Py.len cs <= 2 ^ k ->
  Qabs (MLService.avg_confidence cs - arithmetic_mean cs) <= 2 ^ (k - 52).
Proof.
  intros Hk Hunit Hlen.
  pose proof (pow2_pos (k - 52)) as Hbound.
  destruct cs as [|c cs].
  - simpl. lra.
  - unfold MLService.avg_confidence, arithmetic_mean, Py.sum.
    fold (Py.len (c :: cs)).
    set (n := Py.len (c :: cs)) in *.
    set (exact := fold_right Qplus 0 (c :: cs)).
    set (total := fold_left (fun t x => Float.binary64 (t + x)) (c :: cs) 0).
    assert (Hn : 1 <= n).
    { unfold n. rewrite len_cons. pose proof (len_nonneg cs). lra. }
    pose proof (pow2_pos (k - 53)) as Heps.
    assert (Hhalf : 2 ^ (k - 53) <= 1 # 2).
    { change (1 # 2) with (2 ^ (-1)). apply pow2_le. lia. }
    assert (Htwo : 2 ^ (k - 52) == 2 * 2 ^ (k - 53)).
    { replace (k - 53)%Z with (k - 52 - 1)%Z by lia. apply pow2_double. }
    assert (Hkk : 2 ^ (k + 1) == 2 * 2 ^ k).
    { rewrite (pow2_double (k + 1)). replace (k + 1 - 1)%Z with k by lia.
      reflexivity. }
    assert (Hprod : n * 2 ^ (k - 53) <= n * (1 # 2))
      by (apply Qmult_le_l; lra).
    destruct (unit_sum (c :: cs) Hunit) as [Hs0 Hs1].
    fold exact in Hs0, Hs1. fold n in Hs1.
    destruct (sum_error k (c :: cs) (proj1 Hk) 0 0 0 Hunit) as [Ht0 Ht1].
    + apply Qle_refl.
    + apply Qle_refl.
    + simpl. apply Qle_refl.
    + fold n. lra.
    + fold total in Ht0, Ht1. fold exact n in Ht1.
      assert (Ht2 : Qabs (total - exact) <= n * 2 ^ (k - 53)).
      { assert (E : total - exact == total - (0 + exact)) by ring.
        rewrite E. eapply Qle_trans; [exact Ht1|]. lra. }
      clear Ht1. apply Qabs_Qle_condition in Ht2.
      assert (Hninv : 0 < / n) by (apply Qinv_lt_0_compat; lra).
      assert (Hq : Qabs (total / n - exact / n) <= 2 ^ (k - 53)).
      { assert (E : total / n - exact / n == (total - exact) * / n)
          by (field; lra).
        rewrite E. apply Qabs_Qle_condition.
        assert (E1 : 2 ^ (k - 53) == (n * 2 ^ (k - 53)) * / n)
          by (field; lra).
        rewrite E1.
        assert (E2 : - (n * 2 ^ (k - 53) * / n)
                     == (- (n * 2 ^ (k - 53))) * / n) by ring.
        rewrite E2.
        split; apply Qmult_le_compat_r; lra. }
      apply Qabs_Qle_condition in Hq.
      assert (Hmean : exact / n <= 1).
      { apply Qle_shift_div_r; lra. }
      assert (Hy0 : 0 <= total / n).
      { apply Qle_shift_div_l; lra. }
      assert (Hy1 : total / n < 2 ^ 1) by (change (2 ^ 1) with 2; lra).
      pose proof (round_error_below 53 (-1074) (total / n) 1 Hy0 Hy1) as Hr.
      assert (Hr' : Qabs (Float.binary64 (total / n) - total / n)
                    <= 2 ^ (k - 53)).
      { eapply Qle_trans; [apply Hr; lia|].
        change ((1 # 2) * 2 ^ (1 - 53)) with (2 ^ (-53)).
        apply pow2_le. lia. }
      apply Qabs_Qle_condition in Hr'. apply Qabs_Qle_condition.
      split; lra.
Qed.

(** ** The conversion loops of the ML service *)

Lemma detection_at_beyond (xs : list Box) (cs : list Q) (ks : list Z) (i : nat) :
  (length cs <= i)%nat -> MLService.detection_at xs cs ks i = [].
Proof.
  intros Hi. unfold MLService.detection_at.
  destruct (nth_error xs i); [|reflexivity].
  apply nth_error_None in Hi. rewrite Hi. reflexivity.
Qed.

Lemma detections_from (ks : list Z) (xs : list Box) :
  forall (cs : list Q) (px : list Box) (pc : list Q),
    length px = length pc ->
    map box_and_confidence
      (flat_map (MLService.detection_at (px ++ xs) (pc ++ cs) ks)
                (seq (length px) (length xs)))
    = combine xs cs.
Proof.
  induction xs as [|x xs IH]; intros cs px pc Hlen; [reflexivity|].
  destruct cs as [|c cs].
  - rewrite flat_map_all_nil; [reflexivity|].
    intros i Hi. apply in_seq in Hi. apply detection_at_beyond.
    rewrite app_nil_r. lia.
  - cbn [length seq flat_map].
    unfold MLService.detection_at at 1.
    rewrite (nth_error_app2 px) by lia.
    rewrite (nth_error_app2 pc) by lia.
    replace (length px - length pc)%nat with 0%nat by lia.
    rewrite Nat.sub_diag. cbn [nth_error].
    cbn [app map combine box_and_confidence d_xyxy d_confidence]. f_equal.
    replace (px ++ x :: xs) with ((px ++ [x]) ++ xs)
      by (rewrite <- app_assoc; reflexivity).
    replace (pc ++ c :: cs) with ((pc ++ [c]) ++ cs)
      by (rewrite <- app_assoc; reflexivity).
    replace (S (length px)) with (length (px ++ [x]))
      by (rewrite length_app; simpl; lia).
    apply IH. rewrite !length_app. simpl. lia.
Qed.

(** The detections paired off are the boxes zipped with the confidences. *)
Lemma detections_list_combine (xs : list Box) (cs : list Q) (ks : list Z) :
  map box_and_confidence (MLService.detections_list xs cs ks) = combine xs cs.
Proof.
  exact (detections_from ks xs cs [] [] eq_refl).
Qed.

Lemma map_snd_combine {A B : Type} (xs : list A) :
  forall ys : list B, (length ys <= length xs)%nat -> map snd (combine xs ys) = ys.
Proof.
  induction xs as [|x xs IH]; intros [|y ys] H; simpl in *;
    try reflexivity; try lia.
  rewrite IH by lia. reflexivity.
Qed.

Lemma detections_list_confidences (xs : list Box) (cs : list Q) (ks : list Z) :
  (length cs <= length xs)%nat ->
  map d_confidence (MLService.detections_list xs cs ks) = cs.
Proof.
  intros H.
  rewrite <- (map_snd_combine xs cs H) at 2.
  rewrite <- (detections_list_combine xs cs ks), map_map. reflexivity.
Qed.

(** ** The RF-DETR path *)

Lemma index_if_present_agree {A B C : Type} (f : C -> bool) (conf : list C)
    (a : option (list A)) (some : list A -> B) (dflt : B) :
  rows_agree (length conf) a = true ->
  Py.index_if_present a (map f conf) some dflt
  = Some (match a with
          | Some rows =>
              if Nat.ltb 0 (length rows)
              then some (Py.select rows (map f conf)) else dflt
          | None => dflt
          end).
Proof.
  destruct a as [rows|]; simpl; [|reflexivity].
  intros Hlen. apply Nat.eqb_eq in Hlen.
  destruct (Nat.ltb 0 (length rows)); [|reflexivity].
  rewrite (bool_index_same_length f rows conf Hlen). reflexivity.
Qed.

Lemma combine_nil_r {A B : Type} (xs : list A) : combine xs (@nil B) = [].
Proof. destruct xs; reflexivity. Qed.

(** Whenever the filtering step returns, the confidences it keeps are the
    raw ones at or above the floor, and the kept boxes zipped with them are
    the candidates at or above the floor. *)
Lemma filter_detections_Some (d : Detections) (floor : Q) (f : MLService.Filtered) :
  MLService.filter_detections d floor = Some f ->
  MLService.f_confidence f = filter (Py.ge_float32 floor) (raw_confidences d) /\
  combine (MLService.f_xyxy f) (MLService.f_confidence f)
  = filter (at_or_above floor) (candidates d).
Proof.
  destruct d as [xy cf ks sm tr].
  unfold MLService.filter_detections, candidates, raw_boxes, raw_confidences.
  cbn [xyxy confidence class_id seg_mask tracker_id].
  destruct cf as [[|c conf]|]; cbn [length Nat.ltb Nat.leb Py.tolist_if_present].
  - intros [= <-]. cbn. rewrite !combine_nil_r. auto.
  - set (mask := map (Py.ge_float32 floor) (c :: conf)).
    destruct (Py.index_if_present xy mask (fun l => l) []) as [xs|] eqn:Exs;
      [|discriminate].
    destruct (Py.index_if_present (Some (c :: conf)) mask (fun l => l) [])
      as [cs|] eqn:Ecs; [|discriminate].
    destruct (Py.index_if_present ks mask (fun l => l) []); [|discriminate].
    destruct (Py.index_if_present sm mask Some None); [|discriminate].
    destruct (Py.index_if_present tr mask Some None); [|discriminate].
    intros [= <-]. cbn [MLService.f_xyxy MLService.f_confidence].
    assert (Hcs : cs = filter (Py.ge_float32 floor) (c :: conf)).
    { unfold mask in Ecs.
      rewrite index_if_present_agree in Ecs by apply Nat.eqb_refl.
      cbn [length Nat.ltb Nat.leb] in Ecs. injection Ecs as <-.
      exact (select_map_filter (Py.ge_float32 floor) (c :: conf)). }
    split; [exact Hcs|].
    destruct xy as [rows|]; cbn [Py.index_if_present] in Exs.
    + destruct rows as [|r rows]; cbn [length Nat.ltb Nat.leb] in Exs.
      * injection Exs as <-. reflexivity.
      * destruct (Py.bool_index (r :: rows) mask) as [out|] eqn:Eout;
          [|discriminate].
        cbn [option_map] in Exs. injection Exs as <-.
        apply bool_index_Some in Eout. destruct Eout as [Hlen ->].
        unfold mask in Hlen. rewrite length_map in Hlen.
        rewrite Hcs, <- (select_map_filter (Py.ge_float32 floor) (c :: conf)).
        apply (select_combine (Py.ge_float32 floor) (r :: rows) (c :: conf) Hlen).
    + injection Exs as <-. reflexivity.
  - intros [= <-]. cbn. rewrite !combine_nil_r. auto.
Qed.

(** On an output that satisfies the invariant of [supervision.Detections]
    the filtering step returns, with a box for every kept confidence. *)
Lemma filter_detections_valid (d : Detections) (floor : Q) :
  detections_valid d = true ->
  exists f, MLService.filter_detections d floor = Some f /\
            (length (MLService.f_confidence f) <= length (MLService.f_xyxy f))%nat.
Proof.
  destruct d as [xy cf ks sm tr].
  unfold detections_valid.
  cbn [xyxy confidence class_id seg_mask tracker_id].
  destruct xy as [rows|]; [|discriminate].
  rewrite !andb_true_iff. intros [[[Hcf Hks] Hsm] Htr].
  unfold MLService.filter_detections.
  cbn [xyxy confidence class_id seg_mask tracker_id].
  destruct cf as [[|c conf]|]; cbn [length Nat.ltb Nat.leb].
  - eexists; split; [reflexivity|]. cbn. lia.
  - cbn [rows_agree] in Hcf. apply Nat.eqb_eq in Hcf.
    rewrite (index_if_present_agree _ (c :: conf) (Some rows))
      by (cbn [rows_agree]; rewrite Hcf; apply Nat.eqb_refl).
    rewrite (index_if_present_agree _ (c :: conf) (Some (c :: conf)))
      by apply Nat.eqb_refl.
    rewrite (index_if_present_agree _ (c :: conf) ks)
      by (rewrite Hcf; exact Hks).
    rewrite (index_if_present_agree _ (c :: conf) sm)
      by (rewrite Hcf; exact Hsm).
    rewrite (index_if_present_agree _ (c :: conf) tr)
      by (rewrite Hcf; exact Htr).
    eexists; split; [reflexivity|].
    cbn [MLService.f_xyxy MLService.f_confidence].
    rewrite <- Hcf. cbn [length Nat.ltb Nat.leb].
    apply Nat.eq_le_incl, select_length. exact Hcf.
  - eexists; split; [reflexivity|]. cbn. lia.
Qed.

Section RFDETR.

Variable rfdetr_model_predict : string -> Detections.
Variables (image : string) (floor : Q).

Lemma predict_rfdetr_candidates (res : Result) :
  MLService.predict_rfdetr rfdetr_model_predict image floor = Some res ->
  map box_and_confidence (r_detections res)
  = filter (at_or_above floor) (candidates (rfdetr_model_predict image)).
Proof.
  unfold MLService.predict_rfdetr.
  destruct (MLService.filter_detections (rfdetr_model_predict image) floor) as [f|] eqn:Ef; [|discriminate].
  intros [= <-]. cbn [r_detections].
  rewrite detections_list_combine.
  apply (filter_detections_Some (rfdetr_model_predict image) floor f Ef).
Qed.

Lemma predict_rfdetr_floor (res : Result) :
  MLService.predict_rfdetr rfdetr_model_predict image floor = Some res ->
  Forall (fun d => Float.binary32 floor <= d_confidence d) (r_detections res).
Proof.
  intros Hres. apply Forall_forall. intros d Hd.
  apply (in_map box_and_confidence) in Hd.
  rewrite (predict_rfdetr_candidates res Hres) in Hd.
  apply filter_In in Hd. destruct Hd as [_ Hd].
  apply Qle_bool_iff in Hd. exact Hd.
Qed.

Lemma predict_rfdetr_valid :
  detections_valid (rfdetr_model_predict image) = true ->
  exists res,
    MLService.predict_rfdetr rfdetr_model_predict image floor = Some res /\
    r_confidence res
    = MLService.avg_confidence (map d_confidence (r_detections res)).
Proof.
  intros Hvalid.
  destruct (filter_detections_valid (rfdetr_model_predict image) floor Hvalid) as (f & Ef & Hlen).
  unfold MLService.predict_rfdetr. rewrite Ef.
  eexists; split; [reflexivity|].
  cbn [r_detections r_confidence].
  rewrite detections_list_confidences by exact Hlen. reflexivity.
Qed.

End RFDETR.

(** ** The YOLO path *)

Lemma convert_boxes_rows (names : list (Z * string)) (rows : list BoxRow) :
  forall ds,
    MLService.convert_boxes names rows = Some ds ->
    map box_and_confidence ds = map row_box_and_confidence rows.
Proof.
  induction rows as [|row rows IH]; intros ds; simpl.
  - intros [= <-]. reflexivity.
  - destruct (names_get names (Py.int (b_cls row))) as [name|]; [|discriminate].
    destruct (MLService.convert_boxes names rows) as [ds'|]; [|discriminate].
    intros [= <-]. simpl. rewrite (IH ds' eq_refl). reflexivity.
Qed.

Lemma convert_boxes_total (names : list (Z * string)) (rows : list BoxRow) :
  forallb (fun row =>
             match names_get names (Py.int (b_cls row)) with
             | Some _ => true
             | None => false
             end) rows = true ->
  exists ds, MLService.convert_boxes names rows = Some ds.
Proof.
  induction rows as [|row rows IH]; simpl.
  - eexists; reflexivity.
  - destruct (names_get names (Py.int (b_cls row))) as [name|]; [|discriminate].
    intros Hrows. destruct (IH Hrows) as [ds ->]. eexists; reflexivity.
Qed.

Lemma convert_results_rows (results : list YoloResult) :
  forall ds,
    MLService.convert_results results = Some ds ->
    map box_and_confidence ds = map row_box_and_confidence (all_rows results).
Proof.
  induction results as [|result results IH]; intros ds; simpl.
  - intros [= <-]. reflexivity.
  - unfold rows_of at 1.
    destruct (boxes result) as [[|row rows]|]; cbn [length Nat.ltb Nat.leb].
    + destruct (MLService.convert_results results) as [ds'|]; [|discriminate].
      intros [= <-]. simpl. apply IH. reflexivity.
    + destruct (MLService.convert_boxes (names result) (row :: rows))
        as [here|] eqn:Ehere; [|discriminate].
      destruct (MLService.convert_results results) as [ds'|]; [|discriminate].
      intros [= <-]. rewrite !map_app.
      rewrite (convert_boxes_rows _ _ _ Ehere), (IH ds' eq_refl). reflexivity.
    + destruct (MLService.convert_results results) as [ds'|]; [|discriminate].
      intros [= <-]. simpl. apply IH. reflexivity.
Qed.

Lemma convert_results_total (results : list YoloResult) :
  names_cover results = true ->
  exists ds, MLService.convert_results results = Some ds.
Proof.
  induction results as [|result results IH]; simpl.
  - eexists; reflexivity.
  - rewrite andb_true_iff. intros [Hres Hrest].
    destruct (IH Hrest) as [ds' ->]. unfold rows_of in Hres.
    destruct (boxes result) as [rows|]; [|eexists; reflexivity].
    destruct (Nat.ltb 0 (length rows)); [|eexists; reflexivity].
    destruct (convert_boxes_total (names result) rows Hres) as [ds ->].
    eexists; reflexivity.
Qed.

Section YOLO.

Variable yolo_model_predict : string -> Q -> list YoloResult.
Variables (image : string) (floor : Q).

Lemma predict_yolo_rows (res : Result) :
  MLService.predict_yolo yolo_model_predict image floor = Some res ->
  map box_and_confidence (r_detections res)
  = map row_box_and_confidence (all_rows (yolo_model_predict image floor)) /\
  r_confidence res
  = MLService.avg_confidence (map d_confidence (r_detections res)).
Proof.
  unfold MLService.predict_yolo.
  destruct (MLService.convert_results (yolo_model_predict image floor))
    as [ds|] eqn:Eds; [|discriminate].
  intros [= <-]. cbn [r_detections r_confidence]. split; [|reflexivity].
  apply convert_results_rows. exact Eds.
Qed.

Lemma predict_yolo_total :
  names_cover (yolo_model_predict image floor) = true ->
  exists res, MLService.predict_yolo yolo_model_predict image floor = Some res.
Proof.
  intros Hcover. unfold MLService.predict_yolo.
  destruct (convert_results_total _ Hcover) as [ds ->].
  eexists; reflexivity.
Qed.

End YOLO.

Lemma aggregate_near_mean_avg (k : Z) (res : Result) :
  (0 <= k <= 52)%Z ->
  r_confidence res = MLService.avg_confidence (map d_confidence (r_detections res)) ->
  aggregate_near_mean k res.
Proof.
  intros Hk Havg. unfold aggregate_near_mean. rewrite Havg. split.
  - intros ->. reflexivity.
  - intros Hunit Hlen. apply avg_confidence_near_mean; assumption.
Qed.

(** ** Geometry, confidence floor and aggregate confidence *)

(** C3, as stated, fails: RF-DETR output with a box whose [x1] exceeds its
    [x2], and YOLO output with a box of non-finite coordinates, are both
    normalised into a result that contains that box. *)
Lemma malformed_geometry_is_returned :
  option_map r_detections
    (MLService.predict_rfdetr (fun _ => crossed_output) "img" (1 # 2))
  = Some [mkDetection crossed_box (9 # 10) 0 "item"] /\
  valid_geometry crossed_box = false /\
  option_map r_detections
    (MLService.predict_yolo (fun _ _ => unbounded_output) "img" (1 # 2))
  = Some [mkDetection unbounded_box (9 # 10) 0 "bottle"] /\
  valid_geometry unbounded_box = false.
Proof. repeat split; reflexivity. Qed.

(** C3, amended: the service checks no geometry.  On well-formed raw output
    both conversions return a result; the boxes of an RF-DETR result are
    those of the candidates at or above the floor as numpy compares, in
    float32, and the boxes of a YOLO result are those of every row the
    backend returned, each unchanged whatever its coordinates. *)
Theorem boxes_pass_through_unchecked
    (rfdetr_model_predict : string -> Detections)
    (yolo_model_predict : string -> Q -> list YoloResult)
    (image : string) (floor : Q) :
  detections_valid (rfdetr_model_predict image) = true ->
  names_cover (yolo_model_predict image floor) = true ->
  (exists res,
     MLService.predict_rfdetr rfdetr_model_predict image floor = Some res /\
     map d_xyxy (r_detections res)
     = map fst (filter (at_or_above floor)
                       (candidates (rfdetr_model_predict image)))) /\
  (exists res,
     MLService.predict_yolo yolo_model_predict image floor = Some res /\
     map d_xyxy (r_detections res)
     = map b_xyxy (all_rows (yolo_model_predict image floor))).
Proof.
  intros Hvalid Hcover. split.
  - destruct (predict_rfdetr_valid rfdetr_model_predict image floor Hvalid)
      as (res & Hres & _).
    exists res. split; [exact Hres|].
    rewrite <- (predict_rfdetr_candidates _ _ _ res Hres), map_map.
    reflexivity.
  - destruct (predict_yolo_total yolo_model_predict image floor Hcover)
      as [res Hres].
    exists res. split; [exact Hres|].
    destruct (predict_yolo_rows _ _ _ res Hres) as [Hrows _].
    apply (f_equal (map fst)) in Hrows. rewrite !map_map in Hrows.
    exact Hrows.
Qed.

(** The two sample outputs with malformed boxes are well-formed otherwise,
    and come back with their boxes. *)
Lemma boxes_pass_through_unchecked_witness :
  detections_valid crossed_output = true /\
  names_cover unbounded_output = true /\
  (exists res,
     MLService.predict_rfdetr (fun _ => crossed_output) "img" (1 # 2) = Some res /\
     map d_xyxy (r_detections res)
     = map fst (filter (at_or_above (1 # 2)) (candidates crossed_output))) /\
  (exists res,
     MLService.predict_yolo (fun _ _ => unbounded_output) "img" (1 # 2) = Some res /\
     map d_xyxy (r_detections res) = map b_xyxy (all_rows unbounded_output)).
Proof.
  split; [reflexivity|]. split; [reflexivity|].
  apply (boxes_pass_through_unchecked
           (fun _ => crossed_output) (fun _ _ => unbounded_output)
           "img" (1 # 2)); reflexivity.
Defined.

(** C4, as stated, fails on the YOLO path: a detection of confidence 0.1
    that the backend returned under a floor of 0.4 is in the result. *)
Lemma yolo_keeps_detection_below_floor :
  option_map (fun res => map d_confidence (r_detections res))
    (MLService.predict_yolo (fun _ _ => faint_output) "img" (4 # 10))
  = Some [1 # 10] /\
  ~ (4 # 10 <= 1 # 10).
Proof.
  split; [reflexivity|].
  intros H. apply Qle_bool_iff in H. discriminate H.
Qed.

(** On the RF-DETR path a detection below the floor is returned as well:
    the confidence of float32 nearest to 0.9 is below the Python float
    0.9, and is kept under that floor. *)
Lemma rfdetr_keeps_float32_below_floor :
  option_map (fun res => map d_confidence (r_detections res))
    (MLService.predict_rfdetr
       (fun _ => mkDetections (Some [box 0 0 10 10])
                              (Some [Float.binary32 (9 # 10)])
                              (Some [0%Z]) None None)
       "img" (Float.binary64 (9 # 10)))
  = Some [Float.binary32 (9 # 10)] /\
  Float.binary32 (9 # 10) < Float.binary64 (9 # 10).
Proof. split; [vm_compute; reflexivity | reflexivity]. Qed.

(** C4, amended: the RF-DETR conversion applies the floor itself, as
    numpy compares: in float32.  The detections of its result are exactly
    the candidates whose confidence is at least the floor rounded to
    float32, so each has at least that confidence, and at least the floor
    itself when the floor is a float32 value.  The YOLO conversion hands
    the floor to the backend and keeps every row the backend returned,
    with its confidence. *)
Theorem floor_applied_by_rfdetr_conversion
    (rfdetr_model_predict : string -> Detections)
    (yolo_model_predict : string -> Q -> list YoloResult)
    (image : string) (floor : Q) (rfdetr_res yolo_res : Result) :
  MLService.predict_rfdetr rfdetr_model_predict image floor = Some rfdetr_res ->
  MLService.predict_yolo yolo_model_predict image floor = Some yolo_res ->
  map box_and_confidence (r_detections rfdetr_res)
  = filter (at_or_above floor) (candidates (rfdetr_model_predict image)) /\
  Forall (fun d => Float.binary32 floor <= d_confidence d)
         (r_detections rfdetr_res) /\
  (Float.binary32 floor == floor ->
   Forall (fun d => floor <= d_confidence d) (r_detections rfdetr_res)) /\
  map d_confidence (r_detections yolo_res)
  = map b_conf (all_rows (yolo_model_predict image floor)).
Proof.
  intros Hr Hy.
  pose proof (predict_rfdetr_floor rfdetr_model_predict image floor
                rfdetr_res Hr) as Hfloor.
  split; [|split; [|split]].
  - apply predict_rfdetr_candidates. exact Hr.
  - exact Hfloor.
  - intros Hexact. eapply Forall_impl; [|exact Hfloor].
    intros d Hd. cbv beta in Hd. rewrite Hexact in Hd. exact Hd.
  - destruct (predict_yolo_rows _ _ _ yolo_res Hy) as [Hrows _].
    apply (f_equal (map snd)) in Hrows. rewrite !map_map in Hrows.
    exact Hrows.
Qed.

(** On the shelf of four candidates the three at or above 0.5 are kept;
    the two bottles come back as the backend returned them. *)
Lemma floor_applied_by_rfdetr_conversion_witness :
  MLService.predict_rfdetr (fun _ => shelf_output) "img" (1 # 2)
  = Some shelf_result /\
  MLService.predict_yolo (fun _ _ => bottles_output) "img" (1 # 2)
  = Some bottles_result /\
  map box_and_confidence (r_detections shelf_result)
  = filter (at_or_above (1 # 2)) (candidates shelf_output) /\
  Forall (fun d => Float.binary32 (1 # 2) <= d_confidence d)
         (r_detections shelf_result) /\
  (Float.binary32 (1 # 2) == 1 # 2 ->
   Forall (fun d => 1 # 2 <= d_confidence d) (r_detections shelf_result)) /\
  map d_confidence (r_detections bottles_result)
  = map b_conf (all_rows bottles_output).
Proof.
  split; [reflexivity|]. split; [reflexivity|].
  apply (floor_applied_by_rfdetr_conversion
           (fun _ => shelf_output) (fun _ _ => bottles_output)
           "img" (1 # 2)); reflexivity.
Defined.

(** C5, as stated, fails: Python computes the aggregate in binary64.  For
    the floats 0.9, 0.7 and 0.5 it is the float next above 0.7, which is
    neither the float 0.7 nor the arithmetic mean of the three; and for a
    YOLO result with the float32 confidences nearest to 0.9, 0.8 and 0.5
    it is not the arithmetic mean of the confidences of its detections. *)
Lemma aggregate_differs_from_mean :
  MLService.avg_confidence
    [Float.binary64 (9 # 10); Float.binary64 (7 # 10); 1 # 2]
  == Float.binary64 (7 # 10) + 2 ^ (-53) /\
  ~ MLService.avg_confidence
      [Float.binary64 (9 # 10); Float.binary64 (7 # 10); 1 # 2]
    == arithmetic_mean
         [Float.binary64 (9 # 10); Float.binary64 (7 # 10); 1 # 2] /\
  ~ MLService.avg_confidence
      [Float.binary64 (9 # 10); Float.binary64 (7 # 10); 1 # 2]
    == 7 # 10 /\
  exists res,
    MLService.predict_yolo
      (fun _ _ =>
         [mkYoloResult
            (Some [mkBoxRow (box 0 0 10 10) (Float.binary32 (9 # 10)) 0;
                   mkBoxRow (box 20 0 30 10) (Float.binary32 (8 # 10)) 0;
                   mkBoxRow (box 40 0 50 10) (1 # 2) 0])
            [(0%Z, "bottle")]])
      "img" (1 # 4)
    = Some res /\
    length (r_detections res) = 3%nat /\
    ~ r_confidence res == arithmetic_mean (map d_confidence (r_detections res)).
Proof.
  split; [vm_compute; reflexivity|].
  split; [intros H; vm_compute in H; discriminate H|].
  split; [intros H; vm_compute in H; discriminate H|].
  eexists. split; [reflexivity|]. split; [reflexivity|].
  intros H. vm_compute in H. discriminate H.
Qed.

(** C5, amended: the aggregate confidence of a result is exactly 0 when
    the result has no detection, and otherwise the binary64 quotient of
    the binary64 sum of the confidences of its detections by their number:
    the arithmetic mean up to rounding.  For at most [2 ^ k] detections
    with confidences between 0 and 1 it differs from the arithmetic mean
    by at most [2 ^ (k - 52)]. *)
Theorem aggregate_confidence_is_rounded_mean
    (rfdetr_model_predict : string -> Detections)
    (yolo_model_predict : string -> Q -> list YoloResult)
    (image : string) (floor : Q) (k : Z) :
  detections_valid (rfdetr_model_predict image) = true ->
  names_cover (yolo_model_predict image floor) = true ->
  (0 <= k <= 52)%Z ->
  (exists res,
     MLService.predict_rfdetr rfdetr_model_predict image floor = Some res /\
     aggregate_near_mean k res) /\
  (exists res,
     MLService.predict_yolo yolo_model_predict image floor = Some res /\
     aggregate_near_mean k res).
Proof.
  intros Hvalid Hcover Hk. split.
  - destruct (predict_rfdetr_valid rfdetr_model_predict image floor Hvalid)
      as (res & Hres & Havg).
    exists res. split; [exact Hres|].
    apply aggregate_near_mean_avg; assumption.
  - destruct (predict_yolo_total yolo_model_predict image floor Hcover)
      as [res Hres].
    exists res. split; [exact Hres|].
    apply aggregate_near_mean_avg; [exact Hk|].
    apply (predict_yolo_rows _ _ _ res Hres).
Qed.

(** The shelf and the bottles under a floor of 0.5, with room for four
    detections. *)
Lemma aggregate_confidence_is_rounded_mean_witness :
  detections_valid shelf_output = true /\
  names_cover bottles_output = true /\
  (0 <= 2 <= 52)%Z /\
  (exists res,
     MLService.predict_rfdetr (fun _ => shelf_output) "img" (1 # 2) = Some res /\
     aggregate_near_mean 2 res) /\
  (exists res,
     MLService.predict_yolo (fun _ _ => bottles_output) "img" (1 # 2) = Some res /\
     aggregate_near_mean 2 res).
Proof.
  split; [reflexivity|]. split; [reflexivity|]. split; [lia|].
  apply (aggregate_confidence_is_rounded_mean
           (fun _ => shelf_output) (fun _ _ => bottles_output)
           "img" (1 # 2) 2); [reflexivity | reflexivity | lia].
Defined.

(** ** Three-valued conditions *)

Lemma where_and (a b : SQL.tv) :
  SQL.where_ (SQL.and_ a b) = true <-> a = Some true /\ b = Some true.
Proof.
  destruct a as [[]|], b as [[]|]; simpl; split;
    try discriminate; try tauto; intros [? ?]; discriminate.
Qed.

Lemma and_true (a b : SQL.tv) :
  SQL.and_ a b = Some true <-> a = Some true /\ b = Some true.
Proof.
  destruct a as [[]|], b as [[]|]; simpl; split;
    try discriminate; try tauto; intros [? ?]; discriminate.
Qed.

Lemma eq_float_true (column : option Q) (t : Q) :
  SQL.eq_float column t = Some true <-> threshold_matches column (Some t).
Proof.
  destruct column as [c|]; simpl; split.
  - intros [= H]. apply Qeq_bool_iff, H.
  - intros H. f_equal. apply Qeq_bool_iff, H.
  - discriminate.
  - contradiction.
Qed.

(** The WHERE clause of a confidence range keeps exactly the rows whose
    [confidence] column is set and lies in the range. *)
Lemma confidence_filter_both (lo hi : Q) (p : Prediction.t) :
  SQL.where_ (SQL.and_all (PredictionCRUD.confidence_filter (Some lo) (Some hi) p))
  = true
  <-> column_in_range (Prediction.confidence p) lo hi.
Proof.
  unfold PredictionCRUD.confidence_filter, SQL.and_all, column_in_range.
  cbn [app fold_right].
  rewrite where_and.
  destruct (Prediction.confidence p) as [c|]; simpl.
  - destruct (Qle_bool lo c) eqn:Elo, (Qle_bool c hi) eqn:Ehi; simpl;
      rewrite <- ?Qle_bool_iff, ?Elo, ?Ehi; split; intros [? ?];
      try discriminate; auto.
  - split; [intros [? _]; discriminate | contradiction].
Qed.

(** ** Ordering and paging *)

Lemma insert_desc_In (p x : Prediction.t) (sorted : list Prediction.t) :
  In x (PredictionCRUD.insert_desc p sorted) <-> x = p \/ In x sorted.
Proof.
  induction sorted as [|q rest IH]; simpl.
  - intuition.
  - destruct (Prediction.created_at q <=? Prediction.created_at p)%Z; simpl.
    + intuition.
    + rewrite IH. intuition.
Qed.

Lemma order_by_In (x : Prediction.t) (rows : list Prediction.t) :
  In x (PredictionCRUD.order_by_created_at_desc rows) <-> In x rows.
Proof.
  unfold PredictionCRUD.order_by_created_at_desc.
  induction rows as [|p rows IH]; simpl; [tauto|].
  rewrite insert_desc_In, IH. intuition.
Qed.

Lemma insert_desc_length (p : Prediction.t) (sorted : list Prediction.t) :
  length (PredictionCRUD.insert_desc p sorted) = S (length sorted).
Proof.
  induction sorted as [|q rest IH]; simpl; [reflexivity|].
  destruct (Prediction.created_at q <=? Prediction.created_at p)%Z; simpl;
    [reflexivity | rewrite IH; reflexivity].
Qed.

Lemma order_by_length (rows : list Prediction.t) :
  length (PredictionCRUD.order_by_created_at_desc rows) = length rows.
Proof.
  unfold PredictionCRUD.order_by_created_at_desc.
  induction rows as [|p rows IH]; simpl; [reflexivity|].
  rewrite insert_desc_length, IH. reflexivity.
Qed.

Lemma filter_length_le {A : Type} (f : A -> bool) (l : list A) :
  (length (filter f l) <= length l)%nat.
Proof.
  induction l as [|a l IH]; simpl; [lia|].
  destruct (f a); simpl; lia.
Qed.

Lemma filter_none {A : Type} (f : A -> bool) (l : list A) :
  (forall a, f a = false) -> filter f l = [].
Proof.
  intros H. induction l as [|a l IH]; simpl; [reflexivity|].
  rewrite H. exact IH.
Qed.

(** ** History queries *)

Lemma get_predictions_inverted (db : DB) (skip limit : nat)
    (user_id model search_text : option string) (lo hi : Q) :
  hi < lo ->
  PredictionCRUD.get_predictions db skip limit user_id model search_text
    (Some lo) (Some hi) = [].
Proof.
  intros Hinv.
  assert (Hnone : forall p,
             SQL.where_ (SQL.and_all
                           (PredictionCRUD.confidence_filter (Some lo) (Some hi) p))
             = false).
  { intros p. apply not_true_is_false. rewrite confidence_filter_both.
    unfold column_in_range. destruct (Prediction.confidence p) as [c|]; [|tauto].
    intros [Hlo Hhi]. apply (Qlt_not_le _ _ Hinv).
    apply Qle_trans with c; assumption. }
  unfold PredictionCRUD.get_predictions. cbv zeta.
  rewrite (filter_none _ _ Hnone). cbn.
  rewrite skipn_nil, firstn_nil. reflexivity.
Qed.

(** C1, as stated, fails for combined records: the record that
    [predict_both] stores has both detector confidences inside the range
    from 0.5 to 1, and a query for that range returns nothing. *)
Lemma combined_record_matches_no_range :
  map Prediction.model (predictions combined_store) = ["both"] /\
  Forall (fun p =>
            column_in_range (Prediction.rfdetr_confidence p) (1 # 2) 1 /\
            column_in_range (Prediction.yolo_confidence p) (1 # 2) 1)
         (predictions combined_store) /\
  PredictionCRUD.get_predictions combined_store 0 100 None None None
    (Some (1 # 2)) (Some 1) = [] /\
  Routers.get_predictions 0 100 None None None (Some (1 # 2)) (Some 1)
    combined_store = Routers.OK (Routers.mkPage [] 0 0 100).
Proof.
  split; [reflexivity|]. split; [|split; reflexivity].
  apply Forall_forall. intros p Hp. vm_compute in Hp.
  destruct Hp as [<-|[]].
  repeat split; apply Qle_bool_iff; vm_compute; reflexivity.
Qed.

(** C1, amended: under a confidence range a stored record is returned (no
    other filter, a page that holds every row) exactly when its
    [confidence] column is set and lies in the range, whatever its model
    selector; [rfdetr_confidence] and [yolo_confidence] are not read. *)
Theorem confidence_range_reads_confidence_column
    (db : DB) (p : Prediction.t) (lo hi : Q) (limit : nat) :
  In p (predictions db) ->
  (length (predictions db) <= limit)%nat ->
  In p (PredictionCRUD.get_predictions db 0 limit None None None
          (Some lo) (Some hi))
  <-> column_in_range (Prediction.confidence p) lo hi.
Proof.
  intros Hin Hlimit.
  unfold PredictionCRUD.get_predictions. cbn [skipn].
  rewrite firstn_all2.
  - rewrite order_by_In, filter_In, confidence_filter_both. tauto.
  - rewrite order_by_length.
    eapply Nat.le_trans; [apply filter_length_le | exact Hlimit].
Qed.

(** Alice's RF-DETR record and the range from 0.5 to 1. *)
Lemma confidence_range_reads_confidence_column_witness :
  In rfdetr_record (predictions rfdetr_store) /\
  (length (predictions rfdetr_store) <= 100)%nat /\
  (In rfdetr_record
      (PredictionCRUD.get_predictions rfdetr_store 0 100 None None None
         (Some (1 # 2)) (Some 1))
   <-> column_in_range (Prediction.confidence rfdetr_record) (1 # 2) 1).
Proof.
  assert (Hin : In rfdetr_record (predictions rfdetr_store))
    by (left; reflexivity).
  assert (Hlen : (length (predictions rfdetr_store) <= 100)%nat)
    by (vm_compute; lia).
  split; [exact Hin|]. split; [exact Hlen|].
  apply (confidence_range_reads_confidence_column
           rfdetr_store rfdetr_record (1 # 2) 1 100 Hin Hlen).
Defined.

(** C7, as stated, fails: a query whose minimum confidence 0.9 exceeds its
    maximum 0.1 is executed and answered with an empty page. *)
Lemma inverted_range_is_answered :
  Routers.get_predictions 0 100 None None None (Some (9 # 10)) (Some (1 # 10))
    rfdetr_store
  = Routers.OK (Routers.mkPage [] 0 0 100).
Proof. reflexivity. Qed.

(** C7, amended: when every query parameter is within its declared bounds
    and the minimum confidence exceeds the maximum, the query is executed
    and the answer is the empty page. *)
Theorem inverted_range_yields_empty_page
    (db : DB) (skip limit : Z) (user_id model search_text : option string)
    (lo hi : Q) :
  Routers.rejected_parameters skip limit (Some lo) (Some hi) = [] ->
  hi < lo ->
  Routers.get_predictions skip limit user_id model search_text
    (Some lo) (Some hi) db
  = Routers.OK (Routers.mkPage [] 0 skip limit).
Proof.
  intros Hok Hinv. unfold Routers.get_predictions. rewrite Hok.
  rewrite (get_predictions_inverted db _ _ user_id model search_text lo hi Hinv).
  reflexivity.
Qed.

(** The range from 0.9 down to 0.1 on Alice's store. *)
Lemma inverted_range_yields_empty_page_witness :
  Routers.rejected_parameters 0 100 (Some (9 # 10)) (Some (1 # 10)) = [] /\
  1 # 10 < 9 # 10 /\
  Routers.get_predictions 0 100 None (Some "rfdetr") None
    (Some (9 # 10)) (Some (1 # 10)) rfdetr_store
  = Routers.OK (Routers.mkPage [] 0 0 100).
Proof.
  split; [reflexivity|]. split; [reflexivity|].
  apply (inverted_range_yields_empty_page rfdetr_store 0 100 None
           (Some "rfdetr") None (9 # 10) (1 # 10)); reflexivity.
Defined.

(** C8: a query with [limit <= 0], [limit > 1000] or a negative offset
    ([skip]) is rejected for that parameter before any row is read; no
    page is returned. *)
Theorem out_of_range_paging_is_rejected
    (db : DB) (skip limit : Z) (user_id model search_text : option string)
    (min_confidence max_confidence : option Q) :
  (limit <= 0 \/ 1000 < limit \/ skip < 0)%Z ->
  exists parameters,
    Routers.get_predictions skip limit user_id model search_text
      min_confidence max_confidence db
    = Routers.Unprocessable parameters /\
    (In "limit" parameters \/ In "skip" parameters).
Proof.
  intros Hbad. unfold Routers.get_predictions.
  assert (Hin : In "limit"
                  (Routers.rejected_parameters skip limit
                     min_confidence max_confidence) \/
                In "skip"
                  (Routers.rejected_parameters skip limit
                     min_confidence max_confidence)).
  { unfold Routers.rejected_parameters.
    destruct Hbad as [H|[H|H]].
    - left. apply in_or_app. right. apply in_or_app. left.
      replace (1 <=? limit)%Z with false by (symmetry; apply Z.leb_gt; lia).
      left. reflexivity.
    - left. apply in_or_app. right. apply in_or_app. left.
      replace (limit <=? 1000)%Z with false by (symmetry; apply Z.leb_gt; lia).
      rewrite andb_false_r. left. reflexivity.
    - right. apply in_or_app. left.
      replace (0 <=? skip)%Z with false by (symmetry; apply Z.leb_gt; lia).
      left. reflexivity. }
  destruct (Routers.rejected_parameters skip limit min_confidence max_confidence)
    as [|parameter parameters].
  - destruct Hin as [[]|[]].
  - exists (parameter :: parameters). split; [reflexivity | exact Hin].
Qed.

(** A query with [skip = -1] and [limit = -1]. *)
Lemma out_of_range_paging_is_rejected_witness :
  (-1 <= 0 \/ 1000 < -1 \/ -1 < 0)%Z /\
  exists parameters,
    Routers.get_predictions (-1) (-1) None None None None None rfdetr_store
    = Routers.Unprocessable parameters /\
    (In "limit" parameters \/ In "skip" parameters).
Proof.
  split; [left; lia|].
  apply (out_of_range_paging_is_rejected rfdetr_store (-1) (-1)
           None None None None None).
  left. lia.
Defined.

(** ** The duplicate guard *)

Lemma is_duplicate_of_true (image_hash model : string)
    (thresholds : Prediction.t -> SQL.tv) (p : Prediction.t) :
  Routers.is_duplicate_of image_hash model thresholds p = true
  <-> Prediction.image_hash p = Some image_hash /\
      Prediction.model p = model /\
      thresholds p = Some true.
Proof.
  unfold Routers.is_duplicate_of, SQL.eq_str.
  destruct (Prediction.image_hash p) as [h|]; simpl.
  - destruct (String.eqb_spec h image_hash) as [->|Hh];
      destruct (String.eqb_spec (Prediction.model p) model) as [Hm|Hm];
      destruct (thresholds p) as [[]|]; simpl; split;
      try discriminate; try (intros (? & ? & ?); congruence); auto.
  - split; [|intros (H & _); discriminate].
    destruct (Prediction.model p =? model)%string;
      destruct (thresholds p) as [[]|]; discriminate.
Qed.

Lemma find_first {A : Type} (f : A -> bool) (before : list A) (x : A)
    (after : list A) :
  Forall (fun a => f a = false) before ->
  f x = true ->
  find f (before ++ x :: after) = Some x.
Proof.
  induction 1 as [|a before Ha _ IH]; intros Hx; simpl.
  - rewrite Hx. reflexivity.
  - rewrite Ha. apply IH, Hx.
Qed.

(** What [first()] on the duplicate query decides, for any reading [key]
    of its condition. *)
Lemma find_decides {A : Type} (f : A -> bool) (key : A -> Prop) (l : list A) :
  (forall a, f a = true <-> key a) ->
  match find f l with
  | Some d => In d l /\ key d
  | None => Forall (fun a => ~ key a) l
  end.
Proof.
  intros Hkey. destruct (find f l) as [d|] eqn:E.
  - apply find_some in E. destruct E as [Hin Hd]. split; [exact Hin|].
    apply Hkey, Hd.
  - apply Forall_forall. intros a Ha Hk.
    apply Hkey in Hk. rewrite (find_none _ _ E a Ha) in Hk. discriminate.
Qed.

Lemma duplicate_condition_key (sha256_hexdigest : string -> string)
    (image : string) (req : Request) (p : Prediction.t) :
  duplicate_condition sha256_hexdigest image req p = true
  <-> request_key sha256_hexdigest image req p.
Proof.
  destruct req as [t|t|tr ty]; cbn [duplicate_condition request_key];
    rewrite is_duplicate_of_true; unfold same_key.
  - rewrite eq_float_true. simpl. tauto.
  - rewrite eq_float_true. simpl. tauto.
  - cbv beta. rewrite and_true, !eq_float_true. tauto.
Qed.

Section Guard.

Variable rfdetr_model_predict : string -> Detections.
Variable yolo_model_predict : string -> Q -> list YoloResult.
Variable sha256_hexdigest : string -> string.
Variable image_to_base64 : string -> string.

(** A successful inference leaves the endpoint with the duplicate query
    and, when it finds nothing, the one call of [create_prediction]. *)
Lemma Predict_after_inference (new_id : string) (now : Z) (image : string)
    (req : Request) (comment : option string) (current_user : User.t)
    (db : DB) (results : ResultsJSON) :
  inference rfdetr_model_predict yolo_model_predict image req = Some results ->
  exists created,
    request_key sha256_hexdigest image req created /\
    Prediction.id created = new_id /\
    Prediction.user_id created = Some (User.id current_user) /\
    Predict rfdetr_model_predict yolo_model_predict sha256_hexdigest
      image_to_base64 new_id now image req comment current_user db
    = match find (duplicate_condition sha256_hexdigest image req) (predictions db) with
      | Some duplicate => (Routers.DuplicateFound (Prediction.id duplicate), db)
      | None =>
          (Routers.Predicted results new_id (image_to_base64 image),
           mkDB (users db) (predictions db ++ [created]))
      end.
Proof.
  destruct req as [t|t|tr ty];
    cbn [inference Predict duplicate_condition request_key].
  - unfold Routers.predict_rfdetr.
    destruct (MLService.predict_rfdetr rfdetr_model_predict image t)
      as [res|]; [|discriminate].
    intros [= <-]. eexists. split; [|split; [|split]].
    4: { cbv zeta. unfold Routers.generate_image_hash.
         match goal with |- context [find ?f ?l] => destruct (find f l) end;
         reflexivity. }
    all: cbn; repeat split; try reflexivity; apply Qeq_refl.
  - unfold Routers.predict_yolo.
    destruct (MLService.predict_yolo yolo_model_predict image t)
      as [res|]; [|discriminate].
    intros [= <-]. eexists. split; [|split; [|split]].
    4: { cbv zeta. unfold Routers.generate_image_hash.
         match goal with |- context [find ?f ?l] => destruct (find f l) end;
         reflexivity. }
    all: cbn; repeat split; try reflexivity; apply Qeq_refl.
  - unfold Routers.predict_both.
    destruct (MLService.predict_rfdetr rfdetr_model_predict image tr)
      as [rfdetr|]; [|discriminate].
    destruct (MLService.predict_yolo yolo_model_predict image ty)
      as [yolo|]; [|discriminate].
    intros [= <-]. eexists. split; [|split; [|split]].
    4: { cbv zeta. unfold Routers.generate_image_hash.
         match goal with |- context [find ?f ?l] => destruct (find f l) end;
         reflexivity. }
    all: cbn; repeat split; try reflexivity; apply Qeq_refl.
Qed.

(** When a detector raises, the endpoint answers with the server error and
    never reaches the duplicate query or the store. *)
Lemma Predict_inference_fails (new_id : string) (now : Z) (image : string)
    (req : Request) (comment : option string) (current_user : User.t)
    (db : DB) :
  inference rfdetr_model_predict yolo_model_predict image req = None ->
  Predict rfdetr_model_predict yolo_model_predict sha256_hexdigest
    image_to_base64 new_id now image req comment current_user db
  = (Routers.InternalServerError, db).
Proof.
  destruct req as [t|t|tr ty]; cbn [inference Predict].
  - unfold Routers.predict_rfdetr.
    destruct (MLService.predict_rfdetr rfdetr_model_predict image t);
      [discriminate | reflexivity].
  - unfold Routers.predict_yolo.
    destruct (MLService.predict_yolo yolo_model_predict image t);
      [discriminate | reflexivity].
  - unfold Routers.predict_both.
    destruct (MLService.predict_rfdetr rfdetr_model_predict image tr);
      [|reflexivity].
    destruct (MLService.predict_yolo yolo_model_predict image ty);
      [discriminate | reflexivity].
Qed.

End Guard.

(** C2: once the detector(s) have run, a Predict call on a store that holds
    a record with the content key, model selector and threshold(s) of the
    request answers with the identifier of such a record, flagged as a
    duplicate, and leaves the store as it was; on a store that holds none it
    stores exactly one new record, with that key and the caller as owner. *)
Theorem duplicate_guard_short_circuits
    (rfdetr_model_predict : string -> Detections)
    (yolo_model_predict : string -> Q -> list YoloResult)
    (sha256_hexdigest image_to_base64 : string -> string)
    (new_id : string) (now : Z) (image : string) (req : Request)
    (comment : option string) (current_user : User.t) (db : DB)
    (results : ResultsJSON) :
  inference rfdetr_model_predict yolo_model_predict image req = Some results ->
  guard_outcome sha256_hexdigest image_to_base64 new_id image req
    current_user db results
    (Predict rfdetr_model_predict yolo_model_predict sha256_hexdigest
       image_to_base64 new_id now image req comment current_user db).
Proof.
  intros Hinf.
  destruct (Predict_after_inference rfdetr_model_predict yolo_model_predict
              sha256_hexdigest image_to_base64 new_id now image req comment
              current_user db results Hinf)
    as (created & Hkey & Hid & Huser & ->).
  pose proof (find_decides _ _ (predictions db)
                (duplicate_condition_key sha256_hexdigest image req)) as Hfind.
  unfold guard_outcome.
  destruct (find (duplicate_condition sha256_hexdigest image req) (predictions db))
    as [d|].
  - left. exists d. destruct Hfind as [Hin Hd]. auto.
  - right. split; [exact Hfind|]. exists created. auto.
Qed.

(** Alice repeats her RF-DETR prediction. *)
Lemma duplicate_guard_short_circuits_witness :
  inference (fun _ => shelf_output) (fun _ _ => bottles_output) "img"
    (RfdetrRequest (1 # 2)) = Some (Single shelf_result) /\
  guard_outcome sha256_sample base64_sample "p-9" "img"
    (RfdetrRequest (1 # 2)) alice rfdetr_store (Single shelf_result)
    (Predict (fun _ => shelf_output) (fun _ _ => bottles_output)
       sha256_sample base64_sample "p-9" 900 "img" (RfdetrRequest (1 # 2))
       None alice rfdetr_store).
Proof.
  split; [reflexivity|].
  apply (duplicate_guard_short_circuits
           (fun _ => shelf_output) (fun _ _ => bottles_output)
           sha256_sample base64_sample "p-9" 900 "img"
           (RfdetrRequest (1 # 2)) None alice rfdetr_store
           (Single shelf_result)).
  reflexivity.
Defined.

(** C10: the duplicate query does not look at the owner.  When the first
    stored record with the content key, model selector and threshold(s) of
    the request belongs to somebody else, the call still answers with that
    record's identifier as a duplicate and stores nothing for the caller. *)
Theorem duplicate_guard_ignores_owner
    (rfdetr_model_predict : string -> Detections)
    (yolo_model_predict : string -> Q -> list YoloResult)
    (sha256_hexdigest image_to_base64 : string -> string)
    (new_id : string) (now : Z) (image : string) (req : Request)
    (comment : option string) (current_user : User.t) (db : DB)
    (results : ResultsJSON)
    (before : list Prediction.t) (r : Prediction.t) (after : list Prediction.t) :
  inference rfdetr_model_predict yolo_model_predict image req = Some results ->
  predictions db = before ++ r :: after ->
  Forall (fun p => ~ request_key sha256_hexdigest image req p) before ->
  request_key sha256_hexdigest image req r ->
  Prediction.user_id r <> Some (User.id current_user) ->
  Predict rfdetr_model_predict yolo_model_predict sha256_hexdigest
    image_to_base64 new_id now image req comment current_user db
  = (Routers.DuplicateFound (Prediction.id r), db).
Proof.
  intros Hinf Hstore Hbefore Hr _.
  destruct (Predict_after_inference rfdetr_model_predict yolo_model_predict
              sha256_hexdigest image_to_base64 new_id now image req comment
              current_user db results Hinf)
    as (created & _ & _ & _ & ->).
  rewrite Hstore, find_first; [reflexivity | | ].
  - eapply Forall_impl; [|exact Hbefore].
    intros p Hp. apply not_true_is_false.
    rewrite duplicate_condition_key. exact Hp.
  - apply duplicate_condition_key. exact Hr.
Qed.

(** Bob submits the image Alice has already had analysed, with her
    threshold: the answer is her record, and the store is unchanged. *)
Lemma duplicate_guard_ignores_owner_witness :
  inference (fun _ => shelf_output) (fun _ _ => bottles_output) "img"
    (RfdetrRequest (1 # 2)) = Some (Single shelf_result) /\
  predictions rfdetr_store = [] ++ rfdetr_record :: [] /\
  request_key sha256_sample "img" (RfdetrRequest (1 # 2)) rfdetr_record /\
  Prediction.user_id rfdetr_record <> Some (User.id bob) /\
  Predict (fun _ => shelf_output) (fun _ _ => bottles_output)
    sha256_sample base64_sample "p-9" 900 "img" (RfdetrRequest (1 # 2))
    None bob rfdetr_store
  = (Routers.DuplicateFound "p-1", rfdetr_store).
Proof.
  assert (Hkey : request_key sha256_sample "img" (RfdetrRequest (1 # 2))
                   rfdetr_record)
    by (repeat split; reflexivity).
  assert (Howner : Prediction.user_id rfdetr_record <> Some (User.id bob))
    by discriminate.
  split; [reflexivity|]. split; [reflexivity|].
  split; [exact Hkey|]. split; [exact Howner|].
  apply (duplicate_guard_ignores_owner
           (fun _ => shelf_output) (fun _ _ => bottles_output)
           sha256_sample base64_sample "p-9" 900 "img"
           (RfdetrRequest (1 # 2)) None bob rfdetr_store
           (Single shelf_result) [] rfdetr_record []).
  - reflexivity.
  - reflexivity.
  - constructor.
  - exact Hkey.
  - exact Howner.
Defined.

(** ** Creating and annotating records *)

(** C6, as stated, fails: a record with the model "both" that has one
    result payload and no threshold, and an RF-DETR record with two payloads
    and two thresholds, are both stored. *)
Lemma records_breaking_the_invariant_are_stored :
  PredictionCRUD.create_prediction "p-2" 200 (mkDB [alice] [])
    "both" (Single shelf_result) None None None None None None None
    None None None None
  = (mkDB [alice] [lonely_combined], lonely_combined) /\
  record_invariant lonely_combined = false /\
  PredictionCRUD.create_prediction "p-3" 300 (mkDB [alice] [])
    "rfdetr" (Combined shelf_result bottles_result) None None None None
    None None None None (Some (1 # 2)) (Some (1 # 2)) None
  = (mkDB [alice] [crowded_single], crowded_single) /\
  record_invariant crowded_single = false.
Proof. repeat split; reflexivity. Qed.

(** The record that a prediction endpoint passes to [create_prediction]. *)
Lemma Predict_creates_matching_counts
    (rfdetr_model_predict : string -> Detections)
    (yolo_model_predict : string -> Q -> list YoloResult)
    (sha256_hexdigest image_to_base64 : string -> string)
    (new_id : string) (now : Z) (image : string) (req : Request)
    (comment : option string) (current_user : User.t) (db : DB)
    (results : ResultsJSON) :
  inference rfdetr_model_predict yolo_model_predict image req = Some results ->
  find (duplicate_condition sha256_hexdigest image req) (predictions db) = None ->
  exists created,
    predictions
      (snd (Predict rfdetr_model_predict yolo_model_predict sha256_hexdigest
              image_to_base64 new_id now image req comment current_user db))
    = predictions db ++ [created] /\
    Prediction.model created = model_of req /\
    record_invariant created = true.
Proof.
  destruct req as [t|t|tr ty];
    cbn [inference Predict duplicate_condition model_of].
  - unfold Routers.predict_rfdetr.
    destruct (MLService.predict_rfdetr rfdetr_model_predict image t)
      as [res|]; [|discriminate].
    intros [= <-] Hfind. cbv zeta. unfold Routers.generate_image_hash.
    rewrite Hfind. eexists. split; [reflexivity|]. repeat split.
  - unfold Routers.predict_yolo.
    destruct (MLService.predict_yolo yolo_model_predict image t)
      as [res|]; [|discriminate].
    intros [= <-] Hfind. cbv zeta. unfold Routers.generate_image_hash.
    rewrite Hfind. eexists. split; [reflexivity|]. repeat split.
  - unfold Routers.predict_both.
    destruct (MLService.predict_rfdetr rfdetr_model_predict image tr)
      as [rfdetr|]; [|discriminate].
    destruct (MLService.predict_yolo yolo_model_predict image ty)
      as [yolo|]; [|discriminate].
    intros [= <-] Hfind. cbv zeta. unfold Routers.generate_image_hash.
    rewrite Hfind. eexists. split; [reflexivity|]. repeat split.
Qed.

(** C6, amended: [create_prediction] checks nothing about the counts; it
    is its callers, the three prediction endpoints, that get them right.
    A record that is in the store after a call of a prediction endpoint
    was there before the call, or has the model selector of the request
    with exactly two result payloads and two detector thresholds for the
    model "both", and exactly one of each for a single detector. *)
Theorem endpoints_store_only_matching_counts
    (rfdetr_model_predict : string -> Detections)
    (yolo_model_predict : string -> Q -> list YoloResult)
    (sha256_hexdigest image_to_base64 : string -> string)
    (new_id : string) (now : Z) (image : string) (req : Request)
    (comment : option string) (current_user : User.t) (db : DB)
    (p : Prediction.t) :
  In p (predictions
          (snd (Predict rfdetr_model_predict yolo_model_predict
                  sha256_hexdigest image_to_base64 new_id now image req
                  comment current_user db))) ->
  In p (predictions db) \/
  (Prediction.model p = model_of req /\ record_invariant p = true).
Proof.
  destruct (inference rfdetr_model_predict yolo_model_predict image req)
    as [results|] eqn:Hinf.
  - destruct (find (duplicate_condition sha256_hexdigest image req)
                   (predictions db)) as [duplicate|] eqn:Hfind.
    + destruct (Predict_after_inference rfdetr_model_predict
                  yolo_model_predict sha256_hexdigest image_to_base64 new_id
                  now image req comment current_user db results Hinf)
        as (created & _ & _ & _ & ->).
      rewrite Hfind. cbn [snd]. intros Hp. left. exact Hp.
    + destruct (Predict_creates_matching_counts rfdetr_model_predict
                  yolo_model_predict sha256_hexdigest image_to_base64 new_id
                  now image req comment current_user db results Hinf Hfind)
        as (created & -> & Hmodel & Hcounts).
      intros Hp. apply in_app_or in Hp. destruct Hp as [Hp|[<-|[]]].
      * left. exact Hp.
      * right. split; assumption.
  - rewrite (Predict_inference_fails rfdetr_model_predict yolo_model_predict
               sha256_hexdigest image_to_base64 new_id now image req comment
               current_user db Hinf).
    cbn [snd]. intros Hp. left. exact Hp.
Qed.

(** The record of Alice's combined prediction on an empty store. *)
Lemma endpoints_store_only_matching_counts_witness :
  In combined_record
     (predictions
        (snd (Predict (fun _ => shelf_output) (fun _ _ => bottles_output)
                sha256_sample base64_sample "p-1" 100 "img"
                (BothRequest (1 # 2) (1 # 2)) None alice
                (mkDB [alice; bob] [])))) /\
  (In combined_record (predictions (mkDB [alice; bob] [])) \/
   (Prediction.model combined_record = model_of (BothRequest (1 # 2) (1 # 2)) /\
    record_invariant combined_record = true)).
Proof.
  assert (Hin : In combined_record
                   (predictions
                      (snd (Predict (fun _ => shelf_output)
                              (fun _ _ => bottles_output)
                              sha256_sample base64_sample "p-1" 100 "img"
                              (BothRequest (1 # 2) (1 # 2)) None alice
                              (mkDB [alice; bob] [])))))
    by (left; reflexivity).
  split; [exact Hin|].
  apply (endpoints_store_only_matching_counts
           (fun _ => shelf_output) (fun _ _ => bottles_output)
           sha256_sample base64_sample "p-1" 100 "img"
           (BothRequest (1 # 2) (1 # 2)) None alice (mkDB [alice; bob] [])
           combined_record Hin).
Defined.

Lemma same_but_comment_refl (p : Prediction.t) : same_but_comment p p.
Proof. unfold same_but_comment. repeat split. Qed.

Lemma same_but_comment_set (p : Prediction.t) (c : option string) :
  same_but_comment p (Prediction.set_comment p c).
Proof. unfold same_but_comment. repeat split. Qed.

Lemma Forall2_same_refl (rows : list Prediction.t) :
  Forall2 same_but_comment rows rows.
Proof.
  induction rows; constructor; [apply same_but_comment_refl | assumption].
Qed.

Section UpdateRow.

Variables (prediction_id : string) (c : option string).

Lemma update_row_frame (rows : list Prediction.t) :
  Forall2 same_but_comment rows
    (PredictionCRUD.update_row rows prediction_id
       (fun p => Prediction.set_comment p c)).
Proof.
  induction rows as [|p rows IH]; simpl; [constructor|].
  destruct (String.eqb (Prediction.id p) prediction_id); constructor.
  - apply same_but_comment_set.
  - apply Forall2_same_refl.
  - apply same_but_comment_refl.
  - exact IH.
Qed.

Lemma update_row_others (rows : list Prediction.t) :
  filter (fun p => negb (String.eqb (Prediction.id p) prediction_id))
    (PredictionCRUD.update_row rows prediction_id
       (fun p => Prediction.set_comment p c))
  = filter (fun p => negb (String.eqb (Prediction.id p) prediction_id)) rows.
Proof.
  induction rows as [|p rows IH]; simpl; [reflexivity|].
  destruct (String.eqb (Prediction.id p) prediction_id) eqn:E; simpl.
  - rewrite E. reflexivity.
  - rewrite E. simpl. rewrite IH. reflexivity.
Qed.

Lemma update_row_find (rows : list Prediction.t) :
  find (fun p => String.eqb (Prediction.id p) prediction_id)
    (PredictionCRUD.update_row rows prediction_id
       (fun p => Prediction.set_comment p c))
  = option_map (fun p => Prediction.set_comment p c)
      (find (fun p => String.eqb (Prediction.id p) prediction_id) rows).
Proof.
  induction rows as [|p rows IH]; simpl; [reflexivity|].
  destruct (String.eqb (Prediction.id p) prediction_id) eqn:E; simpl.
  - rewrite E. reflexivity.
  - rewrite E. exact IH.
Qed.

End UpdateRow.

(** C9: a call that updates the comment of a prediction leaves the users
    and the number and order of the predictions as they were; every stored
    record keeps its identifier, owner, model, image, content key, results,
    confidences, thresholds and creation time; the records with another
    identifier are unchanged altogether.  With an empty comment the call is
    refused with the 422 and the record stays as it is; otherwise the
    record with the identifier is the old one with the new comment, and
    the answer is that record, or the 404 when there is none. *)
Theorem update_comment_changes_only_comment
    (db : DB) (prediction_id : string) (comment : string) :
  users (snd (Routers.update_prediction_comment prediction_id comment db))
  = users db /\
  Forall2 same_but_comment (predictions db)
    (predictions (snd (Routers.update_prediction_comment prediction_id comment db))) /\
  filter (fun p => negb (String.eqb (Prediction.id p) prediction_id))
    (predictions (snd (Routers.update_prediction_comment prediction_id comment db)))
  = filter (fun p => negb (String.eqb (Prediction.id p) prediction_id))
      (predictions db) /\
  PredictionCRUD.get_prediction_by_id
    (snd (Routers.update_prediction_comment prediction_id comment db))
    prediction_id
  = (if String.eqb comment ""
     then PredictionCRUD.get_prediction_by_id db prediction_id
     else option_map (fun p => Prediction.set_comment p (Some comment))
            (PredictionCRUD.get_prediction_by_id db prediction_id)) /\
  fst (Routers.update_prediction_comment prediction_id comment db)
  = (if String.eqb comment ""
     then Routers.Unprocessable ["comment"]
     else match PredictionCRUD.get_prediction_by_id db prediction_id with
          | Some p => Routers.OK (Prediction.set_comment p (Some comment))
          | None => Routers.NotFound
          end).
Proof.
  unfold Routers.update_prediction_comment.
  destruct (String.eqb comment "").
  { cbn [fst snd]. split; [reflexivity|].
    split; [apply Forall2_same_refl|]. repeat split. }
  unfold PredictionCRUD.update_prediction_comment,
    PredictionCRUD.get_prediction_by_id.
  destruct (find (fun p => String.eqb (Prediction.id p) prediction_id)
                 (predictions db)) as [p|] eqn:Efind; cbn [fst snd users predictions].
  - split; [reflexivity|]. split; [apply update_row_frame|].
    split; [apply update_row_others|].
    split; [|reflexivity].
    rewrite (update_row_find prediction_id (Some comment) (predictions db)).
    rewrite Efind. reflexivity.
  - split; [reflexivity|]. split; [apply Forall2_same_refl|].
    split; [reflexivity|]. split; [|reflexivity].
    rewrite Efind. reflexivity.
Qed.

(** An empty comment is refused, and Alice's record keeps its comment. *)
Lemma empty_comment_is_refused :
  Routers.update_prediction_comment "p-1" "" rfdetr_store
  = (Routers.Unprocessable ["comment"], rfdetr_store).
Proof. reflexivity. Qed.

(** * Further properties of the store and the endpoints *)

(** ** Lookup, creation and deletion by identifier *)

Lemma find_id_absent (rows : list Prediction.t) (prediction_id : string) :
  ~ In prediction_id (map Prediction.id rows) ->
  find (fun p => String.eqb (Prediction.id p) prediction_id) rows = None.
Proof.
  induction rows as [|p rows IH]; simpl; [reflexivity|].
  intros Hnot. destruct (String.eqb_spec (Prediction.id p) prediction_id).
  - exfalso. apply Hnot. left. assumption.
  - apply IH. intros Hin. apply Hnot. right. exact Hin.
Qed.

Lemma find_id_present (rows : list Prediction.t) (prediction_id : string) :
  In prediction_id (map Prediction.id rows) ->
  exists p, find (fun p => String.eqb (Prediction.id p) prediction_id) rows
            = Some p.
Proof.
  induction rows as [|p rows IH]; simpl; [contradiction|].
  intros [Hp|Hin].
  - rewrite Hp, String.eqb_refl. eexists; reflexivity.
  - destruct (String.eqb (Prediction.id p) prediction_id);
      [eexists; reflexivity | apply IH, Hin].
Qed.

Lemma filter_other_id_absent (rows : list Prediction.t) (prediction_id : string) :
  ~ In prediction_id (map Prediction.id rows) ->
  filter (other_id prediction_id) rows = rows.
Proof.
  induction rows as [|p rows IH]; simpl; [reflexivity|].
  intros Hnot. unfold other_id at 1.
  destruct (String.eqb_spec (Prediction.id p) prediction_id); simpl.
  - exfalso. apply Hnot. left. assumption.
  - rewrite IH; [reflexivity|]. intros Hin. apply Hnot. right. exact Hin.
Qed.

Lemma delete_row_filter (rows : list Prediction.t) (prediction_id : string) :
  NoDup (map Prediction.id rows) ->
  PredictionCRUD.delete_row rows prediction_id
  = filter (other_id prediction_id) rows.
Proof.
  induction rows as [|p rows IH]; simpl; [reflexivity|].
  intros Hnodup. inversion Hnodup as [|? ? Hnot Hrest]; subst.
  unfold other_id at 1.
  destruct (String.eqb_spec (Prediction.id p) prediction_id); simpl.
  - subst. rewrite filter_other_id_absent by exact Hnot. reflexivity.
  - rewrite IH by exact Hrest. reflexivity.
Qed.

Lemma find_filter_other_id (rows : list Prediction.t) (deleted wanted : string) :
  deleted <> wanted ->
  find (fun p => String.eqb (Prediction.id p) wanted)
       (filter (other_id deleted) rows)
  = find (fun p => String.eqb (Prediction.id p) wanted) rows.
Proof.
  intros Hne. induction rows as [|p rows IH]; simpl; [reflexivity|].
  unfold other_id at 1.
  destruct (String.eqb_spec (Prediction.id p) deleted) as [Hd|Hd]; simpl.
  - destruct (String.eqb_spec (Prediction.id p) wanted); [congruence | exact IH].
  - rewrite IH. reflexivity.
Qed.

Lemma find_filter_same_id (rows : list Prediction.t) (prediction_id : string) :
  find (fun p => String.eqb (Prediction.id p) prediction_id)
       (filter (other_id prediction_id) rows) = None.
Proof.
  induction rows as [|p rows IH]; simpl; [reflexivity|].
  unfold other_id at 1.
  destruct (String.eqb (Prediction.id p) prediction_id) eqn:E; simpl;
    [exact IH | rewrite E; exact IH].
Qed.

Lemma delete_prediction_store (db : DB) (prediction_id : string) :
  NoDup (stored_ids db) ->
  fst (PredictionCRUD.delete_prediction db prediction_id)
  = mkDB (users db) (filter (other_id prediction_id) (predictions db)).
Proof.
  intros Hnodup. unfold PredictionCRUD.delete_prediction.
  destruct (find _ (predictions db)) as [p|] eqn:Efind; cbn [fst].
  - rewrite delete_row_filter by exact Hnodup. reflexivity.
  - rewrite filter_other_id_absent; [destruct db; reflexivity|].
    intros Hin. apply find_id_present in Hin. destruct Hin as [p Hp].
    rewrite Hp in Efind. discriminate.
Qed.

Lemma delete_prediction_answer (db : DB) (prediction_id : string) :
  NoDup (stored_ids db) ->
  snd (Routers.delete_prediction prediction_id db)
  = mkDB (users db) (filter (other_id prediction_id) (predictions db)) /\
  fst (Routers.delete_prediction prediction_id db)
  = (if existsb (String.eqb prediction_id) (stored_ids db)
     then Routers.OK tt else Routers.NotFound).
Proof.
  intros Hnodup.
  pose proof (delete_prediction_store db prediction_id Hnodup) as Hstore.
  unfold Routers.delete_prediction.
  unfold PredictionCRUD.delete_prediction in *.
  destruct (find _ (predictions db)) as [p|] eqn:Efind; cbn [fst snd] in *.
  - split; [exact Hstore|].
    replace (existsb (String.eqb prediction_id) (stored_ids db)) with true;
      [reflexivity|].
    symmetry. apply existsb_exists. exists (Prediction.id p).
    apply find_some in Efind. destruct Efind as [Hin Heq].
    split; [apply in_map, Hin|].
    apply String.eqb_eq in Heq. rewrite Heq. apply String.eqb_refl.
  - split; [exact Hstore|].
    replace (existsb (String.eqb prediction_id) (stored_ids db)) with false;
      [reflexivity|].
    symmetry. apply not_true_is_false. intros Hex.
    apply existsb_exists in Hex. destruct Hex as (i & Hin & Heq).
    apply String.eqb_eq in Heq. subst i.
    apply find_id_present in Hin. destruct Hin as [p Hp].
    unfold stored_ids in *. rewrite Hp in Efind. discriminate.
Qed.

(** X1: with identifiers that are pairwise different, deleting a prediction
    leaves the users alone and keeps exactly the predictions with another
    identifier, in their order; the answer is the 404 exactly when no
    stored prediction has the identifier. *)
Theorem delete_removes_exactly_that_record (db : DB) (prediction_id : string) :
  NoDup (stored_ids db) ->
  snd (Routers.delete_prediction prediction_id db)
  = mkDB (users db) (filter (other_id prediction_id) (predictions db)) /\
  fst (Routers.delete_prediction prediction_id db)
  = (if existsb (String.eqb prediction_id) (stored_ids db)
     then Routers.OK tt else Routers.NotFound).
Proof. exact (delete_prediction_answer db prediction_id). Qed.

(** Alice's store: her record is deleted, and nothing is left. *)
Lemma delete_removes_exactly_that_record_witness :
  NoDup (stored_ids rfdetr_store) /\
  snd (Routers.delete_prediction "p-1" rfdetr_store)
  = mkDB (users rfdetr_store)
         (filter (other_id "p-1") (predictions rfdetr_store)) /\
  fst (Routers.delete_prediction "p-1" rfdetr_store)
  = (if existsb (String.eqb "p-1") (stored_ids rfdetr_store)
     then Routers.OK tt else Routers.NotFound).
Proof.
  assert (H : NoDup (stored_ids rfdetr_store))
    by (repeat constructor; simpl; tauto).
  split; [exact H|].
  apply (delete_removes_exactly_that_record rfdetr_store "p-1" H).
Defined.

(** X2: with identifiers that are pairwise different, a deleted prediction
    is not found afterwards, and the lookup of every other identifier
    answers as before the deletion. *)
Theorem deleted_prediction_is_not_found
    (db : DB) (prediction_id other : string) :
  NoDup (stored_ids db) ->
  other <> prediction_id ->
  Routers.get_prediction_by_id prediction_id
    (snd (Routers.delete_prediction prediction_id db)) = Routers.NotFound /\
  Routers.get_prediction_by_id other
    (snd (Routers.delete_prediction prediction_id db))
  = Routers.get_prediction_by_id other db.
Proof.
  intros Hnodup Hother.
  destruct (delete_prediction_answer db prediction_id Hnodup) as [-> _].
  unfold Routers.get_prediction_by_id, PredictionCRUD.get_prediction_by_id.
  cbn [predictions].
  rewrite find_filter_same_id.
  rewrite find_filter_other_id by congruence.
  split; reflexivity.
Qed.

(** Alice's record is gone after its deletion; an unknown identifier is as
    unknown as before. *)
Lemma deleted_prediction_is_not_found_witness :
  NoDup (stored_ids rfdetr_store) /\
  "p-7" <> "p-1" /\
  Routers.get_prediction_by_id "p-1"
    (snd (Routers.delete_prediction "p-1" rfdetr_store)) = Routers.NotFound /\
  Routers.get_prediction_by_id "p-7"
    (snd (Routers.delete_prediction "p-1" rfdetr_store))
  = Routers.get_prediction_by_id "p-7" rfdetr_store.
Proof.
  assert (H : NoDup (stored_ids rfdetr_store))
    by (repeat constructor; simpl; tauto).
  assert (Hne : "p-7" <> "p-1") by discriminate.
  split; [exact H|]. split; [exact Hne|].
  apply (deleted_prediction_is_not_found rfdetr_store "p-1" "p-7" H Hne).
Defined.

Lemma store_record_appends (db : DB) (p : Prediction.t) :
  store_record db p = (mkDB (users db) (predictions db ++ [p]), p).
Proof. destruct p. reflexivity. Qed.

Lemma find_id_app (rows : list Prediction.t) (p : Prediction.t) (wanted : string) :
  find (fun q => String.eqb (Prediction.id q) wanted) (rows ++ [p])
  = match find (fun q => String.eqb (Prediction.id q) wanted) rows with
    | Some q => Some q
    | None => if String.eqb (Prediction.id p) wanted then Some p else None
    end.
Proof.
  induction rows as [|q rows IH]; simpl; [reflexivity|].
  destruct (String.eqb (Prediction.id q) wanted); [reflexivity | exact IH].
Qed.

(** X3: a prediction created under an identifier that no stored prediction
    has is found under that identifier, and the lookup of every other
    identifier answers as before. *)
Theorem created_prediction_is_found
    (db : DB) (p : Prediction.t) (other : string) :
  ~ In (Prediction.id p) (stored_ids db) ->
  other <> Prediction.id p ->
  Routers.get_prediction_by_id (Prediction.id p) (fst (store_record db p))
  = Routers.OK p /\
  Routers.get_prediction_by_id other (fst (store_record db p))
  = Routers.get_prediction_by_id other db.
Proof.
  intros Hfresh Hother. rewrite store_record_appends. cbn [fst].
  unfold Routers.get_prediction_by_id, PredictionCRUD.get_prediction_by_id.
  cbn [predictions]. rewrite !find_id_app.
  rewrite (find_id_absent _ _ Hfresh), String.eqb_refl.
  split; [reflexivity|].
  destruct (find _ (predictions db)); [reflexivity|].
  destruct (String.eqb_spec (Prediction.id p) other); [congruence | reflexivity].
Qed.

(** A second record in Alice's store. *)
Lemma created_prediction_is_found_witness :
  ~ In (Prediction.id lonely_combined) (stored_ids rfdetr_store) /\
  "p-1" <> Prediction.id lonely_combined /\
  Routers.get_prediction_by_id (Prediction.id lonely_combined)
    (fst (store_record rfdetr_store lonely_combined))
  = Routers.OK lonely_combined /\
  Routers.get_prediction_by_id "p-1"
    (fst (store_record rfdetr_store lonely_combined))
  = Routers.get_prediction_by_id "p-1" rfdetr_store.
Proof.
  assert (Hfresh : ~ In (Prediction.id lonely_combined) (stored_ids rfdetr_store))
    by (simpl; intros [H|[]]; discriminate H).
  assert (Hne : "p-1" <> Prediction.id lonely_combined) by discriminate.
  split; [exact Hfresh|]. split; [exact Hne|].
  apply (created_prediction_is_found rfdetr_store lonely_combined "p-1"
           Hfresh Hne).
Defined.

Lemma delete_row_last (rows : list Prediction.t) (p : Prediction.t) :
  ~ In (Prediction.id p) (map Prediction.id rows) ->
  PredictionCRUD.delete_row (rows ++ [p]) (Prediction.id p) = rows.
Proof.
  induction rows as [|q rows IH]; simpl; intros Hfresh.
  - rewrite String.eqb_refl. reflexivity.
  - destruct (String.eqb_spec (Prediction.id q) (Prediction.id p)) as [E|E].
    + exfalso. apply Hfresh. left. exact E.
    + rewrite IH; [reflexivity|]. intros Hin. apply Hfresh. right. exact Hin.
Qed.

(** X4: deleting a prediction right after creating it under an identifier
    that no stored prediction has gives back the store as it was. *)
Theorem create_then_delete_restores_store (db : DB) (p : Prediction.t) :
  ~ In (Prediction.id p) (stored_ids db) ->
  Routers.delete_prediction (Prediction.id p) (fst (store_record db p))
  = (Routers.OK tt, db).
Proof.
  intros Hfresh. rewrite store_record_appends. cbn [fst].
  unfold Routers.delete_prediction, PredictionCRUD.delete_prediction.
  cbn [predictions users].
  rewrite find_id_app, (find_id_absent _ _ Hfresh), String.eqb_refl.
  rewrite delete_row_last by exact Hfresh.
  destruct db; reflexivity.
Qed.

(** The second record is stored and deleted again. *)
Lemma create_then_delete_restores_store_witness :
  ~ In (Prediction.id lonely_combined) (stored_ids rfdetr_store) /\
  Routers.delete_prediction (Prediction.id lonely_combined)
    (fst (store_record rfdetr_store lonely_combined))
  = (Routers.OK tt, rfdetr_store).
Proof.
  assert (Hfresh : ~ In (Prediction.id lonely_combined) (stored_ids rfdetr_store))
    by (simpl; intros [H|[]]; discriminate H).
  split; [exact Hfresh|].
  apply (create_then_delete_restores_store rfdetr_store lonely_combined Hfresh).
Defined.

Lemma update_row_ids (rows : list Prediction.t) (prediction_id : string)
    (c : option string) :
  map Prediction.id
    (PredictionCRUD.update_row rows prediction_id
       (fun p => Prediction.set_comment p c))
  = map Prediction.id rows.
Proof.
  induction rows as [|p rows IH]; simpl; [reflexivity|].
  destruct (String.eqb (Prediction.id p) prediction_id); simpl;
    [reflexivity | rewrite IH; reflexivity].
Qed.

Lemma NoDup_filter_ids (f : Prediction.t -> bool) (rows : list Prediction.t) :
  NoDup (map Prediction.id rows) -> NoDup (map Prediction.id (filter f rows)).
Proof.
  induction rows as [|p rows IH]; simpl; intros Hnodup; [constructor|].
  inversion Hnodup as [|? ? Hnot Hrest]; subst.
  destruct (f p); simpl; [|apply IH, Hrest].
  constructor; [|apply IH, Hrest].
  intros Hin. apply Hnot. apply in_map_iff in Hin.
  destruct Hin as (q & Hq & Hin). apply filter_In in Hin.
  apply in_map_iff. exists q. tauto.
Qed.

Lemma NoDup_ids_app (rows : list Prediction.t) (p : Prediction.t) :
  NoDup (map Prediction.id rows) ->
  ~ In (Prediction.id p) (map Prediction.id rows) ->
  NoDup (map Prediction.id (rows ++ [p])).
Proof.
  intros Hnodup Hfresh. rewrite map_app. simpl.
  apply NoDup_app; [exact Hnodup | repeat constructor; simpl; tauto |].
  intros i Hi [Hp|[]]. subst i. exact (Hfresh Hi).
Qed.

(** X5: the store keeps its identifiers pairwise different.  From a store
    where they are, they still are after a Predict call that draws an
    unused identifier (whether it stores, finds a duplicate or fails), after
    a comment update and after a deletion. *)
Theorem identifiers_stay_unique
    (rfdetr_model_predict : string -> Detections)
    (yolo_model_predict : string -> Q -> list YoloResult)
    (sha256_hexdigest image_to_base64 : string -> string)
    (new_id : string) (now : Z) (image : string) (req : Request)
    (comment : option string) (current_user : User.t)
    (prediction_id text : string) (db : DB) :
  NoDup (stored_ids db) ->
  ~ In new_id (stored_ids db) ->
  NoDup (stored_ids
           (snd (Predict rfdetr_model_predict yolo_model_predict
                   sha256_hexdigest image_to_base64 new_id now image req
                   comment current_user db))) /\
  NoDup (stored_ids (snd (Routers.update_prediction_comment prediction_id text db))) /\
  NoDup (stored_ids (snd (Routers.delete_prediction prediction_id db))).
Proof.
  intros Hnodup Hfresh. split; [|split].
  - destruct (inference rfdetr_model_predict yolo_model_predict image req)
      as [results|] eqn:Hinf.
    + destruct (Predict_after_inference rfdetr_model_predict yolo_model_predict
                  sha256_hexdigest image_to_base64 new_id now image req comment
                  current_user db results Hinf)
        as (created & _ & Hid & _ & ->).
      destruct (find _ (predictions db)); cbn [snd]; [exact Hnodup|].
      unfold stored_ids. cbn [predictions].
      apply NoDup_ids_app; [exact Hnodup | rewrite Hid; exact Hfresh].
    + rewrite (Predict_inference_fails rfdetr_model_predict yolo_model_predict
                 sha256_hexdigest image_to_base64 new_id now image req comment
                 current_user db Hinf).
      exact Hnodup.
  - unfold Routers.update_prediction_comment,
      PredictionCRUD.update_prediction_comment.
    destruct (String.eqb text ""); [exact Hnodup|].
    destruct (find _ (predictions db)); cbn [snd]; [|exact Hnodup].
    unfold stored_ids. cbn [predictions]. rewrite update_row_ids. exact Hnodup.
  - destruct (delete_prediction_answer db prediction_id Hnodup)
      as [-> _].
    unfold stored_ids. cbn [predictions]. apply NoDup_filter_ids, Hnodup.
Qed.

(** Bob's RF-DETR prediction on another image, a comment and a deletion,
    each on Alice's store. *)
Lemma identifiers_stay_unique_witness :
  NoDup (stored_ids rfdetr_store) /\
  ~ In "p-9" (stored_ids rfdetr_store) /\
  NoDup (stored_ids
           (snd (Predict (fun _ => shelf_output) (fun _ _ => bottles_output)
                   sha256_sample base64_sample "p-9" 900 "other"
                   (RfdetrRequest (1 # 2)) None bob rfdetr_store))) /\
  NoDup (stored_ids (snd (Routers.update_prediction_comment "p-1" "top shelf"
                            rfdetr_store))) /\
  NoDup (stored_ids (snd (Routers.delete_prediction "p-1" rfdetr_store))).
Proof.
  assert (H : NoDup (stored_ids rfdetr_store))
    by (repeat constructor; simpl; tauto).
  assert (Hfresh : ~ In "p-9" (stored_ids rfdetr_store))
    by (simpl; intros [E|[]]; discriminate E).
  split; [exact H|]. split; [exact Hfresh|].
  apply (identifiers_stay_unique
           (fun _ => shelf_output) (fun _ _ => bottles_output)
           sha256_sample base64_sample "p-9" 900 "other"
           (RfdetrRequest (1 # 2)) None bob "p-1" "top shelf" rfdetr_store
           H Hfresh).
Defined.

(** ** Pages of the history *)

Lemma filter_filter {A : Type} (f g : A -> bool) (l : list A) :
  filter g (filter f l) = filter (fun a => f a && g a) l.
Proof.
  induction l as [|a l IH]; simpl; [reflexivity|].
  destruct (f a); simpl; [|exact IH].
  destruct (g a); rewrite IH; reflexivity.
Qed.

Lemma filter_true {A : Type} (l : list A) : filter (fun _ => true) l = l.
Proof. induction l as [|a l IH]; simpl; [|rewrite IH]; reflexivity. Qed.

(** The query that [get_predictions] runs, in one piece. *)
Lemma get_predictions_query (db : DB) (skip limit : nat)
    (user_id model search_text : option string)
    (min_confidence max_confidence : option Q) :
  PredictionCRUD.get_predictions db skip limit user_id model search_text
    min_confidence max_confidence
  = firstn limit
      (skipn skip
         (PredictionCRUD.order_by_created_at_desc
            (filter (selected db user_id model search_text
                       min_confidence max_confidence)
                    (predictions db)))).
Proof.
  unfold PredictionCRUD.get_predictions, selected. cbv zeta. do 3 f_equal.
  destruct user_id as [uid|]; [destruct (Py.truthy (Some uid))|];
    (destruct model as [m|];
     [destruct (Py.truthy (Some m) && negb (String.eqb m "all"))%bool|]);
    (destruct search_text as [text|]; [destruct (Py.truthy (Some text))|]);
    destruct min_confidence as [lo|], max_confidence as [hi|];
    cbv iota beta;
    first [ symmetry; apply filter_true
          | rewrite ?filter_filter; apply filter_ext; intros p;
            rewrite ?andb_true_r, ?andb_true_l, ?andb_assoc; reflexivity ].
Qed.

Lemma insert_desc_sorted (p : Prediction.t) (sorted : list Prediction.t) :
  StronglySorted newer_first sorted ->
  StronglySorted newer_first (PredictionCRUD.insert_desc p sorted).
Proof.
  induction 1 as [|q rest Hrest IH Hq]; simpl.
  - repeat constructor.
  - destruct (Prediction.created_at q <=? Prediction.created_at p)%Z eqn:E.
    + apply Z.leb_le in E. constructor; [constructor; assumption|].
      constructor; [exact E|].
      eapply Forall_impl; [|exact Hq].
      unfold newer_first. intros r Hr. lia.
    + apply Z.leb_gt in E. constructor; [exact IH|].
      apply Forall_forall. intros r Hr.
      apply insert_desc_In in Hr. destruct Hr as [->|Hr].
      * unfold newer_first. lia.
      * rewrite Forall_forall in Hq. apply Hq, Hr.
Qed.

Lemma order_by_sorted (rows : list Prediction.t) :
  StronglySorted newer_first (PredictionCRUD.order_by_created_at_desc rows).
Proof.
  unfold PredictionCRUD.order_by_created_at_desc.
  induction rows as [|p rows IH]; simpl; [constructor|].
  apply insert_desc_sorted, IH.
Qed.

Lemma In_firstn {A : Type} (n : nat) (l : list A) (x : A) :
  In x (firstn n l) -> In x l.
Proof.
  revert l. induction n as [|n IH]; intros [|a l]; simpl; try tauto.
  intros [H|H]; [left; exact H | right; apply IH, H].
Qed.

Lemma In_skipn {A : Type} (n : nat) (l : list A) (x : A) :
  In x (skipn n l) -> In x l.
Proof.
  revert l. induction n as [|n IH]; intros [|a l]; simpl; try tauto.
  intros H. right. apply IH, H.
Qed.

Lemma sorted_firstn {A : Type} (R : A -> A -> Prop) (n : nat) (l : list A) :
  StronglySorted R l -> StronglySorted R (firstn n l).
Proof.
  revert l. induction n as [|n IH]; intros l Hl; [constructor|].
  destruct Hl as [|a l Hl Ha]; simpl; constructor; [apply IH, Hl|].
  apply Forall_forall. intros x Hx. rewrite Forall_forall in Ha.
  apply Ha, (In_firstn n), Hx.
Qed.

Lemma sorted_skipn {A : Type} (R : A -> A -> Prop) (n : nat) (l : list A) :
  StronglySorted R l -> StronglySorted R (skipn n l).
Proof.
  revert l. induction n as [|n IH]; intros l Hl; [exact Hl|].
  destruct Hl as [|a l Hl Ha]; simpl; [constructor | apply IH, Hl].
Qed.

(** X6: whatever the filters, a page has at most [limit] rows, runs from
    the most recent creation time to the oldest, and holds stored
    predictions only. *)
Theorem page_is_bounded_and_newest_first (db : DB) (skip limit : nat)
    (user_id model search_text : option string)
    (min_confidence max_confidence : option Q) :
  (length (PredictionCRUD.get_predictions db skip limit user_id model
             search_text min_confidence max_confidence) <= limit)%nat /\
  StronglySorted newer_first
    (PredictionCRUD.get_predictions db skip limit user_id model search_text
       min_confidence max_confidence) /\
  incl (PredictionCRUD.get_predictions db skip limit user_id model search_text
          min_confidence max_confidence)
       (predictions db).
Proof.
  rewrite get_predictions_query. split; [|split].
  - apply firstn_le_length.
  - apply sorted_firstn, sorted_skipn, order_by_sorted.
  - intros p Hp. apply In_firstn, In_skipn in Hp.
    apply order_by_In, filter_In in Hp. tauto.
Qed.

Lemma firstn_add {A : Type} (a b : nat) (l : list A) :
  firstn (a + b) l = firstn a l ++ firstn b (skipn a l).
Proof.
  revert l. induction a as [|a IH]; intros l; [reflexivity|].
  destruct l as [|x l]; simpl; [destruct b; reflexivity|].
  rewrite IH. reflexivity.
Qed.

Lemma insert_desc_perm (p : Prediction.t) (sorted : list Prediction.t) :
  Permutation (PredictionCRUD.insert_desc p sorted) (p :: sorted).
Proof.
  induction sorted as [|q rest IH]; simpl; [reflexivity|].
  destruct (Prediction.created_at q <=? Prediction.created_at p)%Z;
    [reflexivity|].
  rewrite IH. apply perm_swap.
Qed.

Lemma order_by_perm (rows : list Prediction.t) :
  Permutation (PredictionCRUD.order_by_created_at_desc rows) rows.
Proof.
  unfold PredictionCRUD.order_by_created_at_desc.
  induction rows as [|p rows IH]; simpl; [reflexivity|].
  rewrite insert_desc_perm, IH. reflexivity.
Qed.

Lemma NoDup_times_filter (f : Prediction.t -> bool) (rows : list Prediction.t) :
  NoDup (creation_times rows) -> NoDup (creation_times (filter f rows)).
Proof.
  unfold creation_times.
  induction rows as [|p rows IH]; simpl; intros Hnodup; [constructor|].
  inversion Hnodup as [|? ? Hnot Hrest]; subst.
  destruct (f p); simpl; [|apply IH, Hrest].
  constructor; [|apply IH, Hrest].
  intros Hin. apply Hnot. apply in_map_iff in Hin.
  destruct Hin as (q & Hq & Hin). apply filter_In in Hin.
  apply in_map_iff. exists q. tauto.
Qed.

Lemma same_time_same_row (rows : list Prediction.t) (p q : Prediction.t) :
  NoDup (creation_times rows) ->
  In p rows -> In q rows ->
  Prediction.created_at p = Prediction.created_at q -> p = q.
Proof.
  unfold creation_times.
  induction rows as [|r rows IH]; simpl; intros Hnodup Hp Hq Htime;
    [contradiction|].
  inversion Hnodup as [|? ? Hnot Hrest]; subst.
  destruct Hp as [->|Hp], Hq as [->|Hq].
  - reflexivity.
  - exfalso. apply Hnot. rewrite Htime. apply in_map, Hq.
  - exfalso. apply Hnot. rewrite <- Htime. apply in_map, Hp.
  - apply IH; assumption.
Qed.

(** With pairwise different creation times there is one way to list rows
    from the newest to the oldest. *)
Lemma newest_first_unique (rows answer : list Prediction.t) :
  NoDup (creation_times rows) ->
  Permutation rows answer ->
  StronglySorted newer_first rows ->
  StronglySorted newer_first answer ->
  rows = answer.
Proof.
  revert answer.
  induction rows as [|a rows IH]; intros answer Hnodup Hperm Hrows Hanswer.
  - apply Permutation_nil in Hperm. congruence.
  - destruct answer as [|b answer].
    + apply Permutation_sym, Permutation_nil in Hperm. discriminate.
    + assert (Hab : a = b).
      { assert (Ha : In a (b :: answer))
          by (apply (Permutation_in a Hperm); left; reflexivity).
        assert (Hb : In b (a :: rows))
          by (apply (Permutation_in b (Permutation_sym Hperm));
              left; reflexivity).
        apply (same_time_same_row (a :: rows) a b Hnodup);
          [left; reflexivity | exact Hb |].
        inversion Hrows as [|? ? _ Hfa]; subst.
        inversion Hanswer as [|? ? _ Hfb]; subst.
        rewrite Forall_forall in Hfa, Hfb.
        destruct Ha as [->|Ha]; [reflexivity|].
        destruct Hb as [->|Hb]; [reflexivity|].
        pose proof (Hfa b Hb) as H1. pose proof (Hfb a Ha) as H2.
        unfold newer_first in H1, H2. lia. }
      subst b. f_equal. apply IH.
      * unfold creation_times in *. inversion Hnodup; assumption.
      * apply (Permutation_cons_inv Hperm).
      * inversion Hrows; assumption.
      * inversion Hanswer; assumption.
Qed.

(** X7: consecutive pages fit together.  When the creation times of the
    stored predictions are pairwise different, the order of the selected
    rows from the newest to the oldest is fixed: whatever [answer] the
    database gives to the query without offset and limit, the pages are
    its slices, and the page of [limit] rows from offset [skip], followed
    by the page of [more] rows from offset [skip + limit], is the page of
    [limit + more] rows from offset [skip]: between two consecutive pages
    no row is lost or repeated. *)
Theorem consecutive_pages_concatenate (db : DB) (skip limit more : nat)
    (user_id model search_text : option string)
    (min_confidence max_confidence : option Q)
    (answer : list Prediction.t) :
  NoDup (creation_times (predictions db)) ->
  Permutation answer
    (filter (selected db user_id model search_text min_confidence
               max_confidence)
            (predictions db)) ->
  StronglySorted newer_first answer ->
  PredictionCRUD.get_predictions db skip limit user_id model search_text
    min_confidence max_confidence
  = firstn limit (skipn skip answer) /\
  PredictionCRUD.get_predictions db (skip + limit) more user_id model
    search_text min_confidence max_confidence
  = firstn more (skipn (skip + limit) answer) /\
  PredictionCRUD.get_predictions db skip limit user_id model search_text
    min_confidence max_confidence
  ++ PredictionCRUD.get_predictions db (skip + limit) more user_id model
       search_text min_confidence max_confidence
  = PredictionCRUD.get_predictions db skip (limit + more) user_id model
      search_text min_confidence max_confidence.
Proof.
  intros Hnodup Hperm Hsorted.
  rewrite !get_predictions_query.
  set (rows := filter (selected db user_id model search_text min_confidence
                         max_confidence) (predictions db)) in *.
  assert (Hsame : PredictionCRUD.order_by_created_at_desc rows = answer).
  { apply newest_first_unique.
    - unfold creation_times.
      apply (Permutation_NoDup
               (Permutation_map Prediction.created_at
                  (Permutation_sym (order_by_perm rows)))).
      apply NoDup_times_filter, Hnodup.
    - rewrite order_by_perm. apply Permutation_sym, Hperm.
    - apply order_by_sorted.
    - exact Hsorted. }
  rewrite Hsame. split; [reflexivity|]. split; [reflexivity|].
  rewrite firstn_add, skipn_skipn, (Nat.add_comm limit skip). reflexivity.
Qed.

(** The two records of the sample tables, one row to a page. *)
Lemma consecutive_pages_concatenate_witness :
  NoDup (creation_times (predictions (database sample_site))) /\
  Permutation [bob_record; rfdetr_record]
    (filter (selected (database sample_site) None None None None None)
            (predictions (database sample_site))) /\
  StronglySorted newer_first [bob_record; rfdetr_record] /\
  PredictionCRUD.get_predictions (database sample_site) 0 1 None None None
    None None
  = firstn 1 (skipn 0 [bob_record; rfdetr_record]) /\
  PredictionCRUD.get_predictions (database sample_site) (0 + 1) 1 None None
    None None None
  = firstn 1 (skipn (0 + 1) [bob_record; rfdetr_record]) /\
  PredictionCRUD.get_predictions (database sample_site) 0 1 None None None
    None None
  ++ PredictionCRUD.get_predictions (database sample_site) (0 + 1) 1 None
       None None None None
  = PredictionCRUD.get_predictions (database sample_site) 0 (1 + 1) None
      None None None None.
Proof.
  assert (Hnodup : NoDup (creation_times (predictions (database sample_site)))).
  { vm_compute. repeat constructor; simpl; intuition discriminate. }
  assert (Hperm : Permutation [bob_record; rfdetr_record]
                    (filter (selected (database sample_site) None None None
                               None None)
                            (predictions (database sample_site))))
    by apply perm_swap.
  assert (Hsorted : StronglySorted newer_first [bob_record; rfdetr_record]).
  { repeat constructor. unfold newer_first. simpl. lia. }
  split; [exact Hnodup|]. split; [exact Hperm|]. split; [exact Hsorted|].
  apply (consecutive_pages_concatenate (database sample_site) 0 1 1
           None None None None None [bob_record; rfdetr_record]
           Hnodup Hperm Hsorted).
Defined.

(** X8: every row of a page meets each filter that was given: it belongs to
    the requested user, has the requested model (unless that is "all"), and
    its confidence is set and within the bounds given. *)
Theorem page_rows_meet_the_filters (db : DB) (skip limit : nat)
    (user_id model search_text : option string)
    (min_confidence max_confidence : option Q) (p : Prediction.t) :
  In p (PredictionCRUD.get_predictions db skip limit user_id model search_text
          min_confidence max_confidence) ->
  (Py.truthy user_id = true -> Prediction.user_id p = user_id) /\
  (Py.truthy model = true -> model <> Some "all" ->
   Some (Prediction.model p) = model) /\
  (forall lo, min_confidence = Some lo ->
     exists c, Prediction.confidence p = Some c /\ lo <= c) /\
  (forall hi, max_confidence = Some hi ->
     exists c, Prediction.confidence p = Some c /\ c <= hi).
Proof.
  rewrite get_predictions_query. intros Hp.
  apply In_firstn, In_skipn in Hp. apply order_by_In, filter_In in Hp.
  destruct Hp as [_ Hsel]. unfold selected in Hsel.
  apply andb_prop in Hsel. destruct Hsel as [Hsel Hconf].
  apply andb_prop in Hsel. destruct Hsel as [Hsel _].
  apply andb_prop in Hsel. destruct Hsel as [Huser Hmodel].
  split; [|split; [|split]].
  - intros Htruthy. destruct user_id as [uid|]; [|discriminate].
    rewrite Htruthy in Huser. unfold SQL.eq_str in Huser.
    destruct (Prediction.user_id p) as [u|]; [|discriminate].
    simpl in Huser. destruct (String.eqb_spec u uid); [congruence|discriminate].
  - intros Htruthy Hall. destruct model as [m|]; [|discriminate].
    rewrite Htruthy in Hmodel.
    destruct (String.eqb_spec m "all") as [->|_]; [congruence|].
    simpl in Hmodel. apply String.eqb_eq in Hmodel. congruence.
  - intros lo ->. unfold PredictionCRUD.confidence_filter, SQL.and_all in Hconf.
    destruct (Prediction.confidence p) as [c|];
      [|destruct max_confidence; discriminate].
    exists c. split; [reflexivity|]. apply Qle_bool_iff.
    destruct max_confidence; simpl in Hconf;
      destruct (Qle_bool lo c); try reflexivity;
      simpl in Hconf; try discriminate;
      destruct (Qle_bool c q); discriminate.
  - intros hi ->. unfold PredictionCRUD.confidence_filter, SQL.and_all in Hconf.
    destruct (Prediction.confidence p) as [c|];
      [|destruct min_confidence; discriminate].
    exists c. split; [reflexivity|]. apply Qle_bool_iff.
    destruct min_confidence; simpl in Hconf;
      destruct (Qle_bool c hi); try reflexivity;
      simpl in Hconf; try discriminate;
      destruct (Qle_bool q c); discriminate.
Qed.

(** Alice's record is on the page of her RF-DETR predictions with a
    confidence between 0.5 and 1. *)
Lemma page_rows_meet_the_filters_witness :
  In rfdetr_record
     (PredictionCRUD.get_predictions rfdetr_store 0 10 (Some "u-alice")
        (Some "rfdetr") None (Some (1 # 2)) (Some 1)) /\
  (Py.truthy (Some "u-alice") = true ->
   Prediction.user_id rfdetr_record = Some "u-alice") /\
  (Py.truthy (Some "rfdetr") = true -> Some "rfdetr" <> Some "all" ->
   Some (Prediction.model rfdetr_record) = Some "rfdetr") /\
  (forall lo, Some (1 # 2) = Some lo ->
     exists c, Prediction.confidence rfdetr_record = Some c /\ lo <= c) /\
  (forall hi, Some 1 = Some hi ->
     exists c, Prediction.confidence rfdetr_record = Some c /\ c <= hi).
Proof.
  assert (Hin : In rfdetr_record
                  (PredictionCRUD.get_predictions rfdetr_store 0 10
                     (Some "u-alice") (Some "rfdetr") None
                     (Some (1 # 2)) (Some 1)))
    by (vm_compute; left; reflexivity).
  split; [exact Hin|].
  apply (page_rows_meet_the_filters rfdetr_store 0 10 (Some "u-alice")
           (Some "rfdetr") None (Some (1 # 2)) (Some 1) rfdetr_record Hin).
Defined.

(** X9: a filter that is absent, an empty string, or the model "all"
    restricts nothing.  With no such restriction and no confidence bound, a
    page from offset 0 that is large enough holds every stored prediction
    exactly once. *)
Theorem absent_filters_restrict_nothing (db : DB) (limit : nat)
    (user_id model search_text : option string) :
  Py.truthy user_id = false ->
  Py.truthy model = false \/ model = Some "all" ->
  Py.truthy search_text = false ->
  (length (predictions db) <= limit)%nat ->
  Permutation
    (PredictionCRUD.get_predictions db 0 limit user_id model search_text
       None None)
    (predictions db).
Proof.
  intros Huser Hmodel Hsearch Hlimit. rewrite get_predictions_query.
  assert (Hall : forall p, selected db user_id model search_text None None p
                           = true).
  { intros p. unfold selected. rewrite Huser, Hsearch.
    destruct Hmodel as [Hm|Hm]; [rewrite Hm | subst model];
      destruct user_id, search_text; try destruct model; reflexivity. }
  rewrite (filter_ext _ (fun _ => true) Hall), filter_true.
  cbn [skipn]. rewrite firstn_all2 by (rewrite order_by_length; exact Hlimit).
  apply order_by_perm.
Qed.

(** The whole of the combined store, asked for with empty strings and the
    model "all". *)
Lemma absent_filters_restrict_nothing_witness :
  Py.truthy (Some "") = false /\
  (Py.truthy (Some "all") = false \/ Some "all" = Some "all") /\
  Py.truthy None = false /\
  (length (predictions combined_store) <= 100)%nat /\
  Permutation
    (PredictionCRUD.get_predictions combined_store 0 100 (Some "")
       (Some "all") None None None)
    (predictions combined_store).
Proof.
  assert (Hlen : (length (predictions combined_store) <= 100)%nat)
    by (vm_compute; lia).
  split; [reflexivity|]. split; [right; reflexivity|].
  split; [reflexivity|]. split; [exact Hlen|].
  apply (absent_filters_restrict_nothing combined_store 100 (Some "")
           (Some "all") None eq_refl (or_intror eq_refl) eq_refl Hlen).
Defined.

(** ** Searching *)

(** One step of LIKE, by the first character of the pattern when that is
    not the escape character. *)
Lemma like_cons (c : ascii) (pattern text : list ascii) :
  c <> "\"%char ->
  SQL.like (c :: pattern) text
  = if Ascii.eqb c "%" then
      (SQL.like pattern text
       || match text with
          | [] => false
          | _ :: text' => SQL.like (c :: pattern) text'
          end)%bool
    else if Ascii.eqb c "_" then
      match text with [] => false | _ :: text' => SQL.like pattern text' end
    else
      match text with
      | [] => false
      | d :: text' => (Ascii.eqb c d && SQL.like pattern text')%bool
      end.
Proof.
  intros Hc.
  destruct c as [[] [] [] [] [] [] [] []]; destruct text;
    first [reflexivity | exfalso; apply Hc; reflexivity].
Qed.

Lemma like_percent_here (pattern text : list ascii) :
  SQL.like pattern text = true -> SQL.like ("%"%char :: pattern) text = true.
Proof.
  intros H. rewrite like_cons by discriminate.
  cbn [Ascii.eqb Bool.eqb]. rewrite H. reflexivity.
Qed.

Lemma like_percent_skip (pattern before text : list ascii) :
  SQL.like ("%"%char :: pattern) text = true ->
  SQL.like ("%"%char :: pattern) (before ++ text) = true.
Proof.
  intros H. induction before as [|c before IH]; [exact H|].
  rewrite like_cons by discriminate.
  cbn [Ascii.eqb Bool.eqb app]. rewrite IH.
  apply orb_true_r.
Qed.

Lemma like_percent_end (text : list ascii) :
  SQL.like ["%"%char] text = true.
Proof.
  induction text as [|c text IH]; [reflexivity|].
  rewrite like_cons by discriminate.
  cbn [Ascii.eqb Bool.eqb]. rewrite IH. apply orb_true_r.
Qed.

(** A pattern without the escape character matches itself as a prefix,
    wildcards included. *)
Lemma like_prefix (prefix pattern text : list ascii) :
  ~ In "\"%char prefix ->
  SQL.like pattern text = true ->
  SQL.like (prefix ++ pattern) (prefix ++ text) = true.
Proof.
  intros Hplain H. induction prefix as [|c prefix IH]; [exact H|].
  assert (Hc : c <> "\"%char) by (intros ->; apply Hplain; left; reflexivity).
  assert (IH' : SQL.like (prefix ++ pattern) (prefix ++ text) = true)
    by (apply IH; intros Hin; apply Hplain; right; exact Hin).
  cbn [app]. rewrite like_cons by exact Hc.
  destruct (Ascii.eqb c "%") eqn:Epercent.
  - apply Ascii.eqb_eq in Epercent. subst c.
    rewrite (like_percent_here _ _ IH'). apply orb_true_r.
  - destruct (Ascii.eqb c "_"); [exact IH'|].
    rewrite Ascii.eqb_refl, IH'. reflexivity.
Qed.

Lemma list_ascii_of_string_app (a b : string) :
  list_ascii_of_string (a ++ b)
  = list_ascii_of_string a ++ list_ascii_of_string b.
Proof.
  induction a as [|c a IH]; simpl; [reflexivity|]. rewrite IH. reflexivity.
Qed.

(** Lower-casing brings in no escape character. *)
Lemma lower_backslash (c : ascii) : SQL.lower c = "\"%char -> c = "\"%char.
Proof.
  destruct c as [[] [] [] [] [] [] [] []]; vm_compute; intros H;
    first [reflexivity | discriminate H].
Qed.

Lemma lower_plain (text : list ascii) :
  ~ In "\"%char text -> ~ In "\"%char (map SQL.lower text).
Proof.
  intros Hplain Hin. apply in_map_iff in Hin.
  destruct Hin as (c & Hc & Hin). apply lower_backslash in Hc.
  subst c. exact (Hplain Hin).
Qed.

Lemma ilike_contains (text : string) (column : option string) :
  plain_text text ->
  contains_ci text column ->
  SQL.ilike column ("%" ++ text ++ "%")%string = Some true.
Proof.
  intros Hplain (value & before & after & -> & Hvalue).
  unfold SQL.ilike. cbn [option_map]. f_equal.
  rewrite !list_ascii_of_string_app. cbn [list_ascii_of_string app].
  rewrite map_cons, map_app, Hvalue.
  change (SQL.lower "%") with "%"%char. cbn [map].
  apply like_percent_skip, like_percent_here, like_prefix;
    [apply lower_plain, Hplain | apply like_percent_end].
Qed.

(** A search text with a backslash is read as a pattern with an escape:
    the search for [C:\temp] looks for [C:temp], and misses the record
    whose comment is the search text itself. *)
Lemma search_text_with_backslash_misses :
  SQL.ilike (Some "C:\temp") ("%" ++ "C:\temp" ++ "%")%string = Some false /\
  SQL.ilike (Some "C:temp") ("%" ++ "C:\temp" ++ "%")%string = Some true.
Proof. split; reflexivity. Qed.

(** X10: the search finds what contains the text.  A stored prediction whose
    comment, owner's name or identifier contains the search text, ASCII
    case ignored, is on the page (no other filter, offset 0, a page that is
    large enough), provided the text is not empty and has no backslash,
    which LIKE would read as an escape. *)
Theorem search_finds_containing_rows (db : DB) (limit : nat) (text : string)
    (p : Prediction.t) :
  In p (predictions db) ->
  text <> "" ->
  plain_text text ->
  contains_ci text (Prediction.comment p)
  \/ contains_ci text (PredictionCRUD.joined_username db p)
  \/ contains_ci text (Some (Prediction.id p)) ->
  (length (predictions db) <= limit)%nat ->
  In p (PredictionCRUD.get_predictions db 0 limit None None (Some text)
          None None).
Proof.
  intros Hin Htext Hplain Hcontains Hlimit. rewrite get_predictions_query.
  cbn [skipn]. rewrite firstn_all2.
  - apply order_by_In, filter_In. split; [exact Hin|].
    unfold selected. cbn [andb].
    replace (Py.truthy (Some text)) with true
      by (destruct text; [congruence | reflexivity]).
    rewrite andb_true_r. cbv zeta.
    destruct Hcontains as [H|[H|H]];
      apply (ilike_contains text _ Hplain) in H; rewrite H.
    + reflexivity.
    + destruct (SQL.ilike (Prediction.comment p) _) as [[]|]; reflexivity.
    + destruct (SQL.ilike (Prediction.comment p) _) as [[]|];
        destruct (SQL.ilike (PredictionCRUD.joined_username db p) _) as [[]|];
        reflexivity.
  - rewrite order_by_length.
    eapply Nat.le_trans; [apply filter_length_le | exact Hlimit].
Qed.

(** The search for "ALI" finds Alice's record by her name. *)
Lemma search_finds_containing_rows_witness :
  In rfdetr_record (predictions rfdetr_store) /\
  "ALI" <> "" /\
  plain_text "ALI" /\
  contains_ci "ALI" (PredictionCRUD.joined_username rfdetr_store rfdetr_record) /\
  (length (predictions rfdetr_store) <= 10)%nat /\
  In rfdetr_record
     (PredictionCRUD.get_predictions rfdetr_store 0 10 None None (Some "ALI")
        None None).
Proof.
  assert (Hin : In rfdetr_record (predictions rfdetr_store))
    by (left; reflexivity).
  assert (Htext : "ALI" <> "") by discriminate.
  assert (Hplain : plain_text "ALI")
    by (unfold plain_text; simpl; intros [H|[H|[H|[]]]]; discriminate H).
  assert (Hname : contains_ci "ALI"
                    (PredictionCRUD.joined_username rfdetr_store rfdetr_record))
    by (exists "alice", [], (list_ascii_of_string "ce"); split; reflexivity).
  assert (Hlen : (length (predictions rfdetr_store) <= 10)%nat)
    by (vm_compute; lia).
  split; [exact Hin|]. split; [exact Htext|]. split; [exact Hplain|].
  split; [exact Hname|]. split; [exact Hlen|].
  apply (search_finds_containing_rows rfdetr_store 10 "ALI" rfdetr_record
           Hin Htext Hplain (or_intror (or_introl Hname)) Hlen).
Defined.

(** ** Statistics *)

Lemma count_by_model_app (rows : list Prediction.t) (p : Prediction.t)
    (model : string) :
  length (filter (fun q => String.eqb (Prediction.model q) model) (rows ++ [p]))
  = (length (filter (fun q => String.eqb (Prediction.model q) model) rows)
     + (if String.eqb (Prediction.model p) model then 1 else 0))%nat.
Proof.
  rewrite filter_app, length_app. simpl.
  destruct (String.eqb (Prediction.model p) model); reflexivity.
Qed.

(** X11: the counts by model never exceed the total.  The total is the sum
    of the three counts and of the number of stored predictions whose model
    is none of "rfdetr", "yolo" and "both"; the message about an empty
    history is set exactly when nothing is stored. *)
Theorem statistics_add_up (db : DB) :
  Routers.stat_total (Routers.get_statistics db)
  = (Routers.stat_rfdetr (Routers.get_statistics db)
     + Routers.stat_yolo (Routers.get_statistics db)
     + Routers.stat_both (Routers.get_statistics db)
     + length (filter (fun p =>
                         negb (String.eqb (Prediction.model p) "rfdetr")
                         && negb (String.eqb (Prediction.model p) "yolo")
                         && negb (String.eqb (Prediction.model p) "both"))
                      (predictions db)))%nat /\
  (Routers.stat_message (Routers.get_statistics db) = None
   <-> predictions db <> []).
Proof.
  unfold Routers.get_statistics, PredictionCRUD.get_predictions_count,
    PredictionCRUD.get_predictions_by_model.
  cbn [Routers.stat_total Routers.stat_rfdetr Routers.stat_yolo
       Routers.stat_both Routers.stat_message].
  split.
  - induction (predictions db) as [|p rows IH]; [reflexivity|].
    cbn [filter length].
    destruct (String.eqb_spec (Prediction.model p) "rfdetr") as [E|_];
      [rewrite E; cbn; lia|].
    destruct (String.eqb_spec (Prediction.model p) "yolo") as [E|_];
      [rewrite E; cbn; lia|].
    destruct (String.eqb_spec (Prediction.model p) "both") as [E|_];
      cbn; lia.
  - destruct (predictions db); cbn; split; congruence.
Qed.

Section StatisticsAfterPredict.

Variable rfdetr_model_predict : string -> Detections.
Variable yolo_model_predict : string -> Q -> list YoloResult.
Variable sha256_hexdigest : string -> string.
Variable image_to_base64 : string -> string.

Lemma request_key_model (image : string) (req : Request) (p : Prediction.t) :
  request_key sha256_hexdigest image req p ->
  Prediction.model p = model_of req.
Proof. destruct req; intros (_ & H & _); exact H. Qed.

End StatisticsAfterPredict.

(** X12: how Predict moves the statistics.  Once the detector(s) have run, a
    call that finds a duplicate leaves every count as it was, and a call
    that stores its result raises the total and the count of its own model
    by one and no other count. *)
Theorem predict_moves_statistics
    (rfdetr_model_predict : string -> Detections)
    (yolo_model_predict : string -> Q -> list YoloResult)
    (sha256_hexdigest image_to_base64 : string -> string)
    (new_id : string) (now : Z) (image : string) (req : Request)
    (comment : option string) (current_user : User.t) (db : DB)
    (results : ResultsJSON) :
  inference rfdetr_model_predict yolo_model_predict image req = Some results ->
  Routers.get_statistics
    (snd (Predict rfdetr_model_predict yolo_model_predict sha256_hexdigest
            image_to_base64 new_id now image req comment current_user db))
  = match fst (Predict rfdetr_model_predict yolo_model_predict
                 sha256_hexdigest image_to_base64 new_id now image req
                 comment current_user db) with
    | Routers.DuplicateFound _ => Routers.get_statistics db
    | _ => one_more (model_of req) (Routers.get_statistics db)
    end.
Proof.
  intros Hinf.
  destruct (Predict_after_inference rfdetr_model_predict yolo_model_predict
              sha256_hexdigest image_to_base64 new_id now image req comment
              current_user db results Hinf)
    as (created & Hkey & _ & _ & ->).
  destruct (find _ (predictions db)); cbn [fst snd]; [reflexivity|].
  apply request_key_model in Hkey.
  unfold Routers.get_statistics, one_more,
    PredictionCRUD.get_predictions_count,
    PredictionCRUD.get_predictions_by_model.
  cbn [predictions Routers.stat_total Routers.stat_rfdetr Routers.stat_yolo
       Routers.stat_both].
  rewrite !count_by_model_app, length_app, Hkey. cbn [length].
  rewrite Nat.add_1_r. reflexivity.
Qed.

(** Bob's prediction on a new image in Alice's store. *)
Lemma predict_moves_statistics_witness :
  inference (fun _ => shelf_output) (fun _ _ => bottles_output) "other"
    (YoloRequest (1 # 2)) = Some (Single bottles_result) /\
  Routers.get_statistics
    (snd (Predict (fun _ => shelf_output) (fun _ _ => bottles_output)
            sha256_sample base64_sample "p-9" 900 "other"
            (YoloRequest (1 # 2)) None bob rfdetr_store))
  = one_more "yolo" (Routers.get_statistics rfdetr_store).
Proof.
  split; [reflexivity|].
  apply (predict_moves_statistics
           (fun _ => shelf_output) (fun _ _ => bottles_output)
           sha256_sample base64_sample "p-9" 900 "other"
           (YoloRequest (1 # 2)) None bob rfdetr_store (Single bottles_result)).
  reflexivity.
Defined.

(** ** Checking for a duplicate *)

Lemma first_of_filter {A : Type} (f : A -> bool) (l : list A) :
  match filter f l with x :: _ => Some x | [] => None end = find f l.
Proof.
  induction l as [|a l IH]; simpl; [reflexivity|].
  destruct (f a); [reflexivity | exact IH].
Qed.

Lemma first_found {A B : Type} (f g : A -> bool) (l : list A)
    (some : A -> B) (none : B) :
  (forall a, f a = g a) ->
  match filter f l with [] => none | x :: _ => some x end
  = match find g l with Some x => some x | None => none end.
Proof.
  intros Hfg. rewrite (filter_ext f g Hfg), <- first_of_filter.
  destruct (filter g l); reflexivity.
Qed.

Lemma where_and_andb (a b : SQL.tv) :
  SQL.where_ (SQL.and_ a b) = (SQL.where_ a && SQL.where_ b)%bool.
Proof. destruct a as [[]|], b as [[]|]; reflexivity. Qed.

(** The query of [check_duplicate], asked with the model and threshold(s)
    of a request, is the duplicate query of the prediction endpoint. *)
Lemma check_duplicate_find (sha256_hexdigest : string -> string)
    (image : string) (req : Request) (db : DB) :
  Routers.check_duplicate (sha256_hexdigest image) (model_of req)
    (rfdetr_threshold_of req) (yolo_threshold_of req) db
  = match find (duplicate_condition sha256_hexdigest image req)
               (predictions db) with
    | Some d => Routers.IsDuplicate (Prediction.id d)
    | None => Routers.NotDuplicate
    end.
Proof.
  unfold Routers.check_duplicate. cbv zeta.
  destruct req as [t|t|tr ty];
    cbn [model_of rfdetr_threshold_of yolo_threshold_of duplicate_condition
         String.eqb Ascii.eqb Bool.eqb andb Routers.eq_float_or_null];
    rewrite ?filter_filter; apply first_found; intros p;
    unfold Routers.is_duplicate_of;
    rewrite ?where_and_andb, ?andb_assoc; reflexivity.
Qed.

(** X13: the duplicate check and the prediction endpoint agree.  Asked with
    the hash of an image and the model and threshold(s) of a request,
    [check_duplicate] names a record exactly when Predict, once the
    detector(s) have run, answers with that record as a duplicate and
    stores nothing; it reports no duplicate exactly when Predict stores a
    new record. *)
Theorem check_duplicate_foretells_predict
    (rfdetr_model_predict : string -> Detections)
    (yolo_model_predict : string -> Q -> list YoloResult)
    (sha256_hexdigest image_to_base64 : string -> string)
    (new_id : string) (now : Z) (image : string) (req : Request)
    (comment : option string) (current_user : User.t) (db : DB)
    (results : ResultsJSON) :
  inference rfdetr_model_predict yolo_model_predict image req = Some results ->
  match Routers.check_duplicate (sha256_hexdigest image) (model_of req)
          (rfdetr_threshold_of req) (yolo_threshold_of req) db with
  | Routers.IsDuplicate d =>
      Predict rfdetr_model_predict yolo_model_predict sha256_hexdigest
        image_to_base64 new_id now image req comment current_user db
      = (Routers.DuplicateFound d, db)
  | Routers.NotDuplicate =>
      exists created,
        Predict rfdetr_model_predict yolo_model_predict sha256_hexdigest
          image_to_base64 new_id now image req comment current_user db
        = (Routers.Predicted results new_id (image_to_base64 image),
           mkDB (users db) (predictions db ++ [created]))
  end.
Proof.
  intros Hinf. rewrite check_duplicate_find.
  destruct (Predict_after_inference rfdetr_model_predict yolo_model_predict
              sha256_hexdigest image_to_base64 new_id now image req comment
              current_user db results Hinf)
    as (created & _ & _ & _ & ->).
  destruct (find _ (predictions db)); [reflexivity|].
  exists created. reflexivity.
Qed.

(** The check on Alice's store names her record, and Bob's prediction on
    the same image is answered with it. *)
Lemma check_duplicate_foretells_predict_witness :
  inference (fun _ => shelf_output) (fun _ _ => bottles_output) "img"
    (RfdetrRequest (1 # 2)) = Some (Single shelf_result) /\
  Routers.check_duplicate (sha256_sample "img") "rfdetr" (Some (1 # 2)) None
    rfdetr_store = Routers.IsDuplicate "p-1" /\
  Predict (fun _ => shelf_output) (fun _ _ => bottles_output)
    sha256_sample base64_sample "p-9" 900 "img" (RfdetrRequest (1 # 2))
    None bob rfdetr_store
  = (Routers.DuplicateFound "p-1", rfdetr_store).
Proof.
  split; [reflexivity|]. split; [reflexivity|].
  apply (check_duplicate_foretells_predict
           (fun _ => shelf_output) (fun _ _ => bottles_output)
           sha256_sample base64_sample "p-9" 900 "img"
           (RfdetrRequest (1 # 2)) None bob rfdetr_store
           (Single shelf_result)).
  reflexivity.
Defined.

Lemma find_app_last {A : Type} (f : A -> bool) (l : list A) (x : A) :
  find f l = None -> f x = true -> find f (l ++ [x]) = Some x.
Proof.
  induction l as [|a l IH]; simpl; intros Hnone Hx.
  - rewrite Hx. reflexivity.
  - destruct (f a); [discriminate | apply IH; assumption].
Qed.

(** X14: Predict is idempotent on the store.  Once the detector(s) have run,
    repeating a request on the store the first call left (with any new
    identifier, comment and caller) is answered as a duplicate and changes
    nothing; the duplicate named is the one the first call named, or the
    record the first call stored. *)
Theorem predict_twice_stores_once
    (rfdetr_model_predict : string -> Detections)
    (yolo_model_predict : string -> Q -> list YoloResult)
    (sha256_hexdigest image_to_base64 : string -> string)
    (id1 id2 : string) (now1 now2 : Z) (image : string) (req : Request)
    (comment1 comment2 : option string) (user1 user2 : User.t) (db : DB)
    (results : ResultsJSON) :
  inference rfdetr_model_predict yolo_model_predict image req = Some results ->
  Predict rfdetr_model_predict yolo_model_predict sha256_hexdigest
    image_to_base64 id2 now2 image req comment2 user2
    (snd (Predict rfdetr_model_predict yolo_model_predict sha256_hexdigest
            image_to_base64 id1 now1 image req comment1 user1 db))
  = (Routers.DuplicateFound
       (match fst (Predict rfdetr_model_predict yolo_model_predict
                     sha256_hexdigest image_to_base64 id1 now1 image req
                     comment1 user1 db) with
        | Routers.DuplicateFound d => d
        | _ => id1
        end),
     snd (Predict rfdetr_model_predict yolo_model_predict sha256_hexdigest
            image_to_base64 id1 now1 image req comment1 user1 db)).
Proof.
  intros Hinf.
  destruct (Predict_after_inference rfdetr_model_predict yolo_model_predict
              sha256_hexdigest image_to_base64 id1 now1 image req comment1
              user1 db results Hinf)
    as (created & Hkey & Hid & _ & ->).
  destruct (find (duplicate_condition sha256_hexdigest image req)
                 (predictions db)) as [d|] eqn:Efind; cbn [fst snd].
  - destruct (Predict_after_inference rfdetr_model_predict yolo_model_predict
                sha256_hexdigest image_to_base64 id2 now2 image req comment2
                user2 db results Hinf)
      as (created2 & _ & _ & _ & ->).
    rewrite Efind. reflexivity.
  - destruct (Predict_after_inference rfdetr_model_predict yolo_model_predict
                sha256_hexdigest image_to_base64 id2 now2 image req comment2
                user2 (mkDB (users db) (predictions db ++ [created]))
                results Hinf)
      as (created2 & _ & _ & _ & ->).
    cbn [predictions].
    rewrite (find_app_last _ _ created Efind)
      by (apply duplicate_condition_key; exact Hkey).
    rewrite Hid. reflexivity.
Qed.

(** Alice's combined prediction, repeated by Bob. *)
Lemma predict_twice_stores_once_witness :
  inference (fun _ => shelf_output) (fun _ _ => bottles_output) "img"
    (BothRequest (1 # 2) (1 # 2))
  = Some (Combined shelf_result bottles_result) /\
  Predict (fun _ => shelf_output) (fun _ _ => bottles_output)
    sha256_sample base64_sample "p-9" 900 "img" (BothRequest (1 # 2) (1 # 2))
    (Some "again") bob combined_store
  = (Routers.DuplicateFound "p-1", combined_store).
Proof.
  split; [reflexivity|].
  apply (predict_twice_stores_once
           (fun _ => shelf_output) (fun _ _ => bottles_output)
           sha256_sample base64_sample "p-1" "p-9" 100 900 "img"
           (BothRequest (1 # 2) (1 # 2)) None (Some "again") alice bob
           (mkDB [alice; bob] []) (Combined shelf_result bottles_result)).
  reflexivity.
Defined.

(** * Further properties of the ML service *)

Lemma detections_from_rows (xs : list Box) :
  forall (cs : list Q) (ks : list Z) (px : list Box) (pc : list Q) (pk : list Z),
    length px = length pc ->
    (length pk <= length px)%nat ->
    (ks <> [] -> length pk = length px) ->
    flat_map (MLService.detection_at (px ++ xs) (pc ++ cs) (pk ++ ks))
             (seq (length px) (length xs))
    = zip_detections xs cs ks.
Proof.
  induction xs as [|x xs IH]; intros cs ks px pc pk Hpc Hle Hpk; [reflexivity|].
  destruct cs as [|c cs].
  - apply flat_map_all_nil. intros i Hi. apply in_seq in Hi.
    apply detection_at_beyond. rewrite app_nil_r. lia.
  - cbn [length seq flat_map zip_detections].
    unfold MLService.detection_at at 1.
    rewrite (nth_error_app2 px) by lia.
    rewrite (nth_error_app2 pc) by lia.
    replace (length px - length pc)%nat with 0%nat by lia.
    rewrite Nat.sub_diag. cbn [nth_error app]. f_equal.
    + f_equal. destruct ks as [|k ks].
      * rewrite app_nil_r.
        replace (nth_error pk (length px)) with (@None Z)
          by (symmetry; apply nth_error_None; exact Hle).
        reflexivity.
      * rewrite nth_error_app2 by (rewrite Hpk by discriminate; lia).
        rewrite Hpk by discriminate. rewrite Nat.sub_diag. reflexivity.
    + replace (px ++ x :: xs) with ((px ++ [x]) ++ xs)
        by (rewrite <- app_assoc; reflexivity).
      replace (pc ++ c :: cs) with ((pc ++ [c]) ++ cs)
        by (rewrite <- app_assoc; reflexivity).
      replace (S (length px)) with (length (px ++ [x]))
        by (rewrite length_app; simpl; lia).
      destruct ks as [|k ks].
      * cbn [tl]. apply IH.
        -- rewrite !length_app. simpl. lia.
        -- rewrite length_app. simpl. lia.
        -- congruence.
      * cbn [tl].
        replace (pk ++ k :: ks) with ((pk ++ [k]) ++ ks)
          by (rewrite <- app_assoc; reflexivity).
        apply IH.
        -- rewrite !length_app. simpl. lia.
        -- rewrite !length_app, (Hpk ltac:(discriminate)). simpl. lia.
        -- intros _. rewrite !length_app, (Hpk ltac:(discriminate)). reflexivity.
Qed.

Lemma detections_list_zip (xs : list Box) (cs : list Q) (ks : list Z) :
  MLService.detections_list xs cs ks = zip_detections xs cs ks.
Proof.
  apply (detections_from_rows xs cs ks [] [] []); simpl;
    [reflexivity | lia | reflexivity].
Qed.

(** Selecting rows by a mask computed from the confidences commutes with
    putting the rows side by side. *)
Lemma zip_detections_select (f : Q -> bool) (xs : list Box) :
  forall (cs : list Q) (ks : list Z),
    length xs = length cs ->
    ks = [] \/ length ks = length cs ->
    zip_detections (Py.select xs (map f cs)) (Py.select cs (map f cs))
      (Py.select ks (map f cs))
    = filter (fun d => f (d_confidence d)) (zip_detections xs cs ks).
Proof.
  induction xs as [|x xs IH]; intros [|c cs] ks Hlen Hks; simpl in *;
    try discriminate; try reflexivity.
  injection Hlen as Hlen.
  destruct ks as [|k ks].
  - destruct (f c); simpl;
      rewrite <- (IH cs [] Hlen (or_introl eq_refl)); reflexivity.
  - destruct Hks as [Hks|Hks]; [discriminate|]. simpl in Hks.
    injection Hks as Hks.
    destruct (f c); simpl; rewrite <- (IH cs ks Hlen (or_intror Hks));
      reflexivity.
Qed.

Lemma zip_detections_nil_r (xs : list Box) (ks : list Z) :
  zip_detections xs [] ks = [].
Proof. destruct xs; reflexivity. Qed.

Lemma predict_rfdetr_rows
    (rfdetr_model_predict : string -> Detections) (image : string) (floor : Q) :
  detections_valid (rfdetr_model_predict image) = true ->
  exists res,
    MLService.predict_rfdetr rfdetr_model_predict image floor = Some res /\
    r_detections res
    = filter (reaches floor) (raw_detections (rfdetr_model_predict image)) /\
    r_model res = "rfdetr".
Proof.
  intros Hvalid. unfold MLService.predict_rfdetr.
  destruct (rfdetr_model_predict image) as [xy cf ks sm tr].
  unfold detections_valid in Hvalid.
  cbn [xyxy confidence class_id seg_mask tracker_id] in Hvalid.
  destruct xy as [rows|]; [|discriminate].
  apply andb_prop in Hvalid. destruct Hvalid as [Hvalid Htr].
  apply andb_prop in Hvalid. destruct Hvalid as [Hvalid Hsm].
  apply andb_prop in Hvalid. destruct Hvalid as [Hcf Hks].
  unfold MLService.filter_detections, raw_detections, raw_boxes,
    raw_confidences, raw_class_ids.
  cbn [xyxy confidence class_id seg_mask tracker_id].
  destruct cf as [[|c conf]|]; cbn [length Nat.ltb Nat.leb].
  - eexists. split; [reflexivity|]. split; [|reflexivity].
    cbn [r_detections MLService.f_xyxy MLService.f_confidence
         MLService.f_class_id Py.tolist_if_present length Nat.ltb Nat.leb].
    rewrite detections_list_zip, !zip_detections_nil_r. reflexivity.
  - cbn [rows_agree] in Hcf. apply Nat.eqb_eq in Hcf.
    rewrite (index_if_present_agree _ (c :: conf) (Some rows))
      by (cbn [rows_agree]; rewrite Hcf; apply Nat.eqb_refl).
    rewrite (index_if_present_agree _ (c :: conf) (Some (c :: conf)))
      by apply Nat.eqb_refl.
    rewrite (index_if_present_agree _ (c :: conf) ks)
      by (rewrite Hcf; exact Hks).
    rewrite (index_if_present_agree _ (c :: conf) sm)
      by (rewrite Hcf; exact Hsm).
    rewrite (index_if_present_agree _ (c :: conf) tr)
      by (rewrite Hcf; exact Htr).
    eexists. split; [reflexivity|]. split; [|reflexivity].
    cbn [r_detections MLService.f_xyxy MLService.f_confidence
         MLService.f_class_id].
    rewrite detections_list_zip. rewrite <- Hcf.
    cbn [length Nat.ltb Nat.leb].
    destruct ks as [ks|].
    + cbn [rows_agree] in Hks. apply Nat.eqb_eq in Hks.
      destruct ks as [|k ks].
      * cbn [length Nat.ltb Nat.leb].
        apply (zip_detections_select (Py.ge_float32 floor) rows (c :: conf) []);
          [congruence | left; reflexivity].
      * cbn [length Nat.ltb Nat.leb].
        apply (zip_detections_select (Py.ge_float32 floor) rows (c :: conf)
                 (k :: ks)); [congruence | right; congruence].
    + apply (zip_detections_select (Py.ge_float32 floor) rows (c :: conf) []);
        [congruence | left; reflexivity].
  - eexists. split; [reflexivity|]. split; [|reflexivity].
    cbn [r_detections MLService.f_xyxy MLService.f_confidence
         MLService.f_class_id Py.tolist_if_present].
    rewrite detections_list_zip, !zip_detections_nil_r. reflexivity.
Qed.

(** X15: on an output that satisfies the invariant of
    [supervision.Detections], the RF-DETR conversion returns, in emission
    order, exactly the rows whose confidence reaches the floor as numpy
    compares the two, in float32: the rows with a confidence of at least
    the floor rounded to float32.  Each comes with its own box, confidence
    and class id (0 when the output carries no class ids) and the class
    name "item"; the result is tagged "rfdetr". *)
Theorem rfdetr_result_is_the_filtered_rows
    (rfdetr_model_predict : string -> Detections) (image : string) (floor : Q) :
  detections_valid (rfdetr_model_predict image) = true ->
  exists res,
    MLService.predict_rfdetr rfdetr_model_predict image floor = Some res /\
    r_detections res
    = filter (reaches floor) (raw_detections (rfdetr_model_predict image)) /\
    r_model res = "rfdetr".
Proof. exact (predict_rfdetr_rows rfdetr_model_predict image floor). Qed.

(** The shelf of four rows under a floor of 0.5. *)
Lemma rfdetr_result_is_the_filtered_rows_witness :
  detections_valid shelf_output = true /\
  exists res,
    MLService.predict_rfdetr (fun _ => shelf_output) "img" (1 # 2) = Some res /\
    r_detections res = filter (reaches (1 # 2)) (raw_detections shelf_output) /\
    r_model res = "rfdetr".
Proof.
  split; [reflexivity|].
  apply (rfdetr_result_is_the_filtered_rows (fun _ => shelf_output) "img"
           (1 # 2)).
  reflexivity.
Defined.

(** X16: raising the floor only removes detections.  On well-formed output
    and for two floors [lo <= hi], the RF-DETR result under [hi] consists
    of the detections of the result under [lo] whose confidence reaches
    [hi], in the same order; the comparisons are those of numpy, in
    float32, and rounding the floors keeps their order. *)
Theorem raising_the_floor_only_removes
    (rfdetr_model_predict : string -> Detections) (image : string) (lo hi : Q) :
  detections_valid (rfdetr_model_predict image) = true ->
  lo <= hi ->
  exists low high,
    MLService.predict_rfdetr rfdetr_model_predict image lo = Some low /\
    MLService.predict_rfdetr rfdetr_model_predict image hi = Some high /\
    r_detections high = filter (reaches hi) (r_detections low).
Proof.
  intros Hvalid Hle.
  destruct (predict_rfdetr_rows rfdetr_model_predict image lo Hvalid)
    as (low & Hlow & Hrows_low & _).
  destruct (predict_rfdetr_rows rfdetr_model_predict image hi Hvalid)
    as (high & Hhigh & Hrows_high & _).
  exists low, high. split; [exact Hlow|]. split; [exact Hhigh|].
  rewrite Hrows_high, Hrows_low, filter_filter.
  apply filter_ext. intros d. unfold reaches, Py.ge_float32.
  destruct (Qle_bool (Float.binary32 hi) (d_confidence d)) eqn:E;
    [|symmetry; apply andb_false_r].
  rewrite andb_true_r. symmetry. apply Qle_bool_iff.
  apply Qle_bool_iff in E.
  apply Qle_trans with (Float.binary32 hi); [|exact E].
  apply round_le; [lia | exact Hle].
Qed.

(** The shelf under the floors 0.5 and 0.7. *)
Lemma raising_the_floor_only_removes_witness :
  detections_valid shelf_output = true /\
  1 # 2 <= 7 # 10 /\
  exists low high,
    MLService.predict_rfdetr (fun _ => shelf_output) "img" (1 # 2) = Some low /\
    MLService.predict_rfdetr (fun _ => shelf_output) "img" (7 # 10) = Some high /\
    r_detections high = filter (reaches (7 # 10)) (r_detections low).
Proof.
  assert (Hle : 1 # 2 <= 7 # 10) by (unfold Qle; simpl; lia).
  split; [reflexivity|]. split; [exact Hle|].
  apply (raising_the_floor_only_removes (fun _ => shelf_output) "img"
           (1 # 2) (7 # 10) eq_refl Hle).
Defined.

(** X17: an output without confidences yields nothing.  When the RF-DETR
    output has no confidence array, or an empty one, the conversion returns
    the empty result with confidence 0, whatever boxes the output holds. *)
Theorem rfdetr_without_confidences_returns_nothing
    (rfdetr_model_predict : string -> Detections) (image : string) (floor : Q) :
  raw_confidences (rfdetr_model_predict image) = [] ->
  MLService.predict_rfdetr rfdetr_model_predict image floor
  = Some (mkResult [] 0 "rfdetr").
Proof.
  unfold MLService.predict_rfdetr, MLService.filter_detections, raw_confidences.
  destruct (rfdetr_model_predict image) as [xy cf ks sm tr].
  cbn [xyxy confidence class_id seg_mask tracker_id].
  destruct cf as [[|c conf]|]; intros H; try discriminate;
    cbn [length Nat.ltb Nat.leb Py.tolist_if_present MLService.f_xyxy
         MLService.f_confidence MLService.f_class_id];
    rewrite detections_list_zip, zip_detections_nil_r; reflexivity.
Qed.

(** Two boxes and no confidence array. *)
Lemma rfdetr_without_confidences_returns_nothing_witness :
  raw_confidences
    (mkDetections (Some [box 0 0 10 10; box 20 0 30 10]) None None None None)
  = [] /\
  MLService.predict_rfdetr
    (fun _ => mkDetections (Some [box 0 0 10 10; box 20 0 30 10])
                           None None None None)
    "img" (1 # 2)
  = Some (mkResult [] 0 "rfdetr").
Proof.
  split; [reflexivity|].
  apply (rfdetr_without_confidences_returns_nothing
           (fun _ => mkDetections (Some [box 0 0 10 10; box 20 0 30 10])
                                  None None None None)
           "img" (1 # 2)).
  reflexivity.
Defined.

Lemma convert_boxes_cover (names : list (Z * string)) (rows : list BoxRow) :
  forall ds,
    MLService.convert_boxes names rows = Some ds ->
    forallb (fun row =>
               match names_get names (Py.int (b_cls row)) with
               | Some _ => true
               | None => false
               end) rows = true /\
    Forall (fun d => names_get names (d_class_id d) = Some (d_class_name d)) ds.
Proof.
  induction rows as [|row rows IH]; intros ds; simpl.
  - intros [= <-]. split; [reflexivity | constructor].
  - destruct (names_get names (Py.int (b_cls row))) as [name|] eqn:Ename;
      [|discriminate].
    destruct (MLService.convert_boxes names rows) as [ds'|]; [|discriminate].
    intros [= <-]. destruct (IH ds' eq_refl) as [Hrows Hds].
    split; [exact Hrows|]. constructor; [exact Ename | exact Hds].
Qed.

Lemma convert_results_cover (results : list YoloResult) :
  forall ds,
    MLService.convert_results results = Some ds ->
    names_cover results = true /\
    Forall (fun d =>
              exists result,
                In result results /\
                names_get (names result) (d_class_id d) = Some (d_class_name d))
           ds.
Proof.
  induction results as [|result results IH]; intros ds; simpl.
  - intros [= <-]. split; [reflexivity | constructor].
  - unfold rows_of at 1.
    assert (Hrest : forall ds',
               MLService.convert_results results = Some ds' ->
               names_cover results = true /\
               Forall (fun d =>
                         exists r,
                           (result = r \/ In r results) /\
                           names_get (names r) (d_class_id d)
                           = Some (d_class_name d)) ds').
    { intros ds' Hds'. destruct (IH ds' Hds') as [Hc Hf]. split; [exact Hc|].
      eapply Forall_impl; [|exact Hf].
      intros d (r & Hr & Hd). exists r. auto. }
    destruct (boxes result) as [[|row rows]|]; cbn [length Nat.ltb Nat.leb].
    + destruct (MLService.convert_results results) as [ds'|]; [|discriminate].
      intros [= <-]. destruct (Hrest ds' eq_refl) as [Hc Hf].
      split; [exact Hc | exact Hf].
    + destruct (MLService.convert_boxes (names result) (row :: rows))
        as [here|] eqn:Ehere; [|discriminate].
      destruct (MLService.convert_results results) as [ds'|]; [|discriminate].
      intros [= <-]. destruct (Hrest ds' eq_refl) as [Hc Hf].
      destruct (convert_boxes_cover _ _ _ Ehere) as [Hrows Hhere].
      split; [rewrite Hrows; exact Hc|].
      apply Forall_app. split; [|exact Hf].
      eapply Forall_impl; [|exact Hhere].
      intros d Hd. exists result. auto.
    + destruct (MLService.convert_results results) as [ds'|]; [|discriminate].
      intros [= <-]. destruct (Hrest ds' eq_refl) as [Hc Hf].
      split; [exact Hc | exact Hf].
Qed.

(** X18: the YOLO conversion raises exactly when a name is missing: it
    returns no result if and only if the backend returned a row whose class
    id (the class value truncated to an integer) is not a key of the
    [names] of its result. *)
Theorem yolo_raises_iff_name_missing
    (yolo_model_predict : string -> Q -> list YoloResult)
    (image : string) (floor : Q) :
  MLService.predict_yolo yolo_model_predict image floor = None
  <-> names_cover (yolo_model_predict image floor) = false.
Proof.
  unfold MLService.predict_yolo. split.
  - destruct (names_cover (yolo_model_predict image floor)) eqn:Hcover;
      [|reflexivity].
    destruct (convert_results_total _ Hcover) as [ds ->]. discriminate.
  - intros Hcover.
    destruct (MLService.convert_results (yolo_model_predict image floor))
      as [ds|] eqn:Eds; [|reflexivity].
    destruct (convert_results_cover _ _ Eds) as [Hc _]. congruence.
Qed.

(** X19: the labels of a YOLO result come from [names]: the class name of
    every detection is the entry that the [names] of one of the backend's
    results holds for the class id of the detection. *)
Theorem yolo_labels_come_from_names
    (yolo_model_predict : string -> Q -> list YoloResult)
    (image : string) (floor : Q) (res : Result) :
  MLService.predict_yolo yolo_model_predict image floor = Some res ->
  Forall (fun d =>
            exists result,
              In result (yolo_model_predict image floor) /\
              names_get (names result) (d_class_id d) = Some (d_class_name d))
         (r_detections res).
Proof.
  unfold MLService.predict_yolo.
  destruct (MLService.convert_results (yolo_model_predict image floor))
    as [ds|] eqn:Eds; [|discriminate].
  intros [= <-]. cbn [r_detections].
  apply (convert_results_cover _ _ Eds).
Qed.

(** The bottle and the can. *)
Lemma yolo_labels_come_from_names_witness :
  MLService.predict_yolo (fun _ _ => bottles_output) "img" (1 # 2)
  = Some bottles_result /\
  Forall (fun d =>
            exists result,
              In result bottles_output /\
              names_get (names result) (d_class_id d) = Some (d_class_name d))
         (r_detections bottles_result).
Proof.
  split; [reflexivity|].
  apply (yolo_labels_come_from_names (fun _ _ => bottles_output) "img"
           (1 # 2) bottles_result).
  reflexivity.
Defined.

(** * Further properties of accounts and authentication *)

(** ** The three dependencies *)

(** X20: the three authentication dependencies agree.  [get_optional_user]
    returns a user exactly when [get_current_user] answers with that user,
    and [get_superuser] answers with a user exactly when [get_current_user]
    does and the user is a superuser; it raises 403 for an authenticated
    user who is not, and the status of [get_current_user] otherwise. *)
Theorem dependencies_agree (credentials : option string) (site : Site) :
  Middleware.get_optional_user credentials site
  = match Middleware.get_current_user credentials site with
    | Answer user => Some user
    | HTTPException _ => None
    end /\
  Middleware.get_superuser credentials site
  = match Middleware.get_current_user credentials site with
    | Answer user =>
        if UserRow.is_superuser user then Answer user else HTTPException 403
    | HTTPException code => HTTPException code
    end.
Proof.
  unfold Middleware.get_optional_user, Middleware.get_superuser,
    Middleware.get_current_user.
  destruct credentials as [token|]; [|split; reflexivity].
  destruct (UserCRUD.get_user_by_id site token) as [user|];
    [|split; reflexivity].
  destruct (UserRow.is_active user), (UserRow.is_superuser user);
    split; reflexivity.
Qed.

Lemma find_user_absent (rows : list UserRow.t) (user_id : string) :
  ~ In user_id (map UserRow.id rows) ->
  find (fun u => String.eqb (UserRow.id u) user_id) rows = None.
Proof.
  induction rows as [|u rows IH]; simpl; [reflexivity|].
  intros Hnot. destruct (String.eqb_spec (UserRow.id u) user_id).
  - exfalso. apply Hnot. left. assumption.
  - apply IH. intros Hin. apply Hnot. right. exact Hin.
Qed.

Lemma find_user_unique (rows : list UserRow.t) (u : UserRow.t) :
  NoDup (map UserRow.id rows) ->
  In u rows ->
  find (fun v => String.eqb (UserRow.id v) (UserRow.id u)) rows = Some u.
Proof.
  induction rows as [|v rows IH]; simpl; [contradiction|].
  intros Hnodup Hin. inversion Hnodup as [|? ? Hnot Hrest]; subst.
  destruct Hin as [->|Hin]; [rewrite String.eqb_refl; reflexivity|].
  destruct (String.eqb_spec (UserRow.id v) (UserRow.id u)) as [E|_].
  - exfalso. apply Hnot. rewrite E. apply in_map, Hin.
  - apply IH; assumption.
Qed.

Lemma current_user_found (credentials : option string) (site : Site)
    (user : UserRow.t) :
  Middleware.get_current_user credentials site = Answer user ->
  credentials = Some (UserRow.id user) /\
  UserCRUD.get_user_by_id site (UserRow.id user) = Some user /\
  UserRow.is_active user = true.
Proof.
  unfold Middleware.get_current_user.
  destruct credentials as [token|]; [|discriminate].
  destruct (UserCRUD.get_user_by_id site token) as [u|] eqn:Efind;
    [|discriminate].
  destruct (UserRow.is_active u) eqn:Eactive; [|discriminate].
  intros [= <-].
  unfold UserCRUD.get_user_by_id in *.
  pose proof (find_some _ _ Efind) as [_ Hid].
  apply String.eqb_eq in Hid. subst token. auto.
Qed.

(** X21: the bearer token is the id of the caller.  With pairwise different
    user ids, [get_current_user] answers with a user exactly when the token
    is the id of that stored user and the user is active. *)
Theorem token_is_the_user_id (credentials : option string) (site : Site)
    (user : UserRow.t) :
  NoDup (user_ids site) ->
  Middleware.get_current_user credentials site = Answer user
  <-> credentials = Some (UserRow.id user) /\
      In user (user_rows site) /\
      UserRow.is_active user = true.
Proof.
  intros Hnodup. split.
  - intros H. destruct (current_user_found _ _ _ H) as (Hc & Hfind & Hactive).
    split; [exact Hc|]. split; [|exact Hactive].
    apply (find_some _ _ Hfind).
  - intros (-> & Hin & Hactive). unfold Middleware.get_current_user,
      UserCRUD.get_user_by_id.
    rewrite (find_user_unique _ _ Hnodup Hin), Hactive. reflexivity.
Qed.

(** Bob's id authenticates Bob. *)
Lemma token_is_the_user_id_witness :
  NoDup (user_ids sample_site) /\
  (Middleware.get_current_user (Some "u-bob") sample_site = Answer bob_row
   <-> Some "u-bob" = Some (UserRow.id bob_row) /\
       In bob_row (user_rows sample_site) /\
       UserRow.is_active bob_row = true).
Proof.
  assert (H : NoDup (user_ids sample_site)).
  { repeat constructor; simpl; intuition discriminate. }
  split; [exact H|].
  apply (token_is_the_user_id (Some "u-bob") sample_site bob_row H).
Defined.

(** ** Registration and login *)

Lemma username_free (rows : list UserRow.t) (username : string) :
  UserCRUD.username_taken rows username = false ->
  find (fun u => String.eqb (UserRow.username u) username) rows = None.
Proof.
  unfold UserCRUD.username_taken.
  induction rows as [|u rows IH]; simpl; [reflexivity|].
  destruct (String.eqb (UserRow.username u) username); [discriminate|].
  exact IH.
Qed.

Lemma find_username_last (rows : list UserRow.t) (u : UserRow.t) :
  UserCRUD.username_taken rows (UserRow.username u) = false ->
  find (fun v => String.eqb (UserRow.username v) (UserRow.username u))
       (rows ++ [u]) = Some u.
Proof.
  unfold UserCRUD.username_taken.
  induction rows as [|v rows IH]; simpl.
  - rewrite String.eqb_refl. reflexivity.
  - destruct (String.eqb (UserRow.username v) (UserRow.username u));
      [discriminate | exact IH].
Qed.

(** X22: who registers can log in.  When the username and the email are
    not taken and bcrypt verifies the password against the hash it made of
    it, registration answers with the new id, and a login with the same
    username and password on the resulting tables answers with that id. *)
Theorem registered_user_can_log_in
    (hashpw : string -> string -> string) (checkpw : string -> string -> bool)
    (new_id : string) (now : Z) (salt : string)
    (username password : string) (email : option string) (site : Site) :
  checkpw password (hashpw password salt) = true ->
  UserCRUD.username_taken (user_rows site) username = false ->
  UserCRUD.email_taken (user_rows site) email = false ->
  fst (Routers.register_user hashpw new_id now salt
         (Routers.mkUserRegister username password email) site)
  = Answer (Routers.mkAuthResponse new_id username email
              "User registered successfully") /\
  Routers.login_user checkpw (Routers.mkUserLogin username password)
    (snd (Routers.register_user hashpw new_id now salt
            (Routers.mkUserRegister username password email) site))
  = Answer (Routers.mkAuthResponse new_id username email "Login successful").
Proof.
  intros Hbcrypt Hname Hemail.
  unfold Routers.register_user, UserCRUD.get_user_by_username,
    UserCRUD.create_user, UserCRUD.hash_password.
  cbn [Routers.reg_username Routers.reg_password Routers.reg_email option_map].
  rewrite (username_free _ _ Hname), Hname, Hemail. cbn [orb fst snd].
  split; [reflexivity|].
  unfold Routers.login_user, UserCRUD.authenticate_user,
    UserCRUD.verify_password.
  cbn [Routers.login_username Routers.login_password user_rows].
  set (user := UserRow.mk (User.mk new_id username) (hashpw password salt)
                          email now true false).
  change username with (UserRow.username user) at 1.
  rewrite (find_username_last (user_rows site) user Hname).
  cbn [UserRow.password_hash user]. rewrite Hbcrypt. reflexivity.
Qed.

(** Dave registers on the sample tables and logs in. *)
Lemma registered_user_can_log_in_witness :
  checkpw_sample "dig" (hashpw_sample "dig" "s") = true /\
  UserCRUD.username_taken (user_rows sample_site) "dave" = false /\
  UserCRUD.email_taken (user_rows sample_site) (Some "dave@example.org")
  = false /\
  fst (Routers.register_user hashpw_sample "u-dave" 40 "s"
         (Routers.mkUserRegister "dave" "dig" (Some "dave@example.org"))
         sample_site)
  = Answer (Routers.mkAuthResponse "u-dave" "dave" (Some "dave@example.org")
              "User registered successfully") /\
  Routers.login_user checkpw_sample (Routers.mkUserLogin "dave" "dig")
    (snd (Routers.register_user hashpw_sample "u-dave" 40 "s"
            (Routers.mkUserRegister "dave" "dig" (Some "dave@example.org"))
            sample_site))
  = Answer (Routers.mkAuthResponse "u-dave" "dave" (Some "dave@example.org")
              "Login successful").
Proof.
  split; [reflexivity|]. split; [reflexivity|]. split; [reflexivity|].
  apply (registered_user_can_log_in hashpw_sample checkpw_sample "u-dave" 40
           "s" "dave" "dig" (Some "dave@example.org") sample_site);
    reflexivity.
Defined.

(** X23: no login without a password that verifies.  When [login_user]
    answers, the id, the username and the email it returns are those of a
    stored, active user with the given username whose stored hash bcrypt
    verifies against the given password. *)
Theorem login_needs_a_verifying_password
    (checkpw : string -> string -> bool)
    (username password : string) (site : Site)
    (response : Routers.AuthResponse) :
  Routers.login_user checkpw (Routers.mkUserLogin username password) site
  = Answer response ->
  exists user,
    In user (user_rows site) /\
    UserRow.username user = username /\
    checkpw password (UserRow.password_hash user) = true /\
    UserRow.is_active user = true /\
    response = Routers.mkAuthResponse (UserRow.id user) (UserRow.username user)
                 (UserRow.email user) "Login successful".
Proof.
  unfold Routers.login_user, UserCRUD.authenticate_user,
    UserCRUD.verify_password.
  cbn [Routers.login_username Routers.login_password].
  destruct (find _ (user_rows site)) as [user|] eqn:Efind; [|discriminate].
  destruct (checkpw password (UserRow.password_hash user)) eqn:Echeck;
    [|discriminate].
  destruct (UserRow.is_active user) eqn:Eactive; [|discriminate].
  cbn [negb]. intros [= <-]. exists user.
  apply find_some in Efind. destruct Efind as [Hin Hname].
  apply String.eqb_eq in Hname. auto.
Qed.

(** Bob logs in with his password. *)
Lemma login_needs_a_verifying_password_witness :
  Routers.login_user checkpw_sample (Routers.mkUserLogin "bob" "builder")
    sample_site
  = Answer (Routers.mkAuthResponse "u-bob" "bob" None "Login successful") /\
  exists user,
    In user (user_rows sample_site) /\
    UserRow.username user = "bob" /\
    checkpw_sample "builder" (UserRow.password_hash user) = true /\
    UserRow.is_active user = true /\
    Routers.mkAuthResponse "u-bob" "bob" None "Login successful"
    = Routers.mkAuthResponse (UserRow.id user) (UserRow.username user)
        (UserRow.email user) "Login successful".
Proof.
  split; [reflexivity|].
  apply (login_needs_a_verifying_password checkpw_sample "bob" "builder"
           sample_site
           (Routers.mkAuthResponse "u-bob" "bob" None "Login successful")).
  reflexivity.
Defined.



(** ** Rows changed and removed by id *)

Lemma first_user_splits (rows : list UserRow.t) (user_id : string)
    (user : UserRow.t) (f : UserRow.t -> UserRow.t) :
  find (fun u => String.eqb (UserRow.id u) user_id) rows = Some user ->
  exists before after,
    rows = before ++ user :: after /\
    UserCRUD.update_first rows user_id f = before ++ f user :: after /\
    UserCRUD.delete_first rows user_id = before ++ after.
Proof.
  induction rows as [|u rows IH]; simpl; [discriminate|].
  destruct (String.eqb (UserRow.id u) user_id).
  - intros [= ->]. exists [], rows. auto.
  - intros Hfind. destruct (IH Hfind) as (before & after & -> & Hu & Hd).
    exists (u :: before), after. simpl. rewrite Hu, Hd. auto.
Qed.

Lemma update_first_map {A : Type} (g : UserRow.t -> A)
    (f : UserRow.t -> UserRow.t) (rows : list UserRow.t) (user_id : string) :
  (forall u, g (f u) = g u) ->
  map g (UserCRUD.update_first rows user_id f) = map g rows.
Proof.
  intros Hg. induction rows as [|u rows IH]; simpl; [reflexivity|].
  destruct (String.eqb (UserRow.id u) user_id); simpl;
    [rewrite Hg | rewrite IH]; reflexivity.
Qed.

Lemma find_update_first_other (rows : list UserRow.t) (changed wanted : string)
    (f : UserRow.t -> UserRow.t) :
  (forall u, UserRow.id (f u) = UserRow.id u) ->
  changed <> wanted ->
  find (fun u => String.eqb (UserRow.id u) wanted)
       (UserCRUD.update_first rows changed f)
  = find (fun u => String.eqb (UserRow.id u) wanted) rows.
Proof.
  intros Hid Hne. induction rows as [|u rows IH]; simpl; [reflexivity|].
  destruct (String.eqb_spec (UserRow.id u) changed) as [E|E]; simpl.
  - rewrite Hid.
    destruct (String.eqb_spec (UserRow.id u) wanted); [congruence|reflexivity].
  - rewrite IH. reflexivity.
Qed.

Lemma find_update_first_same (rows : list UserRow.t) (user_id : string)
    (f : UserRow.t -> UserRow.t) :
  (forall u, UserRow.id (f u) = UserRow.id u) ->
  find (fun u => String.eqb (UserRow.id u) user_id)
       (UserCRUD.update_first rows user_id f)
  = option_map f (find (fun u => String.eqb (UserRow.id u) user_id) rows).
Proof.
  intros Hid. induction rows as [|u rows IH]; simpl; [reflexivity|].
  destruct (String.eqb (UserRow.id u) user_id) eqn:E; simpl.
  - rewrite Hid, E. reflexivity.
  - rewrite E. exact IH.
Qed.

Lemma find_delete_first_other (rows : list UserRow.t) (deleted wanted : string) :
  deleted <> wanted ->
  find (fun u => String.eqb (UserRow.id u) wanted)
       (UserCRUD.delete_first rows deleted)
  = find (fun u => String.eqb (UserRow.id u) wanted) rows.
Proof.
  intros Hne. induction rows as [|u rows IH]; simpl; [reflexivity|].
  destruct (String.eqb_spec (UserRow.id u) deleted) as [E|E]; simpl.
  - destruct (String.eqb_spec (UserRow.id u) wanted); [congruence|reflexivity].
  - rewrite IH. reflexivity.
Qed.

Lemma found_user_id (rows : list UserRow.t) (user_id : string)
    (user : UserRow.t) :
  find (fun u => String.eqb (UserRow.id u) user_id) rows = Some user ->
  UserRow.id user = user_id.
Proof.
  intros H. apply find_some in H. destruct H as [_ H].
  apply String.eqb_eq, H.
Qed.

Lemma filter_other_user_absent (rows : list UserRow.t) (user_id : string) :
  ~ In user_id (map UserRow.id rows) ->
  filter (other_user user_id) rows = rows.
Proof.
  induction rows as [|u rows IH]; simpl; [reflexivity|].
  intros Hnot. unfold other_user at 1.
  destruct (String.eqb_spec (UserRow.id u) user_id); simpl.
  - exfalso. apply Hnot. left. assumption.
  - rewrite IH; [reflexivity|]. intros Hin. apply Hnot. right. exact Hin.
Qed.

Lemma delete_first_filter (rows : list UserRow.t) (user_id : string) :
  NoDup (map UserRow.id rows) ->
  UserCRUD.delete_first rows user_id = filter (other_user user_id) rows.
Proof.
  induction rows as [|u rows IH]; simpl; [reflexivity|].
  intros Hnodup. inversion Hnodup as [|? ? Hnot Hrest]; subst.
  unfold other_user at 1.
  destruct (String.eqb_spec (UserRow.id u) user_id); simpl.
  - subst. rewrite filter_other_user_absent by exact Hnot. reflexivity.
  - rewrite IH by exact Hrest. reflexivity.
Qed.

Lemma set_superuser_id (flag : bool) (u : UserRow.t) :
  UserRow.id (UserCRUD.set_superuser flag u) = UserRow.id u.
Proof. reflexivity. Qed.

Lemma set_columns_id (username email : option string) (is_active : option bool)
    (u : UserRow.t) :
  UserRow.id (Routers.set_columns username email is_active u) = UserRow.id u.
Proof. reflexivity. Qed.

(** ** What an endpoint does to its own caller *)

Lemma make_superuser_rows (site : Site) (user_id : string) :
  fst (UserCRUD.make_superuser site user_id)
  = mkSite (UserCRUD.update_first (user_rows site) user_id
              (UserCRUD.set_superuser true))
           (prediction_rows site).
Proof.
  unfold UserCRUD.make_superuser, UserCRUD.get_user_by_id.
  destruct (find _ (user_rows site)) as [u|] eqn:E; [reflexivity|].
  cbn [fst]. destruct site as [rows preds]. cbn [user_rows prediction_rows] in *.
  f_equal. induction rows as [|v rows IH]; [reflexivity|].
  simpl in *. destruct (String.eqb (UserRow.id v) user_id); [discriminate|].
  rewrite <- IH by exact E. reflexivity.
Qed.

Lemma remove_superuser_rows (site : Site) (user_id : string) :
  fst (UserCRUD.remove_superuser site user_id)
  = mkSite (UserCRUD.update_first (user_rows site) user_id
              (UserCRUD.set_superuser false))
           (prediction_rows site).
Proof.
  unfold UserCRUD.remove_superuser, UserCRUD.get_user_by_id.
  destruct (find _ (user_rows site)) as [u|] eqn:E; [reflexivity|].
  cbn [fst]. destruct site as [rows preds]. cbn [user_rows prediction_rows] in *.
  f_equal. induction rows as [|v rows IH]; [reflexivity|].
  simpl in *. destruct (String.eqb (UserRow.id v) user_id); [discriminate|].
  rewrite <- IH by exact E. reflexivity.
Qed.

Lemma superuser_lookup (credentials : option string) (site site' : Site) :
  (forall token, credentials = Some token ->
     UserCRUD.get_user_by_id site' token = UserCRUD.get_user_by_id site token) ->
  Middleware.get_current_user credentials site'
  = Middleware.get_current_user credentials site /\
  Middleware.get_superuser credentials site'
  = Middleware.get_superuser credentials site.
Proof.
  intros H. unfold Middleware.get_current_user, Middleware.get_superuser.
  destruct credentials as [token|]; [|split; reflexivity].
  rewrite (H token eq_refl). split; reflexivity.
Qed.

(** X25: an endpoint never changes the standing of its own caller.  After
    [delete_user], [make_user_superuser] or [remove_user_superuser], with
    any target and whatever the outcome, the credentials of the call
    authenticate exactly as before: the same user, or the same refusal,
    both as a user and as a superuser.  Nobody deletes or demotes
    themselves. *)
Theorem caller_keeps_standing (user_id : string) (credentials : option string)
    (site : Site) :
  (Middleware.get_current_user credentials
     (snd (Routers.delete_user user_id credentials site))
   = Middleware.get_current_user credentials site /\
   Middleware.get_superuser credentials
     (snd (Routers.delete_user user_id credentials site))
   = Middleware.get_superuser credentials site) /\
  (Middleware.get_current_user credentials
     (snd (Routers.make_user_superuser user_id credentials site))
   = Middleware.get_current_user credentials site /\
   Middleware.get_superuser credentials
     (snd (Routers.make_user_superuser user_id credentials site))
   = Middleware.get_superuser credentials site) /\
  (Middleware.get_current_user credentials
     (snd (Routers.remove_user_superuser user_id credentials site))
   = Middleware.get_current_user credentials site /\
   Middleware.get_superuser credentials
     (snd (Routers.remove_user_superuser user_id credentials site))
   = Middleware.get_superuser credentials site).
Proof.
  split; [|split]; apply superuser_lookup; intros token ->.
  - unfold Routers.delete_user.
    destruct (Middleware.get_current_user (Some token) site) as [caller|code]
      eqn:Ecaller; [|reflexivity].
    destruct (current_user_found _ _ _ Ecaller) as (Htoken & _ & _).
    injection Htoken as Htoken.
    destruct (UserCRUD.get_user_by_id site user_id) as [user|] eqn:Euser;
      [|reflexivity].
    destruct (String.eqb_spec (UserRow.id user) (UserRow.id caller)) as [E|E];
      [reflexivity|].
    cbn [snd]. unfold UserCRUD.get_user_by_id. cbn [user_rows].
    apply find_delete_first_other. congruence.
  - unfold Routers.make_user_superuser.
    destruct (Middleware.get_superuser (Some token) site) as [caller|code]
      eqn:Ecaller; [|reflexivity].
    pose proof (make_superuser_rows site user_id) as Hrows.
    destruct (UserCRUD.make_superuser site user_id) as [site' []];
      cbn [fst snd] in *; subst site';
      unfold UserCRUD.get_user_by_id; cbn [user_rows].
    all: destruct (String.eqb_spec user_id token) as [->|Hne];
      [|apply find_update_first_other; [apply set_superuser_id | exact Hne]].
    all: rewrite find_update_first_same by apply set_superuser_id.
    all: unfold Middleware.get_superuser, UserCRUD.get_user_by_id in Ecaller.
    all: destruct (find _ (user_rows site)) as [u|]; [|reflexivity].
    all: destruct (UserRow.is_active u); [|discriminate].
    all: destruct (UserRow.is_superuser u) eqn:Esuper; [|discriminate].
    all: cbn [option_map]; f_equal; destruct u; cbn in *; subst; reflexivity.
  - unfold Routers.remove_user_superuser.
    destruct (Middleware.get_superuser (Some token) site) as [caller|code]
      eqn:Ecaller; [|reflexivity].
    assert (Htoken : UserRow.id caller = token).
    { unfold Middleware.get_superuser in Ecaller.
      destruct (UserCRUD.get_user_by_id site token) as [u|] eqn:Eu;
        [|discriminate].
      destruct (UserRow.is_active u); [|discriminate].
      destruct (UserRow.is_superuser u); [|discriminate].
      cbn in Ecaller. injection Ecaller as <-.
      apply (found_user_id _ _ _ Eu). }
    destruct (String.eqb_spec user_id (UserRow.id caller)) as [E|E];
      [reflexivity|].
    pose proof (remove_superuser_rows site user_id) as Hrows.
    destruct (UserCRUD.remove_superuser site user_id) as [site' []];
      cbn [fst snd] in *; subst site';
      unfold UserCRUD.get_user_by_id; cbn [user_rows];
      apply find_update_first_other;
      solve [apply set_superuser_id | congruence].
Qed.

(** ** Uniqueness of ids and usernames *)

Lemma NoDup_insert {A : Type} (a : A) (l1 l2 : list A) :
  NoDup (l1 ++ l2) -> ~ In a (l1 ++ l2) -> NoDup (l1 ++ a :: l2).
Proof.
  intros Hnodup Hnot.
  apply (Permutation_NoDup (Permutation_middle l1 l2 a)).
  constructor; assumption.
Qed.

Lemma username_taken_In (rows : list UserRow.t) (username : string) :
  UserCRUD.username_taken rows username = false ->
  ~ In username (map UserRow.username rows).
Proof.
  unfold UserCRUD.username_taken.
  induction rows as [|u rows IH]; simpl; [tauto|].
  destruct (String.eqb_spec (UserRow.username u) username); [discriminate|].
  intros H [E|Hin]; [congruence | exact (IH H Hin)].
Qed.

Lemma create_user_unique
    (hashpw : string -> string -> string)
    (new_id : string) (now : Z) (salt : string) (site : Site)
    (username : string) (password email : option string) (is_superuser : bool)
    (site' : Site) (user : UserRow.t) :
  accounts_unique site ->
  ~ In new_id (user_ids site) ->
  UserCRUD.create_user hashpw new_id now salt site username password email
    is_superuser = Some (site', user) ->
  accounts_unique site'.
Proof.
  intros [Hids Hnames] Hfresh. unfold UserCRUD.create_user.
  destruct (UserCRUD.hash_password hashpw salt password); [|discriminate].
  destruct (UserCRUD.username_taken (user_rows site) username) eqn:Hname;
    [discriminate|].
  destruct (UserCRUD.email_taken (user_rows site) email); [discriminate|].
  intros [= <- _]. unfold accounts_unique, user_ids, usernames in *.
  cbn [user_rows]. rewrite !map_app. cbn [map].
  split; apply NoDup_insert; rewrite ?app_nil_r; try assumption.
  apply username_taken_In, Hname.
Qed.

Lemma delete_first_unique {A : Type} (g : UserRow.t -> A)
    (rows : list UserRow.t) (user_id : string) :
  NoDup (map g rows) -> NoDup (map g (UserCRUD.delete_first rows user_id)).
Proof.
  induction rows as [|u rows IH]; simpl; intros Hnodup; [constructor|].
  inversion Hnodup as [|? ? Hnot Hrest]; subst.
  destruct (String.eqb (UserRow.id u) user_id); [exact Hrest|].
  simpl. constructor; [|apply IH, Hrest].
  intros Hin. apply Hnot. clear - Hin.
  induction rows as [|v rows IH]; simpl in *; [contradiction|].
  destruct (String.eqb (UserRow.id v) user_id); [right; exact Hin|].
  destruct Hin as [E|Hin]; [left; exact E | right; apply IH, Hin].
Qed.

Lemma update_user_unique (user_id : string) (username email : option string)
    (is_active : option bool) (credentials : option string) (site : Site) :
  accounts_unique site ->
  accounts_unique
    (snd (Routers.update_user user_id username email is_active credentials
            site)).
Proof.
  intros Hunique. unfold Routers.update_user.
  destruct (Middleware.get_current_user credentials site); [|exact Hunique].
  destruct (UserCRUD.get_user_by_id site user_id) as [user|] eqn:Euser;
    [|exact Hunique].
  cbv zeta.
  match goal with |- context [if ?c then (HTTPException 400, site) else _] =>
    destruct c end; [exact Hunique|].
  match goal with |- context [if ?c then (HTTPException 500, site) else _] =>
    destruct c eqn:Ecollides end; [exact Hunique|].
  cbn [snd]. destruct Hunique as [Hids Hnames].
  unfold accounts_unique, user_ids, usernames in *. cbn [user_rows].
  split.
  - rewrite update_first_map by apply set_columns_id. exact Hids.
  - unfold UserCRUD.get_user_by_id in Euser.
    destruct (first_user_splits _ _ _
                (Routers.set_columns username email is_active) Euser)
      as (before & after & Hrows & Hupdate & Hdelete).
    rewrite Hupdate. rewrite Hrows in Hnames. rewrite Hdelete in Ecollides.
    rewrite map_app in *. cbn [map] in *.
    apply NoDup_remove_1 in Hnames as Hothers.
    destruct username as [n|].
    + apply NoDup_insert; [exact Hothers|].
      apply orb_false_elim in Ecollides. destruct Ecollides as [Hn _].
      apply username_taken_In in Hn. rewrite map_app in Hn. exact Hn.
    + exact Hnames.
Qed.

(** X26: ids and usernames stay unique.  From tables in which the user ids
    and the usernames are pairwise different, they still are after a
    registration or a user creation that draws an unused id, after an
    update, a deletion, a promotion and a demotion, whatever the
    arguments and the outcome. *)
Theorem accounts_stay_unique
    (hashpw : string -> string -> string)
    (new_id : string) (now : Z) (salt : string)
    (user_data : Routers.UserRegister) (new_username : string)
    (new_email : option string)
    (user_id : string) (username email : option string)
    (is_active : option bool) (credentials : option string) (site : Site) :
  accounts_unique site ->
  ~ In new_id (user_ids site) ->
  accounts_unique
    (snd (Routers.register_user hashpw new_id now salt user_data site)) /\
  accounts_unique
    (snd (Routers.create_user hashpw new_id now salt new_username new_email
            credentials site)) /\
  accounts_unique
    (snd (Routers.update_user user_id username email is_active credentials
            site)) /\
  accounts_unique (snd (Routers.delete_user user_id credentials site)) /\
  accounts_unique (snd (Routers.make_user_superuser user_id credentials site)) /\
  accounts_unique (snd (Routers.remove_user_superuser user_id credentials site)).
Proof.
  intros Hunique Hfresh.
  split; [|split; [|split; [|split; [|split]]]].
  - unfold Routers.register_user.
    destruct (UserCRUD.get_user_by_username site _); [exact Hunique|].
    destruct (UserCRUD.create_user hashpw new_id now salt site _ _ _ false)
      as [[site' user]|] eqn:Ecreate; [|exact Hunique].
    exact (create_user_unique _ _ _ _ _ _ _ _ _ _ _ Hunique Hfresh Ecreate).
  - unfold Routers.create_user.
    destruct (Middleware.get_current_user credentials site); [|exact Hunique].
    destruct (UserCRUD.get_user_by_username site _); [exact Hunique|].
    destruct (UserCRUD.create_user hashpw new_id now salt site _ _ _ false)
      as [[site' user]|] eqn:Ecreate; [|exact Hunique].
    exact (create_user_unique _ _ _ _ _ _ _ _ _ _ _ Hunique Hfresh Ecreate).
  - apply update_user_unique, Hunique.
  - unfold Routers.delete_user.
    destruct (Middleware.get_current_user credentials site) as [caller|];
      [|exact Hunique].
    destruct (UserCRUD.get_user_by_id site user_id) as [user|];
      [|exact Hunique].
    destruct (String.eqb (UserRow.id user) (UserRow.id caller));
      [exact Hunique|].
    destruct Hunique as [Hids Hnames]. split;
      unfold user_ids, usernames in *; cbn [snd user_rows];
      apply delete_first_unique; assumption.
  - unfold Routers.make_user_superuser.
    destruct (Middleware.get_superuser credentials site); [|exact Hunique].
    pose proof (make_superuser_rows site user_id) as Hrows.
    destruct (UserCRUD.make_superuser site user_id) as [site' []];
      cbn [fst snd] in *; subst site'; destruct Hunique as [Hids Hnames];
      split; unfold user_ids, usernames in *; cbn [user_rows];
      rewrite update_first_map by reflexivity; assumption.
  - unfold Routers.remove_user_superuser.
    destruct (Middleware.get_superuser credentials site) as [caller|];
      [|exact Hunique].
    destruct (String.eqb user_id (UserRow.id caller)); [exact Hunique|].
    pose proof (remove_superuser_rows site user_id) as Hrows.
    destruct (UserCRUD.remove_superuser site user_id) as [site' []];
      cbn [fst snd] in *; subst site'; destruct Hunique as [Hids Hnames];
      split; unfold user_ids, usernames in *; cbn [user_rows];
      rewrite update_first_map by reflexivity; assumption.
Qed.

(** Dave registers, Eve is created, Bob is renamed, promoted, demoted and
    deleted, each by Alice on the sample tables. *)
Lemma accounts_stay_unique_witness :
  accounts_unique sample_site /\
  ~ In "u-dave" (user_ids sample_site) /\
  accounts_unique
    (snd (Routers.register_user hashpw_sample "u-dave" 40 "s"
            (Routers.mkUserRegister "dave" "dig" None) sample_site)) /\
  accounts_unique
    (snd (Routers.update_user "u-bob" (Some "robert") None None
            (Some "u-alice") sample_site)) /\
  accounts_unique (snd (Routers.delete_user "u-bob" (Some "u-alice") sample_site)).
Proof.
  assert (Hunique : accounts_unique sample_site).
  { split; repeat constructor; simpl; intuition discriminate. }
  assert (Hfresh : ~ In "u-dave" (user_ids sample_site)).
  { simpl. intuition discriminate. }
  split; [exact Hunique|]. split; [exact Hfresh|].
  destruct (accounts_stay_unique hashpw_sample "u-dave" 40 "s"
              (Routers.mkUserRegister "dave" "dig" None) "eve" None
              "u-bob" (Some "robert") None None (Some "u-alice") sample_site
              Hunique Hfresh)
    as (Hregister & _ & Hupdate & Hdelete & _).
  split; [exact Hregister|]. split; [exact Hupdate | exact Hdelete].
Defined.

(** ** Deleting and updating a user *)

(** X27: a deleted user takes their predictions along.  With pairwise
    different user ids, a [delete_user] call that answers leaves exactly
    the users with another id and exactly the predictions that are not
    owned by the deleted user; a page of the history asked for that user
    is then empty, whatever the other filters. *)
Theorem deleted_user_takes_predictions_along
    (user_id : string) (credentials : option string) (site site' : Site)
    (message : string * string)
    (skip limit : nat) (model search_text : option string)
    (min_confidence max_confidence : option Q) :
  NoDup (user_ids site) ->
  user_id <> "" ->
  Routers.delete_user user_id credentials site = (Answer message, site') ->
  user_rows site' = filter (other_user user_id) (user_rows site) /\
  prediction_rows site' = filter (not_owned_by user_id) (prediction_rows site) /\
  PredictionCRUD.get_predictions (database site') skip limit (Some user_id)
    model search_text min_confidence max_confidence = [].
Proof.
  intros Hnodup Hnonempty. unfold Routers.delete_user.
  destruct (Middleware.get_current_user credentials site) as [caller|];
    [|discriminate].
  destruct (UserCRUD.get_user_by_id site user_id) as [user|] eqn:Euser;
    [|discriminate].
  destruct (String.eqb (UserRow.id user) (UserRow.id caller)); [discriminate|].
  intros [= _ <-]. cbn [user_rows prediction_rows].
  rewrite (found_user_id _ _ _ Euser).
  assert (Hpreds :
            filter (fun p =>
                      negb (SQL.where_ (SQL.eq_str (Prediction.user_id p) user_id)))
                   (prediction_rows site)
            = filter (not_owned_by user_id) (prediction_rows site)).
  { apply filter_ext. intros p. unfold not_owned_by, SQL.eq_str.
    destruct (Prediction.user_id p) as [owner|]; simpl; [|reflexivity].
    destruct (String.eqb owner user_id); reflexivity. }
  rewrite Hpreds.
  split; [apply delete_first_filter, Hnodup|]. split; [reflexivity|].
  rewrite get_predictions_query. unfold database at 2.
  cbn [predictions prediction_rows].
  rewrite filter_filter, filter_none;
    [cbn; rewrite skipn_nil, firstn_nil; reflexivity|].
  intros p. unfold not_owned_by, selected, SQL.eq_str.
  replace (Py.truthy (Some user_id)) with true
    by (destruct user_id; [congruence | reflexivity]).
  destruct (Prediction.user_id p) as [owner|]; simpl; [|reflexivity].
  destruct (String.eqb owner user_id); reflexivity.
Qed.

(** Alice deletes Bob. *)
Lemma deleted_user_takes_predictions_along_witness :
  NoDup (user_ids sample_site) /\
  "u-bob" <> "" /\
  Routers.delete_user "u-bob" (Some "u-alice") sample_site
  = (Answer ("bob", "u-bob"), mkSite [alice_row; carol_row] [rfdetr_record]) /\
  PredictionCRUD.get_predictions
    (database (mkSite [alice_row; carol_row] [rfdetr_record])) 0 10
    (Some "u-bob") None None None None = [].
Proof.
  assert (H : NoDup (user_ids sample_site)).
  { repeat constructor; simpl; intuition discriminate. }
  assert (Hne : "u-bob" <> "") by discriminate.
  assert (Hcall : Routers.delete_user "u-bob" (Some "u-alice") sample_site
                  = (Answer ("bob", "u-bob"),
                     mkSite [alice_row; carol_row] [rfdetr_record]))
    by reflexivity.
  split; [exact H|]. split; [exact Hne|]. split; [exact Hcall|].
  apply (deleted_user_takes_predictions_along "u-bob" (Some "u-alice")
           sample_site (mkSite [alice_row; carol_row] [rfdetr_record])
           ("bob", "u-bob") 0 10 None None None None H Hne Hcall).
Defined.

Lemma same_identity_refl (u : UserRow.t) : same_identity u u.
Proof. unfold same_identity. auto. Qed.

Lemma update_first_frame (rows : list UserRow.t) (user_id : string)
    (f : UserRow.t -> UserRow.t) :
  (forall u, same_identity u (f u)) ->
  Forall2 same_identity rows (UserCRUD.update_first rows user_id f) /\
  filter (other_user user_id) (UserCRUD.update_first rows user_id f)
  = filter (other_user user_id) rows.
Proof.
  intros Hf. induction rows as [|u rows [IH2 IHf]]; simpl;
    [split; [constructor | reflexivity]|].
  destruct (String.eqb (UserRow.id u) user_id) eqn:E.
  - split.
    + constructor; [apply Hf|].
      clear. induction rows; constructor;
        [apply same_identity_refl | assumption].
    + cbn [filter].
      replace (other_user user_id (f u)) with false
        by (unfold other_user; destruct (Hf u) as (-> & _); rewrite E;
            reflexivity).
      replace (other_user user_id u) with false
        by (unfold other_user; rewrite E; reflexivity).
      reflexivity.
  - split.
    + constructor; [apply same_identity_refl | exact IH2].
    + cbn [filter]. rewrite IHf. reflexivity.
Qed.

(** X28: what [update_user] cannot touch.  Whatever the arguments and the
    outcome, the predictions are as before, every user row keeps its id,
    password hash, creation time and superuser flag in its place, and the
    rows of the users with another id are unchanged altogether. *)
Theorem update_user_keeps_identity (user_id : string)
    (username email : option string) (is_active : option bool)
    (credentials : option string) (site : Site) :
  prediction_rows
    (snd (Routers.update_user user_id username email is_active credentials site))
  = prediction_rows site /\
  Forall2 same_identity (user_rows site)
    (user_rows
       (snd (Routers.update_user user_id username email is_active credentials
               site))) /\
  filter (other_user user_id)
    (user_rows
       (snd (Routers.update_user user_id username email is_active credentials
               site)))
  = filter (other_user user_id) (user_rows site).
Proof.
  assert (Hsame : Forall2 same_identity (user_rows site) (user_rows site)).
  { induction (user_rows site); constructor;
      [apply same_identity_refl | assumption]. }
  unfold Routers.update_user.
  destruct (Middleware.get_current_user credentials site); [|auto].
  destruct (UserCRUD.get_user_by_id site user_id) as [user|]; [|auto].
  cbv zeta.
  match goal with |- context [if ?c then (HTTPException 400, site) else _] =>
    destruct c end; [auto|].
  match goal with |- context [if ?c then (HTTPException 500, site) else _] =>
    destruct c end; [auto|].
  cbn [snd prediction_rows user_rows]. split; [reflexivity|].
  apply update_first_frame. intros u. unfold same_identity. auto.
Qed.

(** * The prediction endpoints in full *)


(** X29: what it takes for a prediction endpoint to store.  Whatever the
    request, the users are untouched, and the predictions are either
    unchanged or longer by exactly one record; the latter only when the
    credentials authenticate a caller, [validate_image_file] accepts the
    upload, the upload has a filename and no detector raises, and the new
    record then has the drawn identifier and the caller as its owner. *)
Theorem prediction_endpoint_stores_only_valid_uploads
    (max_file_size : Z) (suffix lower b64encode : string -> string)
    (tmp_name : string)
    (rfdetr_model_predict : string -> Detections)
    (yolo_model_predict : string -> Q -> list YoloResult)
    (sha256_hexdigest : string -> string)
    (new_id : string) (now : Z) (image : UploadFile.t) (req : Request)
    (comment : option string) (credentials : option string) (site : Site) :
  user_rows
    (snd (Upload.predict max_file_size suffix lower b64encode tmp_name
            rfdetr_model_predict yolo_model_predict sha256_hexdigest
            new_id now image req comment credentials site))
  = user_rows site /\
  (prediction_rows
     (snd (Upload.predict max_file_size suffix lower b64encode tmp_name
             rfdetr_model_predict yolo_model_predict sha256_hexdigest
             new_id now image req comment credentials site))
   = prediction_rows site
   \/
   exists caller name created,
     Middleware.get_current_user credentials site = Answer caller /\
     Upload.validate_image_file max_file_size suffix lower image = Answer tt /\
     UploadFile.filename image = Some name /\
     inference rfdetr_model_predict yolo_model_predict
       (UploadFile.content image) req <> None /\
     Prediction.id created = new_id /\
     Prediction.user_id created = Some (UserRow.id caller) /\
     prediction_rows
       (snd (Upload.predict max_file_size suffix lower b64encode tmp_name
               rfdetr_model_predict yolo_model_predict sha256_hexdigest
               new_id now image req comment credentials site))
     = prediction_rows site ++ [created]).
Proof.
  unfold Upload.predict.
  destruct (Middleware.get_current_user credentials site) as [caller|code]
    eqn:Ecaller.
  2: { split; [reflexivity | left; reflexivity]. }
  destruct (Upload.validate_image_file max_file_size suffix lower image)
    as [[]|code] eqn:Evalid.
  2: { split; [reflexivity | left; reflexivity]. }
  destruct (UploadFile.filename image) as [name|] eqn:Ename.
  2: { split; [reflexivity | left; reflexivity]. }
  cbv zeta.
  destruct (inference rfdetr_model_predict yolo_model_predict
              (UploadFile.content image) req) as [results|] eqn:Hinf.
  - destruct (Predict_after_inference rfdetr_model_predict yolo_model_predict
                sha256_hexdigest
                (Upload.image_to_base64 suffix lower b64encode
                   (tmp_name ++ suffix name))
                new_id now (UploadFile.content image) req comment
                (UserRow.user caller) (database site) results Hinf)
      as (created & _ & Hid & Huser & ->).
    destruct (find _ (predictions (database site))); cbn [snd user_rows].
    + split; [reflexivity | left; reflexivity].
    + split; [reflexivity|].
      right. exists caller, name, created.
      repeat split; try assumption; try reflexivity. congruence.
  - rewrite (Predict_inference_fails rfdetr_model_predict yolo_model_predict
               sha256_hexdigest _ new_id now (UploadFile.content image) req
               comment (UserRow.user caller) (database site) Hinf).
    cbn [snd user_rows].
    split; [reflexivity | left; reflexivity].
Qed.


